(** * Model-serving microservice: record services and request handlers

    A shallow embedding of
      - [db/abstract_base.py]          (connection handling),
      - [db/model_serving_service.py]  (Models / Gestures / Predictions services),
      - [models/gesture.py]            (request models and their field constraints),
      - [main.py]                      (the FastAPI route handlers),
    followed by the properties of the request contracts.

    Python values are a tagged union [pyval]; dictionaries are association
    lists in insertion order; the database is a record of three tables, each a
    list of rows in insertion order with its AUTO_INCREMENT counter.  Service
    methods and handlers live in a state-and-exception monad over that
    database: a raised exception keeps the state reached so far (the
    connection runs with autocommit).

    The database server and its driver are libraries, and the table
    definitions are not part of the repository.  What the server does with a
    statement beyond what the statement itself says is therefore an interface
    ([ServerModel]): which texts [CAST(... AS JSON)] accepts and how the
    column reads back, whether an INSERT is executed and whether a refused
    one uses up an identifier, how [=] compares, which rows an UPDATE counts
    as changed, and whether it evaluates its SET clause when it matches no
    row.  An UPDATE or DELETE by primary key is taken to execute once its
    JSON argument has been accepted. *)

From Stdlib Require Import ZArith List String Ascii Bool Lia.
From Stdlib Require Import DecimalString DecimalPos DecimalZ DecimalFacts.
From Stdlib Require Import Permutation.
Import ListNotations.

Set Warnings "-register-all".

Local Open Scope string_scope.
Local Open Scope Z_scope.

(* ------------------------------------------------------------------------- *)
(** ** Python values *)
(* ------------------------------------------------------------------------- *)

(** Python [float]s are carried around but never computed with: the type,
    the two conversions the [json] module needs and the two tests the code
    depends on form an interface. *)
Class FloatModel := {
  float : Type;
  float_repr : float -> string;               (* repr(x), as json.dumps writes it *)
  float_of_literal : string -> option float;  (* float(text), as json.loads reads it *)
  float_is_zero : float -> bool;              (* x == 0: 0.0 and -0.0 *)
  float_is_finite : float -> bool             (* neither nan nor an infinity *)
}.

Section Service.

Context {FM : FloatModel}.

Inductive pyval : Type :=
| PNone
| PBool (b : bool)
| PInt (n : Z)
| PFloat (x : float)
| PStr (s : string)
| PList (items : list pyval)
| PDict (items : list (string * pyval)).

Definition pydict := list (string * pyval).

(** The [__bool__] protocol, as used by [if x:], [not x] and [x or y]. *)
Class Truthy (A : Type) := truthy : A -> bool.

#[global] Instance Truthy_bool : Truthy bool := fun b => b.
#[global] Instance Truthy_Z : Truthy Z := fun n => negb (n =? 0).
#[global] Instance Truthy_string : Truthy string :=
  fun s => match s with EmptyString => false | _ => true end.
#[global] Instance Truthy_list {A} : Truthy (list A) :=
  fun l => match l with [] => false | _ => true end.
#[global] Instance Truthy_option {A} `{Truthy A} : Truthy (option A) :=
  fun o => match o with None => false | Some a => truthy a end.
#[global] Instance Truthy_pyval : Truthy pyval :=
  fun v => match v with
           | PNone => false
           | PBool b => b
           | PInt n => truthy n
           | PFloat x => negb (float_is_zero x)
           | PStr s => truthy s
           | PList l => truthy l
           | PDict d => truthy d
           end.

(** [x or y] *)
Definition py_or (x y : pyval) : pyval := if truthy x then x else y.

(** Embedding of optional typed arguments ([Optional[str]], [Optional[int]],
    [Optional[float]]) into values. *)
Definition of_opt {A} (inj : A -> pyval) (o : option A) : pyval :=
  match o with None => PNone | Some a => inj a end.

(** *** Dictionaries *)

Fixpoint dict_lookup (d : pydict) (k : string) : option pyval :=
  match d with
  | [] => None
  | (k', v) :: d' => if String.eqb k k' then Some v else dict_lookup d' k
  end.

(** [d.get(k)] *)
Definition dict_get (d : pydict) (k : string) : pyval :=
  match dict_lookup d k with Some v => v | None => PNone end.

(** [d.get(k, default)] *)
Definition dict_get_default (d : pydict) (k : string) (default : pyval) : pyval :=
  match dict_lookup d k with Some v => v | None => default end.

(** [d[k] = v]: an existing key keeps its position. *)
Fixpoint dict_set (d : pydict) (k : string) (v : pyval) : pydict :=
  match d with
  | [] => [(k, v)]
  | (k', v') :: d' =>
      if String.eqb k k' then (k', v) :: d' else (k', v') :: dict_set d' k v
  end.

(* ------------------------------------------------------------------------- *)
(** ** The [json] module: [dumps] and [loads] *)
(* ------------------------------------------------------------------------- *)

Definition dquote : ascii := ascii_of_nat 34.
Definition backslash : ascii := ascii_of_nat 92.
Definition str1 (c : ascii) : string := String c EmptyString.

Definition string_of_Z (n : Z) : string := NilZero.string_of_int (Z.to_int n).

Definition hex_digit (n : N) : ascii :=
  if (n <? 10)%N then ascii_of_N (48 + n) else ascii_of_N (87 + n).

(** One character of a string literal, with [ensure_ascii=True]: the quote
    and the backslash are escaped, the short escapes are used where they
    exist, and every other character outside [' '..'~'] becomes [\u00XX]
    (a character of a [string] is a code point below 256). *)
Definition json_escape_char (c : ascii) : string :=
  let n := N_of_ascii c in
  if (n =? 34)%N then String backslash (str1 dquote) else
  if (n =? 92)%N then String backslash (str1 backslash) else
  if (n =? 10)%N then "\n" else
  if (n =? 13)%N then "\r" else
  if (n =? 9)%N then "\t" else
  if (n =? 8)%N then "\b" else
  if (n =? 12)%N then "\f" else
  if ((32 <=? n) && (n <=? 126))%N then str1 c
  else "\u00" ++ String (hex_digit (n / 16)) (str1 (hex_digit (n mod 16))).

Fixpoint json_escape (s : string) : string :=
  match s with
  | EmptyString => EmptyString
  | String c s' => json_escape_char c ++ json_escape s'
  end.

Definition json_quote (s : string) : string :=
  String dquote (json_escape s ++ str1 dquote).

(** [json.dumps(v)] with the default separators [", "] and [": "]. *)
Fixpoint json_dumps (v : pyval) : string :=
  match v with
  | PNone => "null"
  | PBool true => "true"
  | PBool false => "false"
  | PInt n => string_of_Z n
  | PFloat x => float_repr x
  | PStr s => json_quote s
  | PList items =>
      "[" ++
      (fix elems (l : list pyval) : string :=
         match l with
         | [] => EmptyString
         | x :: r =>
             match r with
             | [] => json_dumps x
             | _ :: _ => json_dumps x ++ ", " ++ elems r
             end
         end) items
      ++ "]"
  | PDict items =>
      "{" ++
      (fix members (l : list (string * pyval)) : string :=
         match l with
         | [] => EmptyString
         | (k, x) :: r =>
             match r with
             | [] => json_quote k ++ ": " ++ json_dumps x
             | _ :: _ => json_quote k ++ ": " ++ json_dumps x ++ ", " ++ members r
             end
         end) items
      ++ "}"
  end.

(** [json.dumps] writes a float that is not finite as [NaN], [Infinity] or
    [-Infinity]; [all_finite v] holds when [v] contains no such float. *)
Fixpoint all_finite (v : pyval) : bool :=
  match v with
  | PFloat x => float_is_finite x
  | PList items =>
      (fix elems (l : list pyval) : bool :=
         match l with
         | [] => true
         | x :: r => all_finite x && elems r
         end) items
  | PDict items =>
      (fix members (l : list (string * pyval)) : bool :=
         match l with
         | [] => true
         | (_, x) :: r => all_finite x && members r
         end) items
  | _ => true
  end.

(** Values whose JSON text every JSON implementation reads and writes in the
    same way: [null], the booleans, integers of 64 bits, lists of those, and
    the empty object. *)
Definition plain_scalar (v : pyval) : bool :=
  match v with
  | PNone | PBool _ => true
  | PInt n => (- 2 ^ 63 <=? n) && (n <? 2 ^ 63)
  | _ => false
  end.

Definition plain_json (v : pyval) : bool :=
  match v with
  | PList items => forallb plain_scalar items
  | PDict [] => true
  | _ => plain_scalar v
  end.

(** The values the driver converts when it binds them to [%s]: [None],
    booleans, numbers and strings.  A list or a dict has no conversion. *)
Definition bindable (v : pyval) : bool :=
  match v with
  | PList _ | PDict _ => false
  | _ => true
  end.

(** *** [json.loads]

    A recursive-descent reader with fuel (the length of the text bounds the
    nesting depth and the number of elements).  [None] stands for
    [JSONDecodeError]. *)

Definition is_ws (c : ascii) : bool :=
  let n := N_of_ascii c in
  ((n =? 32) || (n =? 9) || (n =? 10) || (n =? 13))%N.

Fixpoint skip_ws (s : string) : string :=
  match s with
  | String c s' => if is_ws c then skip_ws s' else s
  | EmptyString => s
  end.

Definition is_digit (c : ascii) : bool :=
  let n := N_of_ascii c in ((48 <=? n) && (n <=? 57))%N.

Definition is_number_char (c : ascii) : bool :=
  is_digit c ||
  match c with
  | "-"%char | "+"%char | "."%char | "e"%char | "E"%char => true
  | _ => false
  end.

(** The longest prefix of number characters, and what follows it. *)
Fixpoint span_number (s : string) : string * string :=
  match s with
  | String c s' =>
      if is_number_char c
      then let (lit, rest) := span_number s' in (String c lit, rest)
      else (EmptyString, s)
  | EmptyString => (EmptyString, s)
  end.

Fixpoint all_digits (s : string) : bool :=
  match s with
  | EmptyString => true
  | String c s' => is_digit c && all_digits s'
  end.

(** The integer literals of JSON: an optional minus sign, then either a
    single zero or digits that do not start with a zero. *)
Definition is_int_literal (lit : string) : bool :=
  let digits := match lit with String "-"%char d => d | _ => lit end in
  match digits with
  | EmptyString => false
  | String "0"%char EmptyString => true
  | String "0"%char _ => false
  | String _ _ => all_digits digits
  end.

Definition Z_of_literal (lit : string) : option Z :=
  if is_int_literal lit
  then option_map Z.of_int (NilZero.int_of_string lit)
  else None.

Fixpoint strip_prefix (pre s : string) : option string :=
  match pre, s with
  | EmptyString, _ => Some s
  | String a pre', String b s' => if Ascii.eqb a b then strip_prefix pre' s' else None
  | String _ _, EmptyString => None
  end.

Fixpoint span_digits (s : string) : string * string :=
  match s with
  | String c s' =>
      if is_digit c
      then let (ds, rest) := span_digits s' in (String c ds, rest)
      else (EmptyString, s)
  | EmptyString => (EmptyString, s)
  end.

(** An exponent: [e] or [E], an optional sign, at least one digit. *)
Definition is_exponent (s : string) : bool :=
  match s with
  | String ("e"%char | "E"%char) s' =>
      let ds := match s' with
                | String ("+"%char | "-"%char) d => d
                | _ => s'
                end in
      match ds with
      | EmptyString => false
      | String _ _ => all_digits ds
      end
  | _ => false
  end.

(** The other number literals of JSON: an integer part followed by a
    fraction, an exponent, or both. *)
Definition is_float_literal (lit : string) : bool :=
  let unsigned := match lit with String "-"%char d => d | _ => lit end in
  let (int_part, after_int) := span_digits unsigned in
  is_int_literal int_part &&
  match after_int with
  | String "."%char s' =>
      let (frac, after_frac) := span_digits s' in
      match frac, after_frac with
      | EmptyString, _ => false
      | String _ _, EmptyString => true
      | String _ _, String _ _ => is_exponent after_frac
      end
  | _ => is_exponent after_int
  end.

Definition parse_number (s : string) : option (pyval * string) :=
  let (lit, rest) := span_number s in
  if is_int_literal lit
  then option_map (fun n => (PInt n, rest)) (Z_of_literal lit)
  else if is_float_literal lit
  then option_map (fun x => (PFloat x, rest)) (float_of_literal lit)
  else None.

(** The three constants the decoder accepts besides numbers. *)
Definition parse_constant (s : string) : option (pyval * string) :=
  let constant (lit : string) :=
    match strip_prefix lit s with
    | Some rest => option_map (fun x => (PFloat x, rest)) (float_of_literal lit)
    | None => None
    end in
  match s with
  | String "N"%char _ => constant "NaN"
  | String "I"%char _ => constant "Infinity"
  | String "-"%char _ => constant "-Infinity"
  | _ => None
  end.

Definition hex_value (c : ascii) : option N :=
  let n := N_of_ascii c in
  if ((48 <=? n) && (n <=? 57))%N then Some (n - 48)%N
  else if ((97 <=? n) && (n <=? 102))%N then Some (n - 87)%N
  else if ((65 <=? n) && (n <=? 70))%N then Some (n - 55)%N
  else None.

(** The body of a string literal up to its closing quote.  Only [\u00XX]
    escapes are read back (code points below 256). *)
Fixpoint parse_string_body (s : string) : option (string * string) :=
  match s with
  | EmptyString => None
  | String c s' =>
      if Ascii.eqb c dquote then Some (EmptyString, s')
      else if Ascii.eqb c backslash then
        match s' with
        | String e s'' =>
            let continue (ch : ascii) (rest : string) :=
              option_map (fun '(body, r) => (String ch body, r)) (parse_string_body rest) in
            if Ascii.eqb e dquote then continue dquote s''
            else if Ascii.eqb e backslash then continue backslash s''
            else match e with
                 | "/"%char => continue "/"%char s''
                 | "n"%char => continue (ascii_of_nat 10) s''
                 | "r"%char => continue (ascii_of_nat 13) s''
                 | "t"%char => continue (ascii_of_nat 9) s''
                 | "b"%char => continue (ascii_of_nat 8) s''
                 | "f"%char => continue (ascii_of_nat 12) s''
                 | "u"%char =>
                     match s'' with
                     | String "0"%char (String "0"%char (String h (String l s3))) =>
                         match hex_value h, hex_value l with
                         | Some hv, Some lv => continue (ascii_of_N (16 * hv + lv)) s3
                         | _, _ => None
                         end
                     | _ => None
                     end
                 | _ => None
                 end
        | EmptyString => None
        end
      else if (N_of_ascii c <? 32)%N then None
      else option_map (fun '(body, r) => (String c body, r)) (parse_string_body s')
  end.

(** The elements of an array after the first one has been announced:
    [value (, value)* ]]. *)
Fixpoint parse_elems (value : string -> option (pyval * string))
         (fuel : nat) (s : string) : option (list pyval * string) :=
  match fuel with
  | O => None
  | S fuel' =>
      match value s with
      | Some (v, rest) =>
          match skip_ws rest with
          | String ","%char rest' =>
              option_map (fun '(vs, r) => (v :: vs, r)) (parse_elems value fuel' rest')
          | String "]"%char rest' => Some ([v], rest')
          | _ => None
          end
      | None => None
      end
  end.

(** The members of an object: [string : value (, string : value)* }]. *)
Fixpoint parse_members (value : string -> option (pyval * string))
         (fuel : nat) (s : string) : option (list (string * pyval) * string) :=
  match fuel with
  | O => None
  | S fuel' =>
      match skip_ws s with
      | String q s1 =>
          if Ascii.eqb q dquote then
            match parse_string_body s1 with
            | Some (k, s2) =>
                match skip_ws s2 with
                | String ":"%char s3 =>
                    match value s3 with
                    | Some (v, rest) =>
                        match skip_ws rest with
                        | String ","%char rest' =>
                            option_map (fun '(kvs, r) => ((k, v) :: kvs, r))
                                       (parse_members value fuel' rest')
                        | String "}"%char rest' => Some ([(k, v)], rest')
                        | _ => None
                        end
                    | None => None
                    end
                | _ => None
                end
            | None => None
            end
          else None
      | EmptyString => None
      end
  end.

(** Python's decoder reads an object into a [dict]: a repeated key keeps its
    first position and takes the last value. *)
Definition dict_of_members (kvs : list (string * pyval)) : pydict :=
  fold_left (fun d '(k, v) => dict_set d k v) kvs [].

Fixpoint parse_value (fuel : nat) (s : string) : option (pyval * string) :=
  match fuel with
  | O => None
  | S fuel' =>
      match skip_ws s with
      | EmptyString => None
      | String c rest as s0 =>
          if Ascii.eqb c dquote then
            option_map (fun '(str, r) => (PStr str, r)) (parse_string_body rest)
          else
          match c with
          | "["%char =>
              match skip_ws rest with
              | String "]"%char rest' => Some (PList [], rest')
              | _ => option_map (fun '(vs, r) => (PList vs, r))
                                (parse_elems (parse_value fuel') fuel' rest)
              end
          | "{"%char =>
              match skip_ws rest with
              | String "}"%char rest' => Some (PDict [], rest')
              | _ => option_map (fun '(kvs, r) => (PDict (dict_of_members kvs), r))
                                (parse_members (parse_value fuel') fuel' rest)
              end
          | "n"%char => option_map (fun r => (PNone, r)) (strip_prefix "null" s0)
          | "t"%char => option_map (fun r => (PBool true, r)) (strip_prefix "true" s0)
          | "f"%char => option_map (fun r => (PBool false, r)) (strip_prefix "false" s0)
          | _ =>
              match parse_number s0 with
              | Some number => Some number
              | None => parse_constant s0
              end
          end
      end
  end.

(** [json.loads(text)]: one value, then nothing but white space. *)
Definition json_loads (text : string) : option pyval :=
  match parse_value (S (String.length text)) text with
  | Some (v, rest) =>
      match skip_ws rest with
      | EmptyString => Some v
      | String _ _ => None
      end
  | None => None
  end.

(* ------------------------------------------------------------------------- *)
(** ** Exceptions, results and the database state *)
(* ------------------------------------------------------------------------- *)

Inductive exn : Type :=
| HTTPException (status_code : Z) (detail : string)
| RequestValidationError            (* raised by the request layer: 422 *)
| MySQLError
| NotImplementedError (msg : string)
| AttributeError (cls attr : string)
| NameError (name : string)
| KeyError (key : string)
| TypeError
| JSONDecodeError.

Inductive result (A : Type) : Type :=
| Ok (a : A)
| Raise (e : exn).
Arguments Ok {A} a.
Arguments Raise {A} e.

(** The status line the framework sends: the route's success code, the code
    of an [HTTPException], 422 for a body the request model refuses, 500 for
    any other exception. *)
Definition http_status {A} (success_code : Z) (r : result A) : Z :=
  match r with
  | Ok _ => success_code
  | Raise (HTTPException code _) => code
  | Raise RequestValidationError => 422
  | Raise _ => 500
  end.

(** Rows, as a SELECT returns them.  A column holds the value that was bound
    to it ([PNone] is NULL); a JSON column holds the text in which the server
    writes the stored document; a timestamp is a number of seconds. *)
Record model_row := {
  m_model_id : Z;
  m_name : pyval;
  m_version : pyval;
  m_model_type : pyval;
  m_artifact_uri : pyval;
  m_input_shape : string;
  m_output_shape : string;
  m_status : pyval;
  m_metrics : string;
  m_sha256 : pyval;
  m_created_at : Z
}.

Record gesture_row := {
  g_gesture_id : Z;
  g_session_id : pyval;
  g_user_id : pyval;
  g_landmarks : string;
  g_frame_width : pyval;
  g_frame_height : pyval;
  g_source : pyval;
  g_received_at : Z;
  g_model_id : pyval;
  g_predicted_label : pyval;
  g_confidence : pyval;
  g_probs : option string;
  g_processing_time_ms : pyval;
  g_processed_at : option Z
}.

Record prediction_row := {
  p_prediction_id : Z;
  p_requestor_user_id : pyval;
  p_session_id : pyval;
  p_model_id : pyval;
  p_status : pyval;
  p_params : string;
  p_created_at : Z;
  p_completed_at : option Z;
  p_output_text : pyval;
  p_confidence : pyval;
  p_latency_ms : pyval;
  p_error_message : pyval
}.

Record table (R : Type) := {
  rows : list R;            (* in insertion order *)
  auto_increment : Z        (* the identifier the next INSERT receives *)
}.
Arguments rows {R} t.
Arguments auto_increment {R} t.

Record world := {
  reachable : bool;         (* does mysql.connector.connect succeed *)
  utcnow : Z;               (* the service's clock, datetime.utcnow() *)
  db_now : Z;               (* the server's clock, NOW() *)
  models : table model_row;
  gestures : table gesture_row;
  predictions : table prediction_row
}.

Definition set_models (w : world) (t : table model_row) : world :=
  {| reachable := reachable w; utcnow := utcnow w; db_now := db_now w;
     models := t; gestures := gestures w; predictions := predictions w |}.
Definition set_gestures (w : world) (t : table gesture_row) : world :=
  {| reachable := reachable w; utcnow := utcnow w; db_now := db_now w;
     models := models w; gestures := t; predictions := predictions w |}.
Definition set_predictions (w : world) (t : table prediction_row) : world :=
  {| reachable := reachable w; utcnow := utcnow w; db_now := db_now w;
     models := models w; gestures := gestures w; predictions := t |}.

(** *** The monad of service methods and handlers *)

Definition M (A : Type) : Type := world -> result A * world.

Definition ret {A} (a : A) : M A := fun w => (Ok a, w).
Definition raise {A} (e : exn) : M A := fun w => (Raise e, w).
Definition bind {A B} (c : M A) (k : A -> M B) : M B :=
  fun w => match c w with
           | (Ok a, w') => k a w'
           | (Raise e, w') => (Raise e, w')
           end.
Definition get_world : M world := fun w => (Ok w, w).
Definition put_world (w' : world) : M unit := fun _ => (Ok tt, w').
Definition lift {A} (r : result A) : M A := fun w => (r, w).

Notation "x <- c ;; k" := (bind c (fun x => k))
  (at level 61, c at next level, right associativity).
Notation "c ;; k" := (bind c (fun _ => k))
  (at level 61, right associativity).

(** [d[k]] *)
Definition getitem (d : pydict) (k : string) : M pyval :=
  match dict_lookup d k with
  | Some v => ret v
  | None => raise (KeyError k)
  end.

(** The value of a JSON column in a fetched row: the cursor hands the
    document over as text. *)
Definition json_column (text : string) : pyval := PStr text.

(* ------------------------------------------------------------------------- *)
(** ** The database server *)
(* ------------------------------------------------------------------------- *)

(** What becomes of an INSERT: the row is added, or the statement is refused
    and nothing is added. *)
Inductive insert_outcome : Type :=
| Inserted
| Refused (identifier_used : bool).

(** What the statements of the services leave to the server and the
    driver. *)
Class ServerModel := {
  (** [CAST(text AS JSON)]: [None] when the server refuses the text, and
      otherwise the text in which the column is read back. *)
  cast_as_json : string -> option string;
  (** What becomes of the INSERT that would add this row.  It is refused
      when the driver cannot convert a bound value, or when a value does not
      fit its column or a constraint of the table; the server may then have
      used up the identifier all the same. *)
  insert_into_models : world -> model_row -> insert_outcome;
  insert_into_gestures : world -> gesture_row -> insert_outcome;
  insert_into_predictions : world -> prediction_row -> insert_outcome;
  (** [column = %s]: the comparison of the column's type and collation. *)
  sql_eq : pyval -> pyval -> bool;
  (** Whether an UPDATE that gives a stored row these new values leaves it as
      it was, in which case the row does not count in [rowcount]. *)
  gestures_unchanged : gesture_row -> gesture_row -> bool;
  predictions_unchanged : prediction_row -> prediction_row -> bool;
  (** Whether an UPDATE that matches no row evaluates its SET clause all the
      same, and so fails on a text that is not JSON. *)
  evaluates_set_without_rows : bool
}.

(** The part of the server's and the driver's behaviour that the properties
    rely on. *)
Class ServerLaws (SM : ServerModel) : Prop := {
  (** A plain document is accepted and read back as Python wrote it. *)
  cast_as_json_plain :
    forall v, plain_json v = true ->
              cast_as_json (json_dumps v) = Some (json_dumps v);
  (** [NaN], [Infinity] and [-Infinity] are not JSON. *)
  cast_as_json_finite :
    forall v, all_finite v = false -> cast_as_json (json_dumps v) = None;
  (** A list or a dict cannot be bound to a column: the driver raises before
      it sends the statement. *)
  insert_into_models_bindable :
    forall w r, forallb bindable [m_name r; m_version r; m_model_type r;
                                  m_artifact_uri r; m_status r; m_sha256 r] = false ->
                insert_into_models w r = Refused false;
  insert_into_gestures_bindable :
    forall w r, forallb bindable [g_session_id r; g_user_id r; g_frame_width r;
                                  g_frame_height r; g_source r] = false ->
                insert_into_gestures w r = Refused false;
  insert_into_predictions_bindable :
    forall w r, forallb bindable [p_requestor_user_id r; p_session_id r;
                                  p_model_id r; p_status r] = false ->
                insert_into_predictions w r = Refused false;
  (** NULL equals nothing. *)
  sql_eq_null : forall v, sql_eq PNone v = false;
  (** A row whose [processed_at] was NULL and no longer is has changed. *)
  gestures_unchanged_processed_at :
    forall r r', gestures_unchanged r r' = true ->
                 g_processed_at r = None -> g_processed_at r' = None
}.

Context {SM : ServerModel}.

(* ------------------------------------------------------------------------- *)
(** ** SQL fragments *)
(* ------------------------------------------------------------------------- *)

(** [CAST(%s AS JSON)] inside a statement: a refused text fails the
    statement with the driver's error. *)
Definition sql_cast_as_json (text : string) : M string :=
  match cast_as_json text with
  | Some stored => ret stored
  | None => raise MySQLError
  end.

(** Modelled from the spec: the table definitions are not in the
    repository.  "created_at (server timestamp)": a [created_at] column that
    the INSERT does not name receives the server's time. *)
Definition default_created_at (w : world) : Z := db_now w.

(** Modelled from the spec: the table definitions are not in the
    repository.  "Invariant: inference fields are null until
    [attach_inference] is called", and likewise the fields that
    [mark_complete] records: a column that the INSERT does not name is
    NULL. *)
Definition default_null : pyval := PNone.

(** Modelled from the spec: NULL, as for [default_null], in a JSON or
    timestamp column that the INSERT does not name. *)
Definition default_unset {A} : option A := None.

(** [INSERT]: the row receives the counter's value, which [lastrowid] then
    reports. *)
Definition sql_insert {R} (t : table R) (mk : Z -> R) : table R * Z :=
  let id := auto_increment t in
  ({| rows := rows t ++ [mk id]; auto_increment := id + 1 |}, id).

(** A refused [INSERT] adds no row; the counter moves on when the server has
    used up the identifier. *)
Definition sql_refused {R} (identifier_used : bool) (t : table R) : table R :=
  if identifier_used
  then {| rows := rows t; auto_increment := auto_increment t + 1 |}
  else t.

(** [UPDATE ... WHERE id = ...]: [rowcount] is the number of rows that the
    statement changed (the connection is opened without the FOUND_ROWS flag);
    a matched row that already held the new values does not count. *)
Definition sql_update {R} (t : table R) (matches : R -> bool) (f : R -> R)
           (unchanged : R -> R -> bool) : table R * Z :=
  ({| rows := map (fun r => if matches r then f r else r) (rows t);
      auto_increment := auto_increment t |},
   Z.of_nat (List.length
               (filter (fun r => matches r && negb (unchanged r (f r))) (rows t)))).

(** [UPDATE ... SET ..., column = CAST(%s AS JSON), ... WHERE id = ...]: the
    cast is part of the SET clause, which the server evaluates for the rows
    the statement matches. *)
Definition sql_update_cast {R} (t : table R) (matches : R -> bool)
           (text : string) (f : string -> R -> R) (unchanged : R -> R -> bool)
  : M (table R * Z) :=
  if existsb matches (rows t) || evaluates_set_without_rows then
    stored <- sql_cast_as_json text ;;
    ret (sql_update t matches (f stored) unchanged)
  else
    ret (t, 0).

(** [DELETE ... WHERE id = ...]: [rowcount] is the number of removed rows. *)
Definition sql_delete {R} (t : table R) (matches : R -> bool) : table R * Z :=
  ({| rows := filter (fun r => negb (matches r)) (rows t);
      auto_increment := auto_increment t |},
   Z.of_nat (List.length (filter matches (rows t)))).

(** [ORDER BY key DESC], by insertion; rows with equal keys keep their
    insertion order. *)
Fixpoint insert_desc {R} (key : R -> Z) (x : R) (l : list R) : list R :=
  match l with
  | [] => [x]
  | y :: l' => if key x <? key y then y :: insert_desc key x l' else x :: l
  end.

Definition order_by_desc {R} (key : R -> Z) (l : list R) : list R :=
  fold_right (insert_desc key) [] l.

(** [LIMIT n]: the server refuses a negative count. *)
Definition sql_limit {R} (n : Z) (l : list R) : M (list R) :=
  if n <? 0 then raise MySQLError else ret (firstn (Z.to_nat n) l).

(* ------------------------------------------------------------------------- *)
(** ** db/abstract_base.py *)
(* ------------------------------------------------------------------------- *)

(** [get_connection]: [_connection] is [None] on the instance each request
    constructs, so [connect] runs; a failed connect re-raises the driver's
    error. *)
Definition get_connection : M unit :=
  w <- get_world ;;
  if reachable w then ret tt else raise MySQLError.

Definition AbstractBaseMySQLService_attrs : list string :=
  ["__init__"; "connect"; "get_connection"; "close_connection";
   "create"; "retrieve"; "update"; "delete"; "_db_config"; "_connection"].

(* ------------------------------------------------------------------------- *)
(** ** db/model_serving_service.py *)
(* ------------------------------------------------------------------------- *)

(** *** ModelsMySQLService *)

Definition ModelsMySQLService_attrs : list string :=
  ["create"; "retrieve"; "update"; "delete"].

(** The row that [INSERT INTO models (name, version, model_type,
    artifact_uri, input_shape, output_shape, status, metrics, sha256)] adds
    under the identifier [id], given the values of its nine columns. *)
Definition models_insert_row (w : world) (id : Z)
           (name version model_type artifact_uri : pyval)
           (input_shape output_shape : string) (status : pyval)
           (metrics : string) (sha256 : pyval) : model_row :=
  {| m_model_id := id;
     m_name := name;
     m_version := version;
     m_model_type := model_type;
     m_artifact_uri := artifact_uri;
     m_input_shape := input_shape;
     m_output_shape := output_shape;
     m_status := status;
     m_metrics := metrics;
     m_sha256 := sha256;
     m_created_at := default_created_at w |}.

Definition Models_create (data : pydict) : M Z :=
  get_connection ;;
  name <- getitem data "name" ;;
  version <- getitem data "version" ;;
  model_type <- getitem data "model_type" ;;
  artifact_uri <- getitem data "artifact_uri" ;;
  input_shape <- getitem data "input_shape" ;;
  output_shape <- getitem data "output_shape" ;;
  let status := dict_get_default data "status" (PStr "active") in
  let metrics :=
    match dict_get data "metrics" with
    | PNone => "null"
    | v => json_dumps v
    end in
  let sha256 := dict_get data "sha256" in
  input_shape_json <- sql_cast_as_json (json_dumps input_shape) ;;
  output_shape_json <- sql_cast_as_json (json_dumps output_shape) ;;
  metrics_json <- sql_cast_as_json metrics ;;
  w <- get_world ;;
  let new_row id :=
    models_insert_row w id name version model_type artifact_uri
                      input_shape_json output_shape_json status metrics_json
                      sha256 in
  match insert_into_models w (new_row (auto_increment (models w))) with
  | Inserted =>
      let (t, model_id) := sql_insert (models w) new_row in
      put_world (set_models w t) ;;
      ret model_id
  | Refused identifier_used =>
      put_world (set_models w (sql_refused identifier_used (models w))) ;;
      raise MySQLError
  end.

Definition Models_retrieve (model_id : option Z) : M (list model_row) :=
  get_connection ;;
  w <- get_world ;;
  match model_id with
  | None => ret (order_by_desc m_created_at (rows (models w)))
  | Some id =>
      match find (fun r => m_model_id r =? id) (rows (models w)) with
      | Some row => ret [row]
      | None => ret []
      end
  end.

Definition Models_update : M bool :=
  raise (NotImplementedError "PUT /models/{id} not implemented").

Definition Models_delete (model_id : Z) : M bool :=
  get_connection ;;
  w <- get_world ;;
  let (t, rowcount) := sql_delete (models w) (fun r => m_model_id r =? model_id) in
  put_world (set_models w t) ;;
  ret (0 <? rowcount).

(** *** GesturesMySQLService *)

Definition GesturesMySQLService_attrs : list string :=
  ["create"; "attach_inference"; "retrieve"; "update"; "delete"].

(** The row that [INSERT INTO gestures (session_id, user_id, landmarks,
    frame_width, frame_height, source, received_at)] adds under the
    identifier [id], given the values of its seven columns. *)
Definition gestures_insert_row (id : Z) (session_id user_id : pyval)
           (landmarks : string) (frame_width frame_height source : pyval)
           (received_at : Z) : gesture_row :=
  {| g_gesture_id := id;
     g_session_id := session_id;
     g_user_id := user_id;
     g_landmarks := landmarks;
     g_frame_width := frame_width;
     g_frame_height := frame_height;
     g_source := source;
     g_received_at := received_at;
     g_model_id := default_null;
     g_predicted_label := default_null;
     g_confidence := default_null;
     g_probs := default_unset;
     g_processing_time_ms := default_null;
     g_processed_at := default_unset |}.

Definition Gestures_create (data : pydict) : M Z :=
  get_connection ;;
  let session_id := dict_get data "session_id" in
  let user_id := dict_get data "user_id" in
  landmarks <- getitem data "landmarks" ;;
  let frame_width := dict_get data "frame_width" in
  let frame_height := dict_get data "frame_height" in
  let source := dict_get_default data "source" (PStr "web") in
  landmarks_json <- sql_cast_as_json (json_dumps landmarks) ;;
  w <- get_world ;;
  let new_row id :=
    gestures_insert_row id session_id user_id landmarks_json
                        frame_width frame_height source (utcnow w) in
  match insert_into_gestures w (new_row (auto_increment (gestures w))) with
  | Inserted =>
      let (t, gesture_id) := sql_insert (gestures w) new_row in
      put_world (set_gestures w t) ;;
      ret gesture_id
  | Refused identifier_used =>
      put_world (set_gestures w (sql_refused identifier_used (gestures w))) ;;
      raise MySQLError
  end.

(** The [SET] clause of [attach_inference]. *)
Definition set_inference (model_id : Z) (predicted_label : string)
           (confidence : float) (probs : string) (processing_time_ms : option Z)
           (now : Z) (r : gesture_row) : gesture_row :=
  {| g_gesture_id := g_gesture_id r;
     g_session_id := g_session_id r;
     g_user_id := g_user_id r;
     g_landmarks := g_landmarks r;
     g_frame_width := g_frame_width r;
     g_frame_height := g_frame_height r;
     g_source := g_source r;
     g_received_at := g_received_at r;
     g_model_id := PInt model_id;
     g_predicted_label := PStr predicted_label;
     g_confidence := PFloat confidence;
     g_probs := Some probs;
     g_processing_time_ms := of_opt PInt processing_time_ms;
     g_processed_at := Some now |}.

Definition Gestures_attach_inference (gesture_id model_id : Z)
           (predicted_label : string) (confidence : float)
           (probs : option pydict) (processing_time_ms : option Z) : M bool :=
  get_connection ;;
  let probs_text :=
    match probs with
    | Some d => json_dumps (PDict d)
    | None => "null"
    end in
  w <- get_world ;;
  update <- sql_update_cast
              (gestures w) (fun r => g_gesture_id r =? gesture_id) probs_text
              (fun probs_json =>
                 set_inference model_id predicted_label confidence probs_json
                               processing_time_ms (db_now w))
              gestures_unchanged ;;
  let (t, rowcount) := update in
  put_world (set_gestures w t) ;;
  ret (0 <? rowcount).

Definition Gestures_retrieve (user_id : option string) (limit : Z)
  : M (list gesture_row) :=
  get_connection ;;
  w <- get_world ;;
  if truthy user_id then
    sql_limit limit
      (order_by_desc g_received_at
         (filter (fun r => sql_eq (g_user_id r) (of_opt PStr user_id))
                 (rows (gestures w))))
  else
    sql_limit limit (order_by_desc g_received_at (rows (gestures w))).

Definition Gestures_update : M bool :=
  raise (NotImplementedError "PUT /gestures/{id} not implemented").

Definition Gestures_delete (gesture_id : Z) : M bool :=
  get_connection ;;
  w <- get_world ;;
  let (t, rowcount) := sql_delete (gestures w) (fun r => g_gesture_id r =? gesture_id) in
  put_world (set_gestures w t) ;;
  ret (0 <? rowcount).

(** *** PredictionsMySQLService *)

Definition PredictionsMySQLService_attrs : list string :=
  ["create"; "mark_complete"; "retrieve"; "update"; "delete"].

(** The row that [INSERT INTO predictions (requestor_user_id, session_id,
    model_id, status, params, created_at)] adds under the identifier [id],
    given the values of its first five columns; the sixth is [NOW()]. *)
Definition predictions_insert_row (w : world) (id : Z)
           (requestor_user_id session_id model_id status : pyval)
           (params : string) : prediction_row :=
  {| p_prediction_id := id;
     p_requestor_user_id := requestor_user_id;
     p_session_id := session_id;
     p_model_id := model_id;
     p_status := status;
     p_params := params;
     p_created_at := db_now w;
     p_completed_at := default_unset;
     p_output_text := default_null;
     p_confidence := default_null;
     p_latency_ms := default_null;
     p_error_message := default_null |}.

Definition Predictions_create (data : pydict) : M Z :=
  get_connection ;;
  let requestor_user_id := dict_get data "requestor_user_id" in
  let session_id := dict_get data "session_id" in
  let model_id := dict_get data "model_id" in
  let status := dict_get_default data "status" (PStr "queued") in
  let params := json_dumps (py_or (dict_get data "params") (PDict [])) in
  params_json <- sql_cast_as_json params ;;
  w <- get_world ;;
  let new_row id :=
    predictions_insert_row w id requestor_user_id session_id model_id status
                           params_json in
  match insert_into_predictions w (new_row (auto_increment (predictions w))) with
  | Inserted =>
      let (t, prediction_id) := sql_insert (predictions w) new_row in
      put_world (set_predictions w t) ;;
      ret prediction_id
  | Refused identifier_used =>
      put_world (set_predictions w (sql_refused identifier_used (predictions w))) ;;
      raise MySQLError
  end.

(** The two [SET] clauses of [mark_complete]. *)
Definition set_failed (error_message : option string) (now : Z) (r : prediction_row)
  : prediction_row :=
  {| p_prediction_id := p_prediction_id r;
     p_requestor_user_id := p_requestor_user_id r;
     p_session_id := p_session_id r;
     p_model_id := p_model_id r;
     p_status := PStr "failed";
     p_params := p_params r;
     p_created_at := p_created_at r;
     p_completed_at := Some now;
     p_output_text := p_output_text r;
     p_confidence := p_confidence r;
     p_latency_ms := p_latency_ms r;
     p_error_message := of_opt PStr error_message |}.

Definition set_succeeded (output_text : string) (confidence : option float)
           (latency_ms : option Z) (now : Z) (r : prediction_row)
  : prediction_row :=
  {| p_prediction_id := p_prediction_id r;
     p_requestor_user_id := p_requestor_user_id r;
     p_session_id := p_session_id r;
     p_model_id := p_model_id r;
     p_status := PStr "succeeded";
     p_params := p_params r;
     p_created_at := p_created_at r;
     p_completed_at := Some now;
     p_output_text := PStr output_text;
     p_confidence := of_opt PFloat confidence;
     p_latency_ms := of_opt PInt latency_ms;
     p_error_message := p_error_message r |}.

Definition Predictions_mark_complete (prediction_id : Z) (output_text : string)
           (confidence : option float) (latency_ms : option Z)
           (error_message : option string) : M bool :=
  get_connection ;;
  w <- get_world ;;
  let (t, rowcount) :=
    if truthy error_message then
      sql_update (predictions w) (fun r => p_prediction_id r =? prediction_id)
                 (set_failed error_message (db_now w))
                 predictions_unchanged
    else
      sql_update (predictions w) (fun r => p_prediction_id r =? prediction_id)
                 (set_succeeded output_text confidence latency_ms (db_now w))
                 predictions_unchanged in
  put_world (set_predictions w t) ;;
  ret (0 <? rowcount).

Definition Predictions_retrieve (session_id : option Z) (limit : Z)
  : M (list prediction_row) :=
  get_connection ;;
  w <- get_world ;;
  if truthy session_id then
    sql_limit limit
      (order_by_desc p_created_at
         (filter (fun r => sql_eq (p_session_id r) (of_opt PInt session_id))
                 (rows (predictions w))))
  else
    sql_limit limit (order_by_desc p_created_at (rows (predictions w))).

Definition Predictions_update : M bool :=
  raise (NotImplementedError "PUT /predictions/{id} not implemented").

Definition Predictions_delete (prediction_id : Z) : M bool :=
  get_connection ;;
  w <- get_world ;;
  let (t, rowcount) :=
    sql_delete (predictions w) (fun r => p_prediction_id r =? prediction_id) in
  put_world (set_predictions w t) ;;
  ret (0 <? rowcount).

(* ------------------------------------------------------------------------- *)
(** ** models/gesture.py: the request models *)
(* ------------------------------------------------------------------------- *)

Record GestureInput := {
  landmarks : list (list float);
  user_id : option string
}.

(** [landmarks] is declared with [min_items=21] and [max_items=21]. *)
Definition landmarks_min_items : Z := 21.
Definition landmarks_max_items : Z := 21.

Definition GestureInput_validate (body : GestureInput) : M unit :=
  let n := Z.of_nat (List.length (landmarks body)) in
  if (n <? landmarks_min_items) || (landmarks_max_items <? n)
  then raise RequestValidationError
  else ret tt.

Record ModelInput := {
  name : string;
  version : string;
  description : option string;
  model_path : string;
  input_shape : list Z;
  output_classes : Z;
  model_type : string
}.

(* ------------------------------------------------------------------------- *)
(** ** main.py: the route handlers *)
(* ------------------------------------------------------------------------- *)

(** The names bound at module level in main.py (imports, assignments and
    function definitions), in source order. *)
Definition main_globals : list string :=
  ["FastAPI"; "HTTPException"; "status"; "Dict"; "List"; "Any"; "UUID"; "uuid4";
   "datetime"; "GestureInput"; "GestureResult"; "ModelInput"; "ModelInfo";
   "PredictionRequest"; "os"; "load_dotenv"; "Depends"; "ModelsMySQLService";
   "GesturesMySQLService"; "PredictionsMySQLService"; "get_models_service";
   "get_gestures_service"; "get_predictions_service"; "app"; "gestures_db";
   "models_db"; "predictions_db"; "make_dummy_gesture"; "make_dummy_model";
   "make_dummy_prediction"; "Body"; "list_gestures"; "get_gesture";
   "create_gesture"; "update_gesture"; "delete_gesture"; "get_all_models";
   "get_model"; "register_model"; "delete_model"; "list_predictions";
   "get_prediction"; "create_prediction"; "update_prediction";
   "delete_prediction"; "root"; "health_check"].

(** Reading a global name of main.py. *)
Definition load_global (name : string) : M unit :=
  if existsb (String.eqb name) main_globals then ret tt else raise (NameError name).

(** Reading [svc.attr]: the class's own attributes, then its base class's. *)
Definition getattr_svc (cls : string) (attrs : list string) (attr : string) : M unit :=
  if existsb (String.eqb attr) (attrs ++ AbstractBaseMySQLService_attrs)
  then ret tt
  else raise (AttributeError cls attr).

(** [try: c  except Exception: handler] *)
Definition try_except {A} (c handler : M A) : M A :=
  fun w => match c w with
           | (Ok a, w') => (Ok a, w')
           | (Raise _, w') => handler w'
           end.

(** [json.loads(v)] as the handlers write it: the module is looked up in the
    globals of main.py, then applied. *)
Definition main_json_loads (v : pyval) : M pyval :=
  load_global "json" ;;
  match v with
  | PStr text =>
      match json_loads text with
      | Some decoded => ret decoded
      | None => raise JSONDecodeError
      end
  | _ => raise TypeError
  end.

(** One round of the handlers' decoding loop:
    [if row.get(col): try: row[col] = json.loads(row[col]) except Exception: pass] *)
Definition decode_column (row : pydict) (col : string) : M pydict :=
  if truthy (dict_get row col) then
    try_except (decoded <- main_json_loads (dict_get row col) ;;
                ret (dict_set row col decoded))
               (ret row)
  else ret row.

(** *** Gestures *)

Definition list_gestures (user_id : option string) (limit : Z) : M (list gesture_row) :=
  Gestures_retrieve user_id limit.

(** [get_one] is what [svc.get_one] is bound to, should the lookup succeed. *)
Definition get_gesture (get_one : Z -> M (option pydict)) (gesture_id : Z) : M pydict :=
  getattr_svc "GesturesMySQLService" GesturesMySQLService_attrs "get_one" ;;
  row <- get_one gesture_id ;;
  match row with
  | Some row =>
      if truthy row then
        row <- decode_column row "landmarks" ;;
        row <- decode_column row "probs" ;;
        ret row
      else raise (HTTPException 404 "Gesture not found")
  | None => raise (HTTPException 404 "Gesture not found")
  end.

Definition create_gesture (gesture_input : GestureInput) : M pydict :=
  if Z.of_nat (List.length (landmarks gesture_input)) <? 21 then
    raise (HTTPException 400 "landmarks must have at least 21 points")
  else
    gid <- Gestures_create
             [("landmarks",
               PList (map (fun point => PList (map PFloat point))
                          (landmarks gesture_input)));
              ("user_id", of_opt PStr (user_id gesture_input));
              ("source", PStr "api")] ;;
    ret [("gesture_id", PInt gid)].

(** POST /gestures: the request layer builds the [GestureInput], then calls the
    handler. *)
Definition post_gestures (body : GestureInput) : M pydict :=
  GestureInput_validate body ;;
  create_gesture body.

Definition update_gesture (gesture_id : Z) (payload : pydict) : M pydict :=
  ok <- Gestures_update ;;
  if negb ok then raise (HTTPException 404 "Gesture not found or nothing to update")
  else ret [("updated", PBool true)].

Definition delete_gesture (gesture_id : Z) : M pydict :=
  ok <- Gestures_delete gesture_id ;;
  if negb ok then raise (HTTPException 404 "Gesture not found")
  else ret [("deleted", PBool true)].

(** *** Models *)

Definition get_all_models : M (list model_row) := Models_retrieve None.

Definition get_model (model_id : Z) : M model_row :=
  rows <- Models_retrieve (Some model_id) ;;
  match rows with
  | [] => raise (HTTPException 404 "Model not found")
  | row :: _ => ret row
  end.

Definition register_model (model_input : ModelInput) : M pydict :=
  let payload :=
    [("name", PStr (name model_input));
     ("version", PStr (version model_input));
     ("model_type", PStr (model_type model_input));
     ("artifact_uri", py_or (PStr (model_path model_input)) (PStr "/models/unknown.bin"));
     ("input_shape", PList (map PInt (input_shape model_input)));
     ("output_shape", PList [PInt (output_classes model_input)])] in
  mid <- Models_create payload ;;
  ret [("model_id", PInt mid)].

Definition delete_model (model_id : Z) : M pydict :=
  ok <- Models_delete model_id ;;
  if negb ok then raise (HTTPException 404 "Model not found")
  else ret [("deleted", PBool true)].

(** *** Predictions *)

Definition list_predictions (session_id : option Z) (limit : Z)
  : M (list prediction_row) :=
  Predictions_retrieve session_id limit.

Definition get_prediction (get_one : Z -> M (option pydict)) (prediction_id : Z)
  : M pydict :=
  getattr_svc "PredictionsMySQLService" PredictionsMySQLService_attrs "get_one" ;;
  row <- get_one prediction_id ;;
  match row with
  | Some row =>
      if truthy row then
        row <- decode_column row "params" ;;
        ret row
      else raise (HTTPException 404 "Prediction not found")
  | None => raise (HTTPException 404 "Prediction not found")
  end.

Definition create_prediction (payload : pydict) : M pydict :=
  pid <- Predictions_create
           [("requestor_user_id", dict_get payload "requestor_user_id");
            ("session_id", dict_get payload "session_id");
            ("model_id", dict_get payload "model_id");
            ("status", dict_get_default payload "status" (PStr "queued"));
            ("params", dict_get_default payload "params" (PDict []))] ;;
  ret [("prediction_id", PInt pid); ("status", PStr "queued")].

Definition update_prediction (prediction_id : Z) (payload : pydict) : M pydict :=
  ok <- Predictions_update ;;
  if negb ok then raise (HTTPException 404 "Prediction not found or nothing to update")
  else ret [("updated", PBool true)].

Definition delete_prediction (prediction_id : Z) : M pydict :=
  ok <- Predictions_delete prediction_id ;;
  if negb ok then raise (HTTPException 404 "Prediction not found")
  else ret [("deleted", PBool true)].

(** *** The routes

    One constructor per route that main.py registers on the tables; an
    omitted [limit] takes the declared default. *)
Inductive request : Type :=
| GET_gestures (user_id : option string) (limit : option Z)
| GET_gesture (gesture_id : Z)
| POST_gestures (body : GestureInput)
| PUT_gesture (gesture_id : Z) (payload : pydict)
| DELETE_gesture (gesture_id : Z)
| GET_models
| GET_model (model_id : Z)
| POST_models (body : ModelInput)
| DELETE_model (model_id : Z)
| GET_predictions (session_id : option Z) (limit : option Z)
| GET_prediction (prediction_id : Z)
| POST_predictions (payload : pydict)
| PUT_prediction (prediction_id : Z) (payload : pydict)
| DELETE_prediction (prediction_id : Z).

Definition default_limit : Z := 100.

Definition limit_or_default (limit : option Z) : Z :=
  match limit with Some n => n | None => default_limit end.

(** Running a handler and keeping the status line of the answer. *)
Definition respond {A} (success_code : Z) (handler : M A) (w : world) : Z * world :=
  let (r, w') := handler w in (http_status success_code r, w').

Definition serve (get_one : Z -> M (option pydict)) (r : request) : world -> Z * world :=
  match r with
  | GET_gestures user_id limit =>
      respond 200 (list_gestures user_id (limit_or_default limit))
  | GET_gesture gesture_id => respond 200 (get_gesture get_one gesture_id)
  | POST_gestures body => respond 201 (post_gestures body)
  | PUT_gesture gesture_id payload => respond 200 (update_gesture gesture_id payload)
  | DELETE_gesture gesture_id => respond 200 (delete_gesture gesture_id)
  | GET_models => respond 200 get_all_models
  | GET_model model_id => respond 200 (get_model model_id)
  | POST_models body => respond 201 (register_model body)
  | DELETE_model model_id => respond 200 (delete_model model_id)
  | GET_predictions session_id limit =>
      respond 200 (list_predictions session_id (limit_or_default limit))
  | GET_prediction prediction_id => respond 200 (get_prediction get_one prediction_id)
  | POST_predictions payload => respond 201 (create_prediction payload)
  | PUT_prediction prediction_id payload =>
      respond 200 (update_prediction prediction_id payload)
  | DELETE_prediction prediction_id => respond 200 (delete_prediction prediction_id)
  end.

(** The state after a sequence of requests. *)
Definition serve_all (get_one : Z -> M (option pydict)) (rs : list request)
           (w : world) : world :=
  fold_left (fun w r => snd (serve get_one r w)) rs w.

End Service.

Arguments Ok {A} a.
Arguments Raise {A} e.
Arguments rows {R} t.
Arguments auto_increment {R} t.

Notation "x <- c ;; k" := (bind c (fun x => k))
  (at level 61, c at next level, right associativity).
Notation "c ;; k" := (bind c (fun _ => k))
  (at level 61, right associativity).

(* ------------------------------------------------------------------------- *)
(** ** Notions used in the statements *)
(* ------------------------------------------------------------------------- *)

Section Notions.

Context {FM : FloatModel}.

(** Every identifier in use is below the AUTO_INCREMENT counter. *)
Definition table_wf {R} (key : R -> Z) (t : table R) : Prop :=
  Forall (fun r => key r < auto_increment t) (rows t).

Definition world_wf (w : world) : Prop :=
  table_wf m_model_id (models w)
  /\ table_wf g_gesture_id (gestures w)
  /\ table_wf p_prediction_id (predictions w).

Definition has_row {R} (key : R -> Z) (t : table R) (id : Z) : bool :=
  existsb (fun r => key r =? id) (rows t).

(** A list is newest-first when its keys never increase. *)
Fixpoint newest_first {R} (key : R -> Z) (l : list R) : Prop :=
  match l with
  | [] => True
  | x :: l' => Forall (fun y => key y <= key x) l' /\ newest_first key l'
  end.

(** The integers of 64 bits. *)
Definition int64 (n : Z) : Prop := - 2 ^ 63 <= n < 2 ^ 63.

(** A text at which a number literal ends. *)
Definition ends_number (rest : string) : Prop :=
  match rest with
  | EmptyString => True
  | String c _ => is_number_char c = false
  end.

Fixpoint all_number_chars (s : string) : bool :=
  match s with
  | EmptyString => true
  | String c s' => is_number_char c && all_number_chars s'
  end.

(** The text between the brackets when a list is written, and between the
    braces when a dict is. *)
Fixpoint elems_text (l : list pyval) : string :=
  match l with
  | [] => EmptyString
  | x :: r =>
      match r with
      | [] => json_dumps x
      | _ :: _ => json_dumps x ++ ", " ++ elems_text r
      end
  end.

Fixpoint members_text (l : list (string * pyval)) : string :=
  match l with
  | [] => EmptyString
  | (k, x) :: r =>
      match r with
      | [] => json_quote k ++ ": " ++ json_dumps x
      | _ :: _ => json_quote k ++ ": " ++ json_dumps x ++ ", " ++ members_text r
      end
  end.

(** The text between the brackets when a list of integers is written. *)
Fixpoint int_elems (l : list Z) : string :=
  match l with
  | [] => EmptyString
  | x :: r =>
      match r with
      | [] => string_of_Z x
      | _ :: _ => string_of_Z x ++ ", " ++ int_elems r
      end
  end.

End Notions.

(* ------------------------------------------------------------------------- *)
(** ** db/abstract_base.py: the connection life cycle *)
(* ------------------------------------------------------------------------- *)

Section Connection.

Context {FM : FloatModel}.

(** The driver as the service sees it: which configurations
    [mysql.connector.connect] accepts, the handles whose [is_connected()]
    holds, and the next handle to hand out. *)
Record driver := {
  accepts : pydict -> bool;
  connected : list Z;
  next_handle : Z
}.

(** The attributes of a service instance. *)
Record service := {
  _db_config : pydict;
  _connection : option Z
}.

(** [__init__]: [db_config or DB_CONFIG]. *)
Definition service_init (db_config : option pydict) (DB_CONFIG : pydict) : service :=
  {| _db_config :=
       match db_config with
       | Some config => if truthy config then config else DB_CONFIG
       | None => DB_CONFIG
       end;
     _connection := None |}.

Definition is_connected (h : Z) (d : driver) : bool :=
  existsb (Z.eqb h) (connected d).

(** [mysql.connector.connect], called with the configuration as keywords. *)
Definition mysql_connect (config : pydict) (d : driver) : result Z * driver :=
  if accepts d config
  then (Ok (next_handle d),
        {| accepts := accepts d;
           connected := next_handle d :: connected d;
           next_handle := next_handle d + 1 |})
  else (Raise MySQLError, d).

(** [connection.close()] *)
Definition mysql_close (h : Z) (d : driver) : driver :=
  {| accepts := accepts d;
     connected := filter (fun h' => negb (h' =? h)) (connected d);
     next_handle := next_handle d |}.

(** [self._connection is None or not self._connection.is_connected()] *)
Definition not_connected (s : service) (d : driver) : bool :=
  match _connection s with
  | None => true
  | Some h => negb (is_connected h d)
  end.

Definition set_connection (s : service) (c : option Z) : service :=
  {| _db_config := _db_config s; _connection := c |}.

Definition connect (s : service) (d : driver) : result unit * (service * driver) :=
  if not_connected s d then
    match mysql_connect (_db_config s) d with
    | (Ok h, d') => (Ok tt, (set_connection s (Some h), d'))
    | (Raise e, d') => (Raise e, (set_connection s None, d'))
    end
  else (Ok tt, (s, d)).

(** [get_connection] returns [self._connection]. *)
Definition svc_get_connection (s : service) (d : driver)
  : result (option Z) * (service * driver) :=
  if not_connected s d then
    match connect s d with
    | (Ok _, (s', d')) => (Ok (_connection s'), (s', d'))
    | (Raise e, sd) => (Raise e, sd)
    end
  else (Ok (_connection s), (s, d)).

Definition close_connection (s : service) (d : driver) : service * driver :=
  match _connection s with
  | Some h =>
      if is_connected h d
      then (set_connection s None, mysql_close h d)
      else (s, d)
  | None => (s, d)
  end.

End Connection.

(* ------------------------------------------------------------------------- *)
(** ** main.py: the health route, and notions for the routes *)
(* ------------------------------------------------------------------------- *)

Section Health.

Context {FM : FloatModel}.

(** GET /health.  [isoformat] writes the service's clock as text. *)
Definition health_check (isoformat : Z -> string) : M pydict :=
  db_ok <- try_except (get_connection ;; ret true) (ret false) ;;
  w <- get_world ;;
  ret [("status", PStr (if db_ok : bool then "healthy" else "degraded"));
       ("timestamp", PStr (isoformat (utcnow w)));
       ("service", PStr "Model Serving Microservice");
       ("version", PStr "1.0.0");
       ("database_status", PStr (if db_ok : bool then "connected" else "unreachable"));
       ("model_status", PStr "loaded")].

(** The first of [keys] that [d] lacks. *)
Fixpoint first_missing (keys : list string) (d : pydict) : option string :=
  match keys with
  | [] => None
  | k :: keys' =>
      match dict_lookup d k with
      | Some _ => first_missing keys' d
      | None => Some k
      end
  end.

(** The keys [ModelsMySQLService.create] reads with [data[...]], in the order
    it reads them. *)
Definition Models_required_keys : list string :=
  ["name"; "version"; "model_type"; "artifact_uri"; "input_shape"; "output_shape"].

(** What a route may write: its own table, or nothing. *)
Inductive footprint : Type :=
| Writes_nothing
| Writes_models
| Writes_gestures
| Writes_predictions.

Definition footprint_of (r : request) : footprint :=
  match r with
  | POST_models _ | DELETE_model _ => Writes_models
  | POST_gestures _ | DELETE_gesture _ => Writes_gestures
  | POST_predictions _ | DELETE_prediction _ => Writes_predictions
  | _ => Writes_nothing
  end.

End Health.

(* ------------------------------------------------------------------------- *)
(** ** Concrete data for the examples *)
(* ------------------------------------------------------------------------- *)

Definition is_N_or_I (c : ascii) : bool :=
  Ascii.eqb c "N" || Ascii.eqb c "I".

(** Does the text contain a capital N or I, as [NaN], [Infinity] and
    [-Infinity] do? *)
Fixpoint mentions_N_or_I (s : string) : bool :=
  match s with
  | EmptyString => false
  | String c s' => is_N_or_I c || mentions_N_or_I s'
  end.

(** Floats written as their literal: zero is [0.0] or [-0.0], and a literal
    is finite unless a capital N or I occurs in it, as in [NaN], [Infinity]
    and [-Infinity]. *)
Definition literal_floats : FloatModel :=
  {| float := string;
     float_repr := fun lit => lit;
     float_of_literal := fun lit => Some lit;
     float_is_zero := fun lit => String.eqb lit "0.0" || String.eqb lit "-0.0";
     float_is_finite := fun lit => negb (mentions_N_or_I lit) |}.

Module Examples.

#[local] Existing Instance literal_floats.

Definition empty_table {R} : table R := {| rows := []; auto_increment := 1 |}.

Definition hand (n : nat) : list (list float) := repeat ["0.5"; "0.6"] n.

Definition gesture_1 : gesture_row :=
  {| g_gesture_id := 1; g_session_id := PNone; g_user_id := PStr "u1";
     g_landmarks := "[[0.5, 0.6]]"; g_frame_width := PNone; g_frame_height := PNone;
     g_source := PStr "api"; g_received_at := 900;
     g_model_id := PNone; g_predicted_label := PNone; g_confidence := PNone;
     g_probs := None; g_processing_time_ms := PNone; g_processed_at := None |}.

Definition prediction_1 : prediction_row :=
  {| p_prediction_id := 1; p_requestor_user_id := PStr "u1"; p_session_id := PInt 7;
     p_model_id := PNone; p_status := PStr "queued"; p_params := "{}";
     p_created_at := 950; p_completed_at := None; p_output_text := PNone;
     p_confidence := PNone; p_latency_ms := PNone; p_error_message := PNone |}.

Definition model_1 : model_row :=
  {| m_model_id := 1; m_name := PStr "ASL"; m_version := PStr "v1";
     m_model_type := PStr "classification"; m_artifact_uri := PStr "/m.bin";
     m_input_shape := "[42]"; m_output_shape := "[37]"; m_status := PStr "active";
     m_metrics := "null"; m_sha256 := PNone; m_created_at := 800 |}.

(** A reachable server with empty tables. *)
Definition w_empty : world :=
  {| reachable := true; utcnow := 1000; db_now := 1000;
     models := empty_table; gestures := empty_table; predictions := empty_table |}.

(** A reachable server with one row in each table. *)
Definition w_one : world :=
  {| reachable := true; utcnow := 1000; db_now := 1000;
     models := {| rows := [model_1]; auto_increment := 2 |};
     gestures := {| rows := [gesture_1]; auto_increment := 2 |};
     predictions := {| rows := [prediction_1]; auto_increment := 2 |} |}.

Definition asl_model : ModelInput :=
  {| name := "ASL"; version := "v1"; description := None; model_path := "/m.bin";
     input_shape := [42]; output_classes := 37; model_type := "classification" |}.

(** The same server out of reach. *)
Definition w_down : world :=
  {| reachable := false; utcnow := 1000; db_now := 1000;
     models := models w_one; gestures := gestures w_one;
     predictions := predictions w_one |}.

(** A driver that accepts every configuration and has no open handle. *)
Definition driver_up : driver :=
  {| accepts := fun _ => true; connected := []; next_handle := 1 |}.

Definition fresh_service : service :=
  service_init None [("host", PStr "db"); ("port", PInt 3306)].

Definition confidence_95 : float := "0.95".

Definition one_point : pyval := PList [PList [PFloat "0.5"; PFloat "0.6"]].

(** Data for a gesture as the handler builds it, with one point. *)
Definition gesture_data : pydict :=
  [("landmarks", one_point); ("user_id", PStr "u2"); ("source", PStr "api")].

(** A [get_one] that finds nothing. *)
Definition get_none : Z -> M (option pydict) := fun _ => ret None.

(** A float that is zero, and one that is not a number. *)
Definition zero : float := "0.0".
Definition nan : float := "NaN".

(** [CAST(text AS JSON)] of a server that refuses a text with a capital N
    or I and reads every other text back as it was written. *)
Definition cast_text (text : string) : option string :=
  if mentions_N_or_I text then None else Some text.

(** Equality of two values of the same type; NULL equals nothing. *)
Definition same_value (a b : pyval) : bool :=
  match a, b with
  | PBool x, PBool y => Bool.eqb x y
  | PInt x, PInt y => x =? y
  | PFloat x, PFloat y => String.eqb x y
  | PStr x, PStr y => String.eqb x y
  | _, _ => false
  end.

(** Two columns hold the same: both NULL, or equal values. *)
Definition same_column (a b : pyval) : bool :=
  match a, b with
  | PNone, PNone => true
  | _, _ => same_value a b
  end.

Definition same_option {A} (eqb : A -> A -> bool) (a b : option A) : bool :=
  match a, b with
  | None, None => true
  | Some x, Some y => eqb x y
  | _, _ => false
  end.

(** Do two rows agree on the columns that [attach_inference] sets? *)
Definition same_inference (r r' : gesture_row) : bool :=
  same_option Z.eqb (g_processed_at r) (g_processed_at r')
  && same_column (g_model_id r) (g_model_id r')
  && same_column (g_predicted_label r) (g_predicted_label r')
  && same_column (g_confidence r) (g_confidence r')
  && same_option String.eqb (g_probs r) (g_probs r')
  && same_column (g_processing_time_ms r) (g_processing_time_ms r').

(** Do two rows agree on the columns that [mark_complete] sets? *)
Definition same_completion (r r' : prediction_row) : bool :=
  same_option Z.eqb (p_completed_at r) (p_completed_at r')
  && same_column (p_status r) (p_status r')
  && same_column (p_output_text r) (p_output_text r')
  && same_column (p_confidence r) (p_confidence r')
  && same_column (p_latency_ms r) (p_latency_ms r')
  && same_column (p_error_message r) (p_error_message r').

(** An INSERT that is executed whenever the driver can bind its values. *)
Definition insert_bound (values : list pyval) : insert_outcome :=
  if forallb bindable values then Inserted else Refused false.

(** A server without further constraints: it takes as JSON every text
    without a capital N or I and reads it back as written, executes every
    INSERT whose values the driver can bind, compares values of the same type
    exactly, counts a row as changed when a column of the SET clause differs,
    and does not evaluate the SET clause of an UPDATE that matches no row. *)
Definition server : ServerModel :=
  {| cast_as_json := cast_text;
     insert_into_models := fun _ r =>
       insert_bound [m_name r; m_version r; m_model_type r;
                     m_artifact_uri r; m_status r; m_sha256 r];
     insert_into_gestures := fun _ r =>
       insert_bound [g_session_id r; g_user_id r; g_frame_width r;
                     g_frame_height r; g_source r];
     insert_into_predictions := fun _ r =>
       insert_bound [p_requestor_user_id r; p_session_id r;
                     p_model_id r; p_status r];
     sql_eq := same_value;
     gestures_unchanged := same_inference;
     predictions_unchanged := same_completion;
     evaluates_set_without_rows := false |}.

End Examples.

(* ------------------------------------------------------------------------- *)
(** ** Properties *)
(* ------------------------------------------------------------------------- *)

Section Properties.

Context {FM : FloatModel} {SM : ServerModel} {SL : ServerLaws SM}.

(** *** Administrative facts *)

Lemma table_eta {R} (t : table R) :
  {| rows := rows t; auto_increment := auto_increment t |} = t.
Proof. destruct t; reflexivity. Qed.

Lemma set_models_same (w : world) : set_models w (models w) = w.
Proof. destruct w; reflexivity. Qed.

Lemma set_gestures_same (w : world) : set_gestures w (gestures w) = w.
Proof. destruct w; reflexivity. Qed.

Lemma set_predictions_same (w : world) : set_predictions w (predictions w) = w.
Proof. destruct w; reflexivity. Qed.

Lemma get_connection_up (w : world) :
  reachable w = true -> get_connection w = (Ok tt, w).
Proof. intros H. unfold get_connection, bind, get_world, ret. now rewrite H. Qed.

Lemma get_connection_down (w : world) :
  reachable w = false -> get_connection w = (Raise MySQLError, w).
Proof. intros H. unfold get_connection, bind, get_world, raise. now rewrite H. Qed.

Lemma bind_connection {A} (k : M A) (w : world) :
  reachable w = true -> (get_connection ;; k) w = k w.
Proof. intros H. unfold bind at 1. now rewrite get_connection_up. Qed.

Lemma connection_fails {A} (k : M A) (w : world) :
  reachable w = false -> (get_connection ;; k) w = (Raise MySQLError, w).
Proof. intros H. unfold bind at 1. now rewrite get_connection_down. Qed.

Lemma getitem_present (d : pydict) (k : string) (v : pyval) (w : world) :
  dict_lookup d k = Some v -> getitem d k w = (Ok v, w).
Proof. intros H. unfold getitem. now rewrite H. Qed.

Lemma getitem_absent (d : pydict) (k : string) (w : world) :
  dict_lookup d k = None -> getitem d k w = (Raise (KeyError k), w).
Proof. intros H. unfold getitem. now rewrite H. Qed.

Ltac run_getitems :=
  repeat (unfold bind at 1;
          match goal with
          | H : dict_lookup ?d ?k = Some _ |- context [getitem ?d ?k _] =>
              rewrite (getitem_present _ _ _ _ H)
          | H : dict_lookup ?d ?k = None |- context [getitem ?d ?k _] =>
              rewrite (getitem_absent _ _ _ H)
          end).

Lemma bind_cast {A} (text : string) (k : string -> M A) (w : world) :
  (stored <- sql_cast_as_json text ;; k stored) w
  = match cast_as_json text with
    | Some stored => k stored w
    | None => (Raise MySQLError, w)
    end.
Proof. unfold bind, sql_cast_as_json. now destruct (cast_as_json text). Qed.

(** *** What the three INSERTs do *)

Lemma sql_refused_rows {R} (identifier_used : bool) (t : table R) :
  rows (sql_refused identifier_used t) = rows t.
Proof. now destruct identifier_used. Qed.

Lemma models_not_refused (w : world) :
  set_models w (sql_refused false (models w)) = w.
Proof. cbn. apply set_models_same. Qed.

Lemma gestures_not_refused (w : world) :
  set_gestures w (sql_refused false (gestures w)) = w.
Proof. cbn. apply set_gestures_same. Qed.

Lemma predictions_not_refused (w : world) :
  set_predictions w (sql_refused false (predictions w)) = w.
Proof. cbn. apply set_predictions_same. Qed.

Lemma Models_create_run (data : pydict) (v1 v2 v3 v4 v5 v6 : pyval) (w : world) :
  reachable w = true ->
  dict_lookup data "name" = Some v1 ->
  dict_lookup data "version" = Some v2 ->
  dict_lookup data "model_type" = Some v3 ->
  dict_lookup data "artifact_uri" = Some v4 ->
  dict_lookup data "input_shape" = Some v5 ->
  dict_lookup data "output_shape" = Some v6 ->
  Models_create data w
  = match cast_as_json (json_dumps v5), cast_as_json (json_dumps v6),
          cast_as_json (match dict_get data "metrics" with
                        | PNone => "null"
                        | v => json_dumps v
                        end) with
    | Some input_json, Some output_json, Some metrics_json =>
        let row :=
          models_insert_row w (auto_increment (models w)) v1 v2 v3 v4
                            input_json output_json
                            (dict_get_default data "status" (PStr "active"))
                            metrics_json (dict_get data "sha256") in
        match insert_into_models w row with
        | Inserted =>
            (Ok (auto_increment (models w)),
             set_models w {| rows := rows (models w) ++ [row];
                             auto_increment := auto_increment (models w) + 1 |})
        | Refused identifier_used =>
            (Raise MySQLError,
             set_models w (sql_refused identifier_used (models w)))
        end
    | _, _, _ => (Raise MySQLError, w)
    end.
Proof.
  intros Hup H1 H2 H3 H4 H5 H6. unfold Models_create.
  rewrite bind_connection by exact Hup. run_getitems.
  rewrite bind_cast. destruct (cast_as_json (json_dumps v5)); [|reflexivity].
  rewrite bind_cast. destruct (cast_as_json (json_dumps v6)); [|reflexivity].
  rewrite bind_cast. destruct (cast_as_json _); [|reflexivity].
  unfold bind at 1, get_world. cbn zeta.
  destruct (insert_into_models w _); reflexivity.
Qed.

Lemma Gestures_create_run (data : pydict) (points : pyval) (w : world) :
  reachable w = true ->
  dict_lookup data "landmarks" = Some points ->
  Gestures_create data w
  = match cast_as_json (json_dumps points) with
    | Some landmarks_json =>
        let row :=
          gestures_insert_row (auto_increment (gestures w))
                              (dict_get data "session_id") (dict_get data "user_id")
                              landmarks_json
                              (dict_get data "frame_width")
                              (dict_get data "frame_height")
                              (dict_get_default data "source" (PStr "web"))
                              (utcnow w) in
        match insert_into_gestures w row with
        | Inserted =>
            (Ok (auto_increment (gestures w)),
             set_gestures w {| rows := rows (gestures w) ++ [row];
                               auto_increment := auto_increment (gestures w) + 1 |})
        | Refused identifier_used =>
            (Raise MySQLError,
             set_gestures w (sql_refused identifier_used (gestures w)))
        end
    | None => (Raise MySQLError, w)
    end.
Proof.
  intros Hup Hlm. unfold Gestures_create.
  rewrite bind_connection by exact Hup. run_getitems.
  rewrite bind_cast. destruct (cast_as_json _); [|reflexivity].
  unfold bind at 1, get_world. cbn zeta.
  destruct (insert_into_gestures w _); reflexivity.
Qed.

Lemma Predictions_create_run (data : pydict) (w : world) :
  reachable w = true ->
  Predictions_create data w
  = match cast_as_json (json_dumps (py_or (dict_get data "params") (PDict []))) with
    | Some params_json =>
        let row :=
          predictions_insert_row w (auto_increment (predictions w))
                                 (dict_get data "requestor_user_id")
                                 (dict_get data "session_id")
                                 (dict_get data "model_id")
                                 (dict_get_default data "status" (PStr "queued"))
                                 params_json in
        match insert_into_predictions w row with
        | Inserted =>
            (Ok (auto_increment (predictions w)),
             set_predictions w
               {| rows := rows (predictions w) ++ [row];
                  auto_increment := auto_increment (predictions w) + 1 |})
        | Refused identifier_used =>
            (Raise MySQLError,
             set_predictions w (sql_refused identifier_used (predictions w)))
        end
    | None => (Raise MySQLError, w)
    end.
Proof.
  intros Hup. unfold Predictions_create.
  rewrite bind_connection by exact Hup.
  rewrite bind_cast. destruct (cast_as_json _); [|reflexivity].
  unfold bind at 1, get_world. cbn zeta.
  destruct (insert_into_predictions w _); reflexivity.
Qed.

(** A create either adds one row under the next identifier, or raises and
    adds nothing. *)
Lemma Models_create_cases (data : pydict) (w : world) :
  (exists row,
      m_model_id row = auto_increment (models w)
      /\ Models_create data w
         = (Ok (auto_increment (models w)),
            set_models w {| rows := rows (models w) ++ [row];
                            auto_increment := auto_increment (models w) + 1 |}))
  \/ (exists e identifier_used,
         Models_create data w
         = (Raise e, set_models w (sql_refused identifier_used (models w)))).
Proof.
  assert (Hsame : forall e, (Raise e, w)
                            = (@Raise Z e, set_models w (sql_refused false (models w))))
    by (intros e; cbn; now rewrite set_models_same).
  destruct (reachable w) eqn:Hup.
  - destruct (dict_lookup data "name") as [v1|] eqn:H1;
      [|right; do 2 eexists; rewrite <- Hsame; unfold Models_create;
        rewrite bind_connection by exact Hup; run_getitems; reflexivity].
    destruct (dict_lookup data "version") as [v2|] eqn:H2;
      [|right; do 2 eexists; rewrite <- Hsame; unfold Models_create;
        rewrite bind_connection by exact Hup; run_getitems; reflexivity].
    destruct (dict_lookup data "model_type") as [v3|] eqn:H3;
      [|right; do 2 eexists; rewrite <- Hsame; unfold Models_create;
        rewrite bind_connection by exact Hup; run_getitems; reflexivity].
    destruct (dict_lookup data "artifact_uri") as [v4|] eqn:H4;
      [|right; do 2 eexists; rewrite <- Hsame; unfold Models_create;
        rewrite bind_connection by exact Hup; run_getitems; reflexivity].
    destruct (dict_lookup data "input_shape") as [v5|] eqn:H5;
      [|right; do 2 eexists; rewrite <- Hsame; unfold Models_create;
        rewrite bind_connection by exact Hup; run_getitems; reflexivity].
    destruct (dict_lookup data "output_shape") as [v6|] eqn:H6;
      [|right; do 2 eexists; rewrite <- Hsame; unfold Models_create;
        rewrite bind_connection by exact Hup; run_getitems; reflexivity].
    rewrite (Models_create_run data v1 v2 v3 v4 v5 v6 w) by assumption.
    destruct (cast_as_json (json_dumps v5));
      [|right; do 2 eexists; now rewrite <- Hsame].
    destruct (cast_as_json (json_dumps v6));
      [|right; do 2 eexists; now rewrite <- Hsame].
    destruct (cast_as_json _); [|right; do 2 eexists; now rewrite <- Hsame].
    cbn zeta. destruct (insert_into_models w _); [left|right].
    + eexists. split; [|reflexivity]. reflexivity.
    + do 2 eexists. reflexivity.
  - right. do 2 eexists. rewrite <- Hsame. unfold Models_create.
    now rewrite connection_fails.
Qed.

Lemma Gestures_create_cases (data : pydict) (w : world) :
  (exists row,
      g_gesture_id row = auto_increment (gestures w)
      /\ Gestures_create data w
         = (Ok (auto_increment (gestures w)),
            set_gestures w {| rows := rows (gestures w) ++ [row];
                              auto_increment := auto_increment (gestures w) + 1 |}))
  \/ (exists e identifier_used,
         Gestures_create data w
         = (Raise e, set_gestures w (sql_refused identifier_used (gestures w)))).
Proof.
  assert (Hsame : forall e, (Raise e, w)
                            = (@Raise Z e,
                               set_gestures w (sql_refused false (gestures w))))
    by (intros e; cbn; now rewrite set_gestures_same).
  destruct (reachable w) eqn:Hup.
  - destruct (dict_lookup data "landmarks") as [points|] eqn:Hlm.
    + rewrite (Gestures_create_run data points w) by assumption.
      destruct (cast_as_json _); [|right; do 2 eexists; now rewrite <- Hsame].
      cbn zeta. destruct (insert_into_gestures w _); [left|right].
      * eexists. split; [|reflexivity]. reflexivity.
      * do 2 eexists. reflexivity.
    + right. do 2 eexists. rewrite <- Hsame. unfold Gestures_create.
      rewrite bind_connection by exact Hup. run_getitems. reflexivity.
  - right. do 2 eexists. rewrite <- Hsame. unfold Gestures_create.
    now rewrite connection_fails.
Qed.

Lemma Predictions_create_cases (data : pydict) (w : world) :
  (exists row,
      p_prediction_id row = auto_increment (predictions w)
      /\ Predictions_create data w
         = (Ok (auto_increment (predictions w)),
            set_predictions w
              {| rows := rows (predictions w) ++ [row];
                 auto_increment := auto_increment (predictions w) + 1 |}))
  \/ (exists identifier_used,
         Predictions_create data w
         = (Raise MySQLError,
            set_predictions w (sql_refused identifier_used (predictions w)))).
Proof.
  assert (Hsame : (Raise MySQLError, w)
                  = (@Raise Z MySQLError,
                     set_predictions w (sql_refused false (predictions w))))
    by (cbn; now rewrite set_predictions_same).
  destruct (reachable w) eqn:Hup.
  - rewrite Predictions_create_run by assumption.
    destruct (cast_as_json _); [|right; eexists; now rewrite <- Hsame].
    cbn zeta. destruct (insert_into_predictions w _); [left|right].
    + eexists. split; [|reflexivity]. reflexivity.
    + eexists. reflexivity.
  - right. eexists. rewrite <- Hsame. unfold Predictions_create.
    now rewrite connection_fails.
Qed.

(** *** Tables stay well formed *)

Lemma wf_insert {R} (key : R -> Z) (a : Z) (l : list R) (x : R) :
  Forall (fun r => key r < a) l ->
  key x = a ->
  Forall (fun r => key r < a + 1) (l ++ [x]).
Proof.
  intros Hl Hx. apply Forall_app. split.
  - eapply Forall_impl; [|exact Hl]. simpl. intros; lia.
  - constructor; [lia|constructor].
Qed.

Lemma wf_update {R} (key : R -> Z) (a : Z) (l : list R)
      (matches : R -> bool) (f : R -> R) :
  (forall r, key (f r) = key r) ->
  Forall (fun r => key r < a) l ->
  Forall (fun r => key r < a) (map (fun r => if matches r then f r else r) l).
Proof.
  intros Hf Hl. induction Hl as [|r l Hr _ IH]; simpl; constructor; auto.
  destruct (matches r); [rewrite Hf|]; exact Hr.
Qed.

Lemma wf_refused {R} (key : R -> Z) (identifier_used : bool) (t : table R) :
  Forall (fun r => key r < auto_increment t) (rows t) ->
  Forall (fun r => key r < auto_increment (sql_refused identifier_used t))
         (rows (sql_refused identifier_used t)).
Proof.
  intros Hwf. destruct identifier_used; [|exact Hwf]. cbn.
  eapply Forall_impl; [|exact Hwf]. cbn. intros; lia.
Qed.

Lemma wf_delete {R} (P : R -> Prop) (p : R -> bool) (l : list R) :
  Forall P l -> Forall P (filter p l).
Proof.
  intros Hl. induction Hl as [|r l Hr _ IH]; simpl; [constructor|].
  destruct (p r); [constructor|]; assumption.
Qed.

Lemma sql_insert_wf {R} (key : R -> Z) (t : table R) (mk : Z -> R) :
  (forall id, key (mk id) = id) ->
  table_wf key t -> table_wf key (fst (sql_insert t mk)).
Proof. intros Hmk Hwf. unfold table_wf. simpl. now apply wf_insert. Qed.

Lemma sql_update_wf {R} (key : R -> Z) (t : table R)
      (matches : R -> bool) (f : R -> R) (unchanged : R -> R -> bool) :
  (forall r, key (f r) = key r) ->
  table_wf key t -> table_wf key (fst (sql_update t matches f unchanged)).
Proof. intros Hf Hwf. unfold table_wf. simpl. now apply wf_update. Qed.

Lemma sql_delete_wf {R} (key : R -> Z) (t : table R) (matches : R -> bool) :
  table_wf key t -> table_wf key (fst (sql_delete t matches)).
Proof. intros Hwf. unfold table_wf. simpl. now apply wf_delete. Qed.

(** A method that cannot connect changes nothing. *)
Ltac unreachable Hdown :=
  unfold bind at 1; rewrite (get_connection_down _ Hdown); assumption.

Ltac wf_split Hwf :=
  destruct Hwf as (Hm & Hg & Hp); unfold world_wf, table_wf in *;
  cbn; repeat split;
  auto using wf_insert, wf_update, wf_delete, wf_refused.

Lemma Models_create_wf (data : pydict) (w : world) :
  world_wf w -> world_wf (snd (Models_create data w)).
Proof.
  intros Hwf.
  destruct (Models_create_cases data w) as [(row & Hid & ->)|(e & used & ->)];
    wf_split Hwf.
Qed.

Lemma Models_delete_wf (model_id : Z) (w : world) :
  world_wf w -> world_wf (snd (Models_delete model_id w)).
Proof.
  intros Hwf. unfold Models_delete.
  destruct (reachable w) eqn:Hup; [|unreachable Hup].
  rewrite bind_connection by exact Hup. wf_split Hwf.
Qed.

Lemma Gestures_create_wf (data : pydict) (w : world) :
  world_wf w -> world_wf (snd (Gestures_create data w)).
Proof.
  intros Hwf.
  destruct (Gestures_create_cases data w) as [(row & Hid & ->)|(e & used & ->)];
    wf_split Hwf.
Qed.

Lemma Gestures_attach_inference_wf
      (gesture_id model_id : Z) (predicted_label : string) (confidence : float)
      (probs : option pydict) (processing_time_ms : option Z) (w : world) :
  world_wf w ->
  world_wf (snd (Gestures_attach_inference gesture_id model_id predicted_label
                   confidence probs processing_time_ms w)).
Proof.
  intros Hwf. unfold Gestures_attach_inference.
  destruct (reachable w) eqn:Hup; [|unreachable Hup].
  rewrite bind_connection by exact Hup. unfold bind at 1, get_world.
  unfold sql_update_cast. destruct (_ || _).
  - unfold bind at 1. rewrite bind_cast.
    destruct (cast_as_json _); [|exact Hwf]. wf_split Hwf.
  - unfold bind at 1, ret. cbn [fst snd]. wf_split Hwf.
Qed.

Lemma Gestures_delete_wf (gesture_id : Z) (w : world) :
  world_wf w -> world_wf (snd (Gestures_delete gesture_id w)).
Proof.
  intros Hwf. unfold Gestures_delete.
  destruct (reachable w) eqn:Hup; [|unreachable Hup].
  rewrite bind_connection by exact Hup. wf_split Hwf.
Qed.

Lemma Predictions_create_wf (data : pydict) (w : world) :
  world_wf w -> world_wf (snd (Predictions_create data w)).
Proof.
  intros Hwf.
  destruct (Predictions_create_cases data w) as [(row & Hid & ->)|(used & ->)];
    wf_split Hwf.
Qed.

Lemma Predictions_mark_complete_wf
      (prediction_id : Z) (output_text : string) (confidence : option float)
      (latency_ms : option Z) (error_message : option string) (w : world) :
  world_wf w ->
  world_wf (snd (Predictions_mark_complete prediction_id output_text confidence
                   latency_ms error_message w)).
Proof.
  intros Hwf. unfold Predictions_mark_complete.
  destruct (reachable w) eqn:Hup; [|unreachable Hup].
  rewrite bind_connection by exact Hup.
  destruct (truthy error_message); wf_split Hwf.
Qed.

Lemma Predictions_delete_wf (prediction_id : Z) (w : world) :
  world_wf w -> world_wf (snd (Predictions_delete prediction_id w)).
Proof.
  intros Hwf. unfold Predictions_delete.
  destruct (reachable w) eqn:Hup; [|unreachable Hup].
  rewrite bind_connection by exact Hup. wf_split Hwf.
Qed.

(** *** Lists under [filter] *)

Lemma filter_none {A} (p : A -> bool) (l : list A) :
  existsb p l = false -> filter p l = [] /\ filter (fun x => negb (p x)) l = l.
Proof.
  induction l as [|x l IH]; simpl; [now split|].
  intros H. apply orb_false_iff in H. destruct H as [Hx Hl].
  rewrite Hx. simpl. destruct (IH Hl) as [-> ->]. now split.
Qed.

Lemma existsb_filter_negb {A} (p : A -> bool) (l : list A) :
  existsb p (filter (fun x => negb (p x)) l) = false.
Proof.
  induction l as [|x l IH]; simpl; [reflexivity|].
  destruct (p x) eqn:Hx; simpl; [exact IH|]. now rewrite Hx.
Qed.

Lemma length_filter_pos {A} (p : A -> bool) (l : list A) :
  (0 <? Z.of_nat (List.length (filter p l))) = existsb p l.
Proof.
  induction l as [|x l IH]; simpl; [reflexivity|].
  destruct (p x); simpl; [|exact IH].
  apply Z.ltb_lt. lia.
Qed.

(** *** Reading one row: GET /gestures/{id}, GET /predictions/{id} *)

(** The decoding step of the two handlers never decodes: [json] is not a
    global of main.py, the [NameError] is swallowed by [except Exception],
    and the row is returned as it was read. *)
Lemma decode_column_unchanged (row : pydict) (col : string) (w : world) :
  decode_column row col w = (Ok row, w).
Proof.
  unfold decode_column. destruct (truthy (dict_get row col)); reflexivity.
Qed.

Lemma get_gesture_run (get_one : Z -> M (option pydict)) (id : Z) (w : world) :
  get_gesture get_one id w
  = (Raise (AttributeError "GesturesMySQLService" "get_one"), w).
Proof. reflexivity. Qed.

Lemma get_prediction_run (get_one : Z -> M (option pydict)) (id : Z) (w : world) :
  get_prediction get_one id w
  = (Raise (AttributeError "PredictionsMySQLService" "get_one"), w).
Proof. reflexivity. Qed.

(** C1 (the code departs from the claim).  Whatever [get_one] would be bound
    to, whatever the identifier and whatever the tables hold, reading
    [svc.get_one] fails in both handlers: neither service class nor their
    base class defines it.  The request ends in status 500, not 200 or 404. *)
Theorem C1_get_one_is_not_defined
        (get_one : Z -> M (option pydict)) (id : Z) (w : world) :
  get_gesture get_one id w
    = (Raise (AttributeError "GesturesMySQLService" "get_one"), w)
  /\ get_prediction get_one id w
    = (Raise (AttributeError "PredictionsMySQLService" "get_one"), w)
  /\ http_status 200 (fst (get_gesture get_one id w)) = 500
  /\ http_status 200 (fst (get_prediction get_one id w)) = 500.
Proof. rewrite get_gesture_run, get_prediction_run. repeat split. Qed.

(** *** Updating: PUT /gestures/{id}, PUT /predictions/{id} *)

(** C2 (amended).  Both update handlers end in the service's
    [NotImplementedError] (status 500) for every identifier, body and
    database state, and leave the state as it was. *)
Theorem C2_update_is_not_implemented (id : Z) (payload : pydict) (w : world) :
  update_gesture id payload w
    = (Raise (NotImplementedError "PUT /gestures/{id} not implemented"), w)
  /\ update_prediction id payload w
    = (Raise (NotImplementedError "PUT /predictions/{id} not implemented"), w)
  /\ http_status 200 (fst (update_gesture id payload w)) = 500
  /\ http_status 200 (fst (update_prediction id payload w)) = 500.
Proof. repeat split. Qed.

(** *** Creating a gesture: POST /gestures *)

Lemma GestureInput_validate_ok (body : GestureInput) (w : world) :
  List.length (landmarks body) = 21%nat ->
  GestureInput_validate body w = (Ok tt, w).
Proof. intros H. unfold GestureInput_validate. now rewrite H. Qed.

Lemma GestureInput_validate_refuses (body : GestureInput) (w : world) :
  List.length (landmarks body) <> 21%nat ->
  GestureInput_validate body w = (Raise RequestValidationError, w).
Proof.
  intros H. unfold GestureInput_validate, landmarks_min_items, landmarks_max_items.
  destruct (Z.ltb_spec (Z.of_nat (List.length (landmarks body))) 21);
    [reflexivity|].
  destruct (Z.ltb_spec 21 (Z.of_nat (List.length (landmarks body))));
    [reflexivity|lia].
Qed.

(** What [create_gesture] does once the length test has passed. *)
Lemma create_gesture_run (body : GestureInput) (w : world) :
  (21 <= List.length (landmarks body))%nat ->
  reachable w = true ->
  create_gesture body w
  = match cast_as_json
            (json_dumps (PList (map (fun point => PList (map PFloat point))
                                    (landmarks body)))) with
    | Some landmarks_json =>
        let row :=
          gestures_insert_row (auto_increment (gestures w)) PNone
                              (of_opt PStr (user_id body)) landmarks_json
                              PNone PNone (PStr "api") (utcnow w) in
        match insert_into_gestures w row with
        | Inserted =>
            (Ok [("gesture_id", PInt (auto_increment (gestures w)))],
             set_gestures w {| rows := rows (gestures w) ++ [row];
                               auto_increment := auto_increment (gestures w) + 1 |})
        | Refused identifier_used =>
            (Raise MySQLError,
             set_gestures w (sql_refused identifier_used (gestures w)))
        end
    | None => (Raise MySQLError, w)
    end.
Proof.
  intros Hlen Hup. unfold create_gesture.
  destruct (Z.ltb_spec (Z.of_nat (List.length (landmarks body))) 21); [lia|].
  unfold bind at 1.
  match goal with
  | |- context [Gestures_create (("landmarks", ?points) :: ?rest) w] =>
      rewrite (Gestures_create_run (("landmarks", points) :: rest) points w
                 Hup eq_refl)
  end.
  destruct (cast_as_json _); [|reflexivity].
  cbn -[json_dumps]. destruct (insert_into_gestures w _); reflexivity.
Qed.

Lemma post_gestures_21 (body : GestureInput) (w : world) :
  List.length (landmarks body) = 21%nat ->
  post_gestures body w = create_gesture body w.
Proof.
  intros Hlen. unfold post_gestures, bind. now rewrite GestureInput_validate_ok.
Qed.

(** POST /gestures either adds one row under the next identifier, or raises
    and adds nothing. *)
Lemma post_gestures_cases (body : GestureInput) (w : world) :
  (exists row,
      g_gesture_id row = auto_increment (gestures w)
      /\ List.length (landmarks body) = 21%nat
      /\ reachable w = true
      /\ post_gestures body w
         = (Ok [("gesture_id", PInt (auto_increment (gestures w)))],
            set_gestures w {| rows := rows (gestures w) ++ [row];
                              auto_increment := auto_increment (gestures w) + 1 |}))
  \/ (List.length (landmarks body) = 21%nat
      /\ exists identifier_used,
           post_gestures body w
           = (Raise MySQLError,
              set_gestures w (sql_refused identifier_used (gestures w))))
  \/ (List.length (landmarks body) <> 21%nat
      /\ post_gestures body w = (Raise RequestValidationError, w)).
Proof.
  destruct (Nat.eq_dec (List.length (landmarks body)) 21) as [Hlen|Hlen].
  - rewrite post_gestures_21 by exact Hlen.
    destruct (reachable w) eqn:Hup.
    + rewrite create_gesture_run by (lia || exact Hup).
      destruct (cast_as_json _);
        [|right; left; split; [exact Hlen|];
          exists false; now rewrite gestures_not_refused].
      cbn zeta. destruct (insert_into_gestures w _) as [|used];
        [left|right; left; split; [exact Hlen|]; now exists used].
      eexists. split; [|split; [exact Hlen|split; reflexivity]]. reflexivity.
    + right; left. split; [exact Hlen|]. exists false.
      rewrite gestures_not_refused. unfold create_gesture.
      destruct (Z.ltb_spec (Z.of_nat (List.length (landmarks body))) 21); [lia|].
      unfold bind at 1. unfold Gestures_create. now rewrite connection_fails.
  - right; right. split; [exact Hlen|].
    unfold post_gestures, bind. now rewrite GestureInput_validate_refuses.
Qed.

(** C3 (amended).  A body with exactly 21 landmark points passes the request
    model.  On a reachable server the handler then asks for one row with the
    body's user and landmarks: when the server takes the landmarks as JSON
    and executes the INSERT, the answer is 201 with the identifier the row
    received; when it does not, the answer is 500 and no row is added, and
    that is so whenever a coordinate is not finite.  A body with more than 21
    points is refused by the request model with 422. *)
Theorem C3_exactly_21_points_created (body : GestureInput) (w : world) :
  reachable w = true ->
  let points :=
    PList (map (fun point => PList (map PFloat point)) (landmarks body)) in
  (List.length (landmarks body) = 21%nat ->
     GestureInput_validate body w = (Ok tt, w)
     /\ match cast_as_json (json_dumps points) with
        | Some landmarks_json =>
            let row :=
              gestures_insert_row (auto_increment (gestures w)) PNone
                                  (of_opt PStr (user_id body)) landmarks_json
                                  PNone PNone (PStr "api") (utcnow w) in
            post_gestures body w
            = match insert_into_gestures w row with
              | Inserted =>
                  (Ok [("gesture_id", PInt (auto_increment (gestures w)))],
                   set_gestures w
                     {| rows := rows (gestures w) ++ [row];
                        auto_increment := auto_increment (gestures w) + 1 |})
              | Refused identifier_used =>
                  (Raise MySQLError,
                   set_gestures w (sql_refused identifier_used (gestures w)))
              end
            /\ http_status 201 (fst (post_gestures body w))
               = match insert_into_gestures w row with
                 | Inserted => 201
                 | Refused _ => 500
                 end
        | None =>
            post_gestures body w = (Raise MySQLError, w)
            /\ http_status 201 (fst (post_gestures body w)) = 500
        end
     /\ (all_finite points = false ->
         post_gestures body w = (Raise MySQLError, w)))
  /\ ((21 < List.length (landmarks body))%nat ->
      post_gestures body w = (Raise RequestValidationError, w)
      /\ http_status 201 (fst (post_gestures body w)) = 422).
Proof.
  intros Hup. cbn zeta. split.
  - intros Hlen.
    assert (Hrun := create_gesture_run body w ltac:(lia) Hup).
    rewrite <- (post_gestures_21 body w Hlen) in Hrun.
    split; [now apply GestureInput_validate_ok|]. split.
    + destruct (cast_as_json _); cbn zeta in *.
      * rewrite Hrun. split; [reflexivity|].
        destruct (insert_into_gestures w _); reflexivity.
      * rewrite Hrun. now split.
    + intros Hfin. rewrite Hrun. now rewrite cast_as_json_finite.
  - intros Hlen.
    assert (Hpost : post_gestures body w = (Raise RequestValidationError, w)).
    { unfold post_gestures, bind.
      rewrite GestureInput_validate_refuses by lia. reflexivity. }
    rewrite Hpost. now split.
Qed.

(** C5.  A body with fewer than 21 landmark points is refused by the request
    model with status 422 before the handler runs; the handler's own length
    test would answer 400.  Either way the database is left as it was. *)
Theorem C5_fewer_than_21_points_rejected (body : GestureInput) (w : world) :
  (List.length (landmarks body) < 21)%nat ->
  post_gestures body w = (Raise RequestValidationError, w)
  /\ http_status 201 (fst (post_gestures body w)) = 422
  /\ 400 <= http_status 201 (fst (post_gestures body w)) < 500
  /\ gestures (snd (post_gestures body w)) = gestures w
  /\ create_gesture body w
     = (Raise (HTTPException 400 "landmarks must have at least 21 points"), w).
Proof.
  intros Hlen.
  assert (Hpost : post_gestures body w = (Raise RequestValidationError, w)).
  { unfold post_gestures, bind.
    rewrite GestureInput_validate_refuses by lia. reflexivity. }
  rewrite Hpost. cbn. repeat split; try lia.
  unfold create_gesture.
  destruct (Z.ltb_spec (Z.of_nat (List.length (landmarks body))) 21);
    [reflexivity|lia].
Qed.

(** C9 (amended).  A gesture created through POST /gestures is stored with
    source "api", which the handler passes explicitly; the service stores its
    default "web" only for data without a [source] key.  When the INSERT is
    refused, the driver's error is raised and no gesture is created. *)
Theorem C9_source_of_created_gesture
        (body : GestureInput) (data : pydict) (points : pyval) (w : world) :
  List.length (landmarks body) = 21%nat ->
  reachable w = true ->
  dict_lookup data "landmarks" = Some points ->
  dict_lookup data "source" = None ->
  ((exists row : gesture_row,
       rows (gestures (snd (post_gestures body w))) = (rows (gestures w) ++ [row])%list
       /\ g_source row = PStr "api")
   \/ (exists identifier_used,
         post_gestures body w
         = (Raise MySQLError,
            set_gestures w (sql_refused identifier_used (gestures w)))))
  /\ ((exists row : gesture_row,
       rows (gestures (snd (Gestures_create data w))) = (rows (gestures w) ++ [row])%list
       /\ fst (Gestures_create data w) = Ok (g_gesture_id row)
       /\ g_source row = PStr "web")
      \/ (exists identifier_used,
            Gestures_create data w
            = (Raise MySQLError,
               set_gestures w (sql_refused identifier_used (gestures w))))).
Proof.
  intros Hlen Hup Hlm Hsrc. split.
  - rewrite post_gestures_21 by exact Hlen.
    rewrite create_gesture_run by (lia || exact Hup).
    destruct (cast_as_json _);
      [|right; exists false; now rewrite gestures_not_refused].
    cbn zeta. destruct (insert_into_gestures w _) as [|used];
      [left|right; now exists used].
    eexists. split; reflexivity.
  - rewrite (Gestures_create_run data points w Hup Hlm).
    destruct (cast_as_json _);
      [|right; exists false; now rewrite gestures_not_refused].
    cbn zeta. destruct (insert_into_gestures w _) as [|used];
      [left|right; now exists used].
    eexists. cbn. repeat split.
    unfold dict_get_default. now rewrite Hsrc.
Qed.

(** *** Creating a prediction: POST /predictions *)

Lemma create_prediction_run (payload : pydict) (w : world) :
  reachable w = true ->
  create_prediction payload w
  = match cast_as_json
            (json_dumps (py_or (dict_get_default payload "params" (PDict []))
                               (PDict []))) with
    | Some params_json =>
        let row :=
          predictions_insert_row w (auto_increment (predictions w))
                                 (dict_get payload "requestor_user_id")
                                 (dict_get payload "session_id")
                                 (dict_get payload "model_id")
                                 (dict_get_default payload "status" (PStr "queued"))
                                 params_json in
        match insert_into_predictions w row with
        | Inserted =>
            (Ok [("prediction_id", PInt (auto_increment (predictions w)));
                 ("status", PStr "queued")],
             set_predictions w
               {| rows := rows (predictions w) ++ [row];
                  auto_increment := auto_increment (predictions w) + 1 |})
        | Refused identifier_used =>
            (Raise MySQLError,
             set_predictions w (sql_refused identifier_used (predictions w)))
        end
    | None => (Raise MySQLError, w)
    end.
Proof.
  intros Hup. unfold create_prediction. unfold bind at 1.
  rewrite Predictions_create_run by exact Hup.
  change (dict_get [("requestor_user_id", dict_get payload "requestor_user_id");
                    ("session_id", dict_get payload "session_id");
                    ("model_id", dict_get payload "model_id");
                    ("status", dict_get_default payload "status" (PStr "queued"));
                    ("params", dict_get_default payload "params" (PDict []))]
                   "params")
    with (dict_get_default payload "params" (PDict [])).
  destruct (cast_as_json _); [|reflexivity].
  cbn -[json_dumps]. destruct (insert_into_predictions w _); reflexivity.
Qed.

(** C6 (amended).  On a reachable server POST /predictions asks for one row
    that holds the status the body carries, "queued" when it carries none.
    When the server takes the params as JSON and executes the INSERT, the
    answer is 201 with status "queued" in the body, whatever status was
    stored; when it does not, the answer is 500 and no row is added.  A
    status that is a list or an object is refused by the driver, and the
    state stays as it was. *)
Theorem C6_created_prediction_status (payload : pydict) (w : world) :
  reachable w = true ->
  let status := dict_get_default payload "status" (PStr "queued") in
  let params := py_or (dict_get_default payload "params" (PDict [])) (PDict []) in
  match cast_as_json (json_dumps params) with
  | Some params_json =>
      let row :=
        predictions_insert_row w (auto_increment (predictions w))
                               (dict_get payload "requestor_user_id")
                               (dict_get payload "session_id")
                               (dict_get payload "model_id")
                               status params_json in
      create_prediction payload w
      = match insert_into_predictions w row with
        | Inserted =>
            (Ok [("prediction_id", PInt (auto_increment (predictions w)));
                 ("status", PStr "queued")],
             set_predictions w
               {| rows := rows (predictions w) ++ [row];
                  auto_increment := auto_increment (predictions w) + 1 |})
        | Refused identifier_used =>
            (Raise MySQLError,
             set_predictions w (sql_refused identifier_used (predictions w)))
        end
      /\ http_status 201 (fst (create_prediction payload w))
         = match insert_into_predictions w row with
           | Inserted => 201
           | Refused _ => 500
           end
      /\ p_prediction_id row = auto_increment (predictions w)
      /\ p_status row = status
  | None =>
      create_prediction payload w = (Raise MySQLError, w)
      /\ http_status 201 (fst (create_prediction payload w)) = 500
  end
  /\ (dict_lookup payload "status" = None -> status = PStr "queued")
  /\ (bindable status = false ->
      create_prediction payload w = (Raise MySQLError, w)).
Proof.
  intros Hup. cbn zeta.
  assert (Hrun := create_prediction_run payload w Hup).
  split; [|split].
  - destruct (cast_as_json _); cbn zeta in *.
    + rewrite Hrun. split; [reflexivity|].
      split; [|now split].
      destruct (insert_into_predictions w _); reflexivity.
    + rewrite Hrun. now split.
  - intros Hnone. unfold dict_get_default. now rewrite Hnone.
  - intros Hbind. rewrite Hrun.
    destruct (cast_as_json _); [|reflexivity]. cbn zeta.
    rewrite insert_into_predictions_bindable
      by (cbn; rewrite Hbind; now rewrite !andb_false_r).
    now rewrite predictions_not_refused.
Qed.

(** *** Completing a prediction *)

Lemma Forall2_map_right {A} (P : A -> A -> Prop) (f : A -> A) (l : list A) :
  (forall x, P x (f x)) -> Forall2 P l (map f l).
Proof. intros H. induction l; simpl; constructor; auto. Qed.


(** *** Deleting *)

Lemma Models_delete_run (model_id : Z) (w : world) :
  reachable w = true ->
  Models_delete model_id w
  = (Ok (has_row m_model_id (models w) model_id),
     set_models w
       {| rows := filter (fun r => negb (m_model_id r =? model_id)) (rows (models w));
          auto_increment := auto_increment (models w) |}).
Proof.
  intros Hup. unfold Models_delete. rewrite bind_connection by exact Hup.
  cbn. now rewrite length_filter_pos.
Qed.

Lemma Gestures_delete_run (gesture_id : Z) (w : world) :
  reachable w = true ->
  Gestures_delete gesture_id w
  = (Ok (has_row g_gesture_id (gestures w) gesture_id),
     set_gestures w
       {| rows := filter (fun r => negb (g_gesture_id r =? gesture_id)) (rows (gestures w));
          auto_increment := auto_increment (gestures w) |}).
Proof.
  intros Hup. unfold Gestures_delete. rewrite bind_connection by exact Hup.
  cbn. now rewrite length_filter_pos.
Qed.

Lemma Predictions_delete_run (prediction_id : Z) (w : world) :
  reachable w = true ->
  Predictions_delete prediction_id w
  = (Ok (has_row p_prediction_id (predictions w) prediction_id),
     set_predictions w
       {| rows := filter (fun r => negb (p_prediction_id r =? prediction_id))
                         (rows (predictions w));
          auto_increment := auto_increment (predictions w) |}).
Proof.
  intros Hup. unfold Predictions_delete. rewrite bind_connection by exact Hup.
  cbn. now rewrite length_filter_pos.
Qed.

Lemma Models_delete_absent (model_id : Z) (w : world) :
  reachable w = true ->
  has_row m_model_id (models w) model_id = false ->
  Models_delete model_id w = (Ok false, w).
Proof.
  intros Hup Habs. rewrite Models_delete_run by exact Hup. rewrite Habs.
  destruct (filter_none _ _ Habs) as [_ ->].
  now rewrite table_eta, set_models_same.
Qed.

Lemma delete_model_absent (model_id : Z) (w : world) :
  reachable w = true ->
  has_row m_model_id (models w) model_id = false ->
  delete_model model_id w = (Raise (HTTPException 404 "Model not found"), w).
Proof.
  intros Hup Habs. unfold delete_model, bind.
  now rewrite Models_delete_absent.
Qed.

(** C8.  On a reachable server, deleting an identifier that has no row
    returns [False] without raising and changes nothing, and the handler
    answers 404; so does every repetition.  Deleting an identifier that has a
    row returns [True], after which the identifier has no row and deleting it
    again returns [False] and 404. *)
Theorem C8_delete_not_found_is_repeatable (model_id : Z) (w : world) :
  reachable w = true ->
  (has_row m_model_id (models w) model_id = false ->
     Models_delete model_id w = (Ok false, w)
     /\ delete_model model_id w = (Raise (HTTPException 404 "Model not found"), w)
     /\ http_status 200 (fst (delete_model model_id w)) = 404)
  /\ (let w1 := snd (Models_delete model_id w) in
      fst (Models_delete model_id w) = Ok (has_row m_model_id (models w) model_id)
      /\ has_row m_model_id (models w1) model_id = false
      /\ Models_delete model_id w1 = (Ok false, w1)
      /\ delete_model model_id w1 = (Raise (HTTPException 404 "Model not found"), w1)).
Proof.
  intros Hup. split.
  - intros Habs. rewrite delete_model_absent, Models_delete_absent by assumption.
    repeat split.
  - cbn zeta. rewrite Models_delete_run by exact Hup. cbn [fst snd].
    set (w1 := set_models w _).
    assert (Hup1 : reachable w1 = true) by exact Hup.
    assert (Habs1 : has_row m_model_id (models w1) model_id = false)
      by apply existsb_filter_negb.
    repeat split;
      [exact Habs1 | now apply Models_delete_absent | now apply delete_model_absent].
Qed.

(** The same for the two other services. *)
Lemma Gestures_delete_repeatable (gesture_id : Z) (w : world) :
  reachable w = true ->
  let w1 := snd (Gestures_delete gesture_id w) in
  has_row g_gesture_id (gestures w1) gesture_id = false
  /\ Gestures_delete gesture_id w1 = (Ok false, w1)
  /\ delete_gesture gesture_id w1 = (Raise (HTTPException 404 "Gesture not found"), w1).
Proof.
  intros Hup. cbn zeta. rewrite Gestures_delete_run by exact Hup. cbn [snd].
  set (w1 := set_gestures w _).
  assert (Hup1 : reachable w1 = true) by exact Hup.
  assert (Habs1 : has_row g_gesture_id (gestures w1) gesture_id = false)
    by apply existsb_filter_negb.
  assert (Hdel : Gestures_delete gesture_id w1 = (Ok false, w1)).
  { rewrite Gestures_delete_run by exact Hup1. rewrite Habs1.
    destruct (filter_none _ _ Habs1) as [_ ->].
    now rewrite table_eta, set_gestures_same. }
  repeat split; [exact Habs1 | exact Hdel |].
  unfold delete_gesture, bind. now rewrite Hdel.
Qed.

(** Deleting a prediction a second time finds nothing and answers 404. *)
Lemma Predictions_delete_repeatable (prediction_id : Z) (w : world) :
  reachable w = true ->
  let w1 := snd (Predictions_delete prediction_id w) in
  has_row p_prediction_id (predictions w1) prediction_id = false
  /\ Predictions_delete prediction_id w1 = (Ok false, w1)
  /\ delete_prediction prediction_id w1
     = (Raise (HTTPException 404 "Prediction not found"), w1).
Proof.
  intros Hup. cbn zeta. rewrite Predictions_delete_run by exact Hup. cbn [snd].
  set (w1 := set_predictions w _).
  assert (Hup1 : reachable w1 = true) by exact Hup.
  assert (Habs1 : has_row p_prediction_id (predictions w1) prediction_id = false)
    by apply existsb_filter_negb.
  assert (Hdel : Predictions_delete prediction_id w1 = (Ok false, w1)).
  { rewrite Predictions_delete_run by exact Hup1. rewrite Habs1.
    destruct (filter_none _ _ Habs1) as [_ ->].
    now rewrite table_eta, set_predictions_same. }
  repeat split; [exact Habs1 | exact Hdel |].
  unfold delete_prediction, bind. now rewrite Hdel.
Qed.

(** *** Listing, newest first *)

Lemma insert_desc_perm {R} (key : R -> Z) (x : R) (l : list R) :
  Permutation (insert_desc key x l) (x :: l).
Proof.
  induction l as [|y l IH]; simpl; [reflexivity|].
  destruct (key x <? key y); [|reflexivity].
  rewrite IH. apply perm_swap.
Qed.

Lemma order_by_desc_perm {R} (key : R -> Z) (l : list R) :
  Permutation (order_by_desc key l) l.
Proof.
  induction l as [|x l IH]; simpl; [reflexivity|].
  rewrite insert_desc_perm. now constructor.
Qed.

Lemma insert_desc_newest_first {R} (key : R -> Z) (x : R) (l : list R) :
  newest_first key l -> newest_first key (insert_desc key x l).
Proof.
  induction l as [|y l IH]; simpl; [auto|].
  intros [Hy Hl]. destruct (Z.ltb_spec (key x) (key y)) as [Hlt|Hge]; simpl.
  - split; [|now apply IH].
    rewrite insert_desc_perm. constructor; [lia|exact Hy].
  - split; [|now split].
    constructor; [exact Hge|].
    eapply Forall_impl; [|exact Hy]. simpl. intros; lia.
Qed.

Lemma order_by_desc_newest_first {R} (key : R -> Z) (l : list R) :
  newest_first key (order_by_desc key l).
Proof.
  induction l as [|x l IH]; simpl; [exact I|].
  now apply insert_desc_newest_first.
Qed.

Lemma Forall_firstn {A} (P : A -> Prop) (n : nat) (l : list A) :
  Forall P l -> Forall P (firstn n l).
Proof.
  intros H. revert n. induction H; intros [|n]; simpl; constructor; auto.
Qed.

Lemma firstn_newest_first {R} (key : R -> Z) (n : nat) (l : list R) :
  newest_first key l -> newest_first key (firstn n l).
Proof.
  revert n. induction l as [|x l IH]; intros [|n]; simpl; auto.
  intros [Hx Hl]. split; [now apply Forall_firstn|now apply IH].
Qed.

Lemma sql_limit_run {R} (limit : Z) (l : list R) (w : world) :
  0 <= limit -> sql_limit limit l w = (Ok (firstn (Z.to_nat limit) l), w).
Proof.
  intros H. unfold sql_limit.
  destruct (Z.ltb_spec limit 0); [lia|reflexivity].
Qed.

(** The two falsy filter values take the unfiltered branch, whatever the
    state of the server and whatever the limit. *)
Lemma retrieve_falsy_filter_is_no_filter (limit : Z) (w : world) :
  Gestures_retrieve (Some EmptyString) limit w = Gestures_retrieve None limit w
  /\ Predictions_retrieve (Some 0) limit w = Predictions_retrieve None limit w.
Proof. split; reflexivity. Qed.

(** A non-empty user identifier does filter. *)
Lemma Gestures_retrieve_filters (c : ascii) (u : string) (limit : Z) (w : world) :
  reachable w = true ->
  0 <= limit ->
  Gestures_retrieve (Some (String c u)) limit w
  = (Ok (firstn (Z.to_nat limit)
           (order_by_desc g_received_at
              (filter (fun r => sql_eq (g_user_id r) (PStr (String c u)))
                      (rows (gestures w))))), w).
Proof.
  intros Hup Hlim. unfold Gestures_retrieve.
  rewrite bind_connection by exact Hup. cbn.
  now rewrite sql_limit_run.
Qed.

(** A non-zero session identifier does filter. *)
Lemma Predictions_retrieve_filters (sid limit : Z) (w : world) :
  reachable w = true ->
  0 <= limit ->
  sid <> 0 ->
  Predictions_retrieve (Some sid) limit w
  = (Ok (firstn (Z.to_nat limit)
           (order_by_desc p_created_at
              (filter (fun r => sql_eq (p_session_id r) (PInt sid))
                      (rows (predictions w))))), w).
Proof.
  intros Hup Hlim Hsid. unfold Predictions_retrieve.
  rewrite bind_connection by exact Hup.
  unfold bind at 1, get_world.
  assert (Ht : truthy (Some sid) = true).
  { cbn. unfold truthy, Truthy_Z. now destruct (Z.eqb_spec sid 0). }
  rewrite Ht. cbn. now rewrite sql_limit_run.
Qed.


(** *** Writing and reading JSON integers *)

Lemma string_of_uint_digits (d : Decimal.uint) :
  all_digits (NilEmpty.string_of_uint d) = true.
Proof. induction d; simpl; auto. Qed.

Lemma to_uint_normal (p : positive) :
  Decimal.unorm (Pos.to_uint p) = Pos.to_uint p.
Proof.
  rewrite <- (DecimalPos.Unsigned.to_of (Pos.to_uint p)).
  now rewrite DecimalPos.Unsigned.of_to.
Qed.

Lemma to_uint_head (p : positive) (d : Decimal.uint) :
  Pos.to_uint p <> Decimal.D0 d.
Proof.
  intros H.
  pose proof (to_uint_normal p) as Hn. unfold Decimal.unorm in Hn.
  destruct (Decimal.nzhead (Pos.to_uint p)) eqn:Hz; try congruence.
  - symmetry in Hn. now apply DecimalPos.Unsigned.to_uint_nonzero in Hn.
  - now apply DecimalFacts.nzhead_nonzero in Hz.
Qed.

(** The text of a positive number: digits, the first of which is not zero. *)
Lemma string_of_pos_literal (p : positive) :
  let s := NilZero.string_of_uint (Pos.to_uint p) in
  is_int_literal s = true /\ all_digits s = true /\ s <> EmptyString.
Proof.
  cbn zeta. pose proof (to_uint_head p) as Hhead.
  pose proof (DecimalPos.Unsigned.to_uint_nonnil p) as Hnil.
  pose proof (string_of_uint_digits (Pos.to_uint p)) as Hdig.
  destruct (Pos.to_uint p) as [|d|d|d|d|d|d|d|d|d|d];
    [congruence | now elim (Hhead d) | ..];
    cbn in *; (repeat split; [exact Hdig | exact Hdig | discriminate]).
Qed.

Lemma is_int_literal_string_of_Z (n : Z) : is_int_literal (string_of_Z n) = true.
Proof.
  destruct n as [|p|p]; [reflexivity| |].
  - apply string_of_pos_literal.
  - unfold string_of_Z. cbn -[NilZero.string_of_uint Pos.to_uint is_int_literal].
    destruct (string_of_pos_literal p) as (Hlit & Hdig & Hne).
    unfold is_int_literal in *.
    destruct (NilZero.string_of_uint (Pos.to_uint p)) as [|c s]; [congruence|].
    cbn in Hdig. apply andb_prop in Hdig. destruct Hdig as [Hc _].
    assert (Hminus : c <> "-"%char) by (intros ->; discriminate).
    revert Hlit. 
    destruct c as [[] [] [] [] [] [] [] []]; try discriminate; try congruence;
      auto.
Qed.

Lemma Z_of_literal_string_of_Z (n : Z) : Z_of_literal (string_of_Z n) = Some n.
Proof.
  unfold Z_of_literal. rewrite is_int_literal_string_of_Z.
  unfold string_of_Z. rewrite NilZero.isi.
  - simpl. now rewrite DecimalZ.of_to.
  - destruct n; simpl; try discriminate.
    intros [= H]. now apply DecimalPos.Unsigned.to_uint_nonnil in H.
  - destruct n; simpl; try discriminate.
    intros [= H]. now apply DecimalPos.Unsigned.to_uint_nonnil in H.
Qed.


Lemma span_number_app (lit rest : string) :
  all_number_chars lit = true ->
  ends_number rest ->
  span_number (lit ++ rest) = (lit, rest).
Proof.
  intros Hlit Hrest. induction lit as [|c lit IH]; cbn [append span_number].
  - destruct rest as [|c rest]; [reflexivity|].
    unfold ends_number in Hrest. cbn [span_number]. now rewrite Hrest.
  - cbn [all_number_chars] in Hlit. apply andb_prop in Hlit.
    destruct Hlit as [Hc Hlit]. rewrite Hc, (IH Hlit). reflexivity.
Qed.

Lemma all_digits_number_chars (s : string) :
  all_digits s = true -> all_number_chars s = true.
Proof.
  induction s as [|c s IH]; cbn [all_digits all_number_chars]; [reflexivity|].
  intros H. apply andb_prop in H. destruct H as [Hc Hs].
  unfold is_number_char. now rewrite Hc, IH.
Qed.

Lemma string_of_Z_number_chars (n : Z) : all_number_chars (string_of_Z n) = true.
Proof.
  destruct n as [|p|p]; [reflexivity| |].
  - apply all_digits_number_chars, string_of_pos_literal.
  - unfold string_of_Z. simpl Z.to_int. cbv [NilZero.string_of_int].
    simpl all_number_chars.
    apply all_digits_number_chars, string_of_pos_literal.
Qed.

(** The first character of a printed integer. *)
Lemma string_of_Z_head (n : Z) :
  exists c s, string_of_Z n = String c s
              /\ (is_digit c = true \/ c = "-"%char).
Proof.
  destruct n as [|p|p].
  - exists "0"%char, EmptyString. now split; [|left].
  - destruct (string_of_pos_literal p) as (_ & Hdig & Hne).
    unfold string_of_Z. simpl Z.to_int. cbv [NilZero.string_of_int].
    destruct (NilZero.string_of_uint (Pos.to_uint p)) as [|c s]; [congruence|].
    exists c, s. split; [reflexivity|left].
    simpl in Hdig. now apply andb_prop in Hdig.
  - eexists _, _. split; [reflexivity|now right].
Qed.

Lemma parse_value_number (fuel : nat) (c : ascii) (s : string) :
  is_digit c = true \/ c = "-"%char ->
  parse_value (S fuel) (String c s)
  = match parse_number (String c s) with
    | Some number => Some number
    | None => parse_constant (String c s)
    end.
Proof.
  intros [Hc| ->]; [|reflexivity].
  destruct c as [[] [] [] [] [] [] [] []]; try discriminate Hc; reflexivity.
Qed.

Lemma parse_value_int (fuel : nat) (n : Z) (rest : string) :
  ends_number rest ->
  parse_value (S fuel) (string_of_Z n ++ rest) = Some (PInt n, rest).
Proof.
  intros Hrest.
  destruct (string_of_Z_head n) as (c & s & Hs & Hc).
  rewrite Hs. simpl append. rewrite parse_value_number by exact Hc.
  change (String c (s ++ rest)) with (String c s ++ rest). rewrite <- Hs.
  unfold parse_number.
  rewrite span_number_app by (auto using string_of_Z_number_chars).
  rewrite is_int_literal_string_of_Z, Z_of_literal_string_of_Z. reflexivity.
Qed.


Lemma append_assoc (a b c : string) : (a ++ b) ++ c = a ++ (b ++ c).
Proof. induction a as [|x a IH]; simpl; [reflexivity|now rewrite IH]. Qed.

Lemma length_append (a b : string) :
  String.length (a ++ b) = (String.length a + String.length b)%nat.
Proof. induction a as [|x a IH]; simpl; [reflexivity|now rewrite IH]. Qed.

Lemma json_dumps_int_list (l : list Z) :
  json_dumps (PList (map PInt l)) = "[" ++ int_elems l ++ "]".
Proof.
  cbn [json_dumps]. do 2 f_equal.
  induction l as [|x r IH]; [reflexivity|].
  cbn [map int_elems]. destruct r as [|y r]; [reflexivity|].
  cbn [map] in *. rewrite IH. reflexivity.
Qed.

Lemma parse_value_space (fuel : nat) (s : string) :
  parse_value fuel (String " "%char s) = parse_value fuel s.
Proof. destruct fuel; reflexivity. Qed.

Lemma parse_elems_space (value_fuel fuel : nat) (s : string) :
  parse_elems (parse_value value_fuel) fuel (String " "%char s)
  = parse_elems (parse_value value_fuel) fuel s.
Proof.
  destruct fuel; [reflexivity|]. cbn [parse_elems].
  now rewrite parse_value_space.
Qed.

Lemma skip_ws_comma (s : string) :
  skip_ws (String ","%char s) = String ","%char s.
Proof. reflexivity. Qed.

Lemma skip_ws_bracket (s : string) :
  skip_ws (String "]"%char s) = String "]"%char s.
Proof. reflexivity. Qed.

Lemma parse_elems_ints (value_fuel fuel : nat) (x : Z) (r : list Z) (rest : string) :
  (List.length (x :: r) <= fuel)%nat ->
  parse_elems (parse_value (S value_fuel)) fuel
              (int_elems (x :: r) ++ String "]"%char rest)
  = Some (map PInt (x :: r), rest).
Proof.
  revert x fuel. induction r as [|y r IH]; intros x [|fuel] Hfuel;
    try (simpl in Hfuel; lia).
  - cbn [int_elems parse_elems]. rewrite parse_value_int by reflexivity.
    rewrite skip_ws_bracket. reflexivity.
  - change (int_elems (x :: y :: r))
      with (string_of_Z x ++ ", " ++ int_elems (y :: r)).
    rewrite !append_assoc. cbn [parse_elems].
    rewrite parse_value_int by reflexivity.
    cbn [append]. rewrite skip_ws_comma. lazy beta iota.
    rewrite parse_elems_space, IH by (simpl in *; lia).
    reflexivity.
Qed.

Lemma int_elems_length (l : list Z) :
  (List.length l <= String.length (int_elems l))%nat.
Proof.
  induction l as [|x r IH]; [simpl; lia|].
  destruct (string_of_Z_head x) as (c & s & Hs & _).
  cbn [int_elems]. destruct r as [|y r].
  - rewrite Hs. simpl. lia.
  - rewrite !length_append, Hs. cbn [List.length String.length] in *. lia.
Qed.

Lemma int_elems_head (x : Z) (r : list Z) :
  exists c s, int_elems (x :: r) = String c s
              /\ (is_digit c = true \/ c = "-"%char).
Proof.
  destruct (string_of_Z_head x) as (c & s & Hs & Hc).
  cbn [int_elems]. destruct r; rewrite Hs; cbn [append]; eauto.
Qed.

Lemma parse_value_array (fuel : nat) (c : ascii) (s : string) :
  is_digit c = true \/ c = "-"%char ->
  parse_value (S fuel) (String "["%char (String c s))
  = option_map (fun '(vs, r) => (PList vs, r))
               (parse_elems (parse_value fuel) fuel (String c s)).
Proof.
  intros [Hc| ->]; [|reflexivity].
  destruct c as [[] [] [] [] [] [] [] []]; try discriminate Hc; reflexivity.
Qed.

(** Writing a list of integers and reading it back gives the list. *)
Theorem json_int_list_round_trip (l : list Z) :
  json_loads (json_dumps (PList (map PInt l))) = Some (PList (map PInt l)).
Proof.
  rewrite json_dumps_int_list. unfold json_loads.
  destruct l as [|x r]; [reflexivity|].
  pose proof (int_elems_length (x :: r)) as Hlen.
  destruct (int_elems_head x r) as (c & s & Hs & Hc).
  cbn [append]. rewrite Hs at 2. cbn [append].
  rewrite parse_value_array by exact Hc.
  change (String c (s ++ "]")) with (String c s ++ "]"). rewrite <- Hs.
  cbn [String.length]. rewrite length_append.
  destruct (String.length (int_elems (x :: r))) as [|n] eqn:Hn;
    [simpl in Hlen; lia|].
  cbn [Nat.add]. rewrite parse_elems_ints by (simpl in *; lia).
  reflexivity.
Qed.

(** *** Registering a model and reading it back *)

Lemma find_app_new {R} (key : R -> Z) (id : Z) (l : list R) (x : R) :
  Forall (fun r => key r < id) l ->
  key x = id ->
  find (fun r => key r =? id) (l ++ [x]) = Some x.
Proof.
  intros Hl Hx. induction Hl as [|y l Hy _ IH]; simpl.
  - now rewrite Hx, Z.eqb_refl.
  - destruct (Z.eqb_spec (key y) id); [lia|exact IH].
Qed.

Lemma register_model_run (model_input : ModelInput) (w : world) :
  reachable w = true ->
  register_model model_input w
  = match cast_as_json (json_dumps (PList (map PInt (input_shape model_input)))),
          cast_as_json (json_dumps (PList [PInt (output_classes model_input)])),
          cast_as_json "null" with
    | Some input_json, Some output_json, Some metrics_json =>
        let row :=
          models_insert_row w (auto_increment (models w))
                            (PStr (name model_input)) (PStr (version model_input))
                            (PStr (model_type model_input))
                            (py_or (PStr (model_path model_input))
                                   (PStr "/models/unknown.bin"))
                            input_json output_json (PStr "active") metrics_json
                            PNone in
        match insert_into_models w row with
        | Inserted =>
            (Ok [("model_id", PInt (auto_increment (models w)))],
             set_models w {| rows := rows (models w) ++ [row];
                             auto_increment := auto_increment (models w) + 1 |})
        | Refused identifier_used =>
            (Raise MySQLError,
             set_models w (sql_refused identifier_used (models w)))
        end
    | _, _, _ => (Raise MySQLError, w)
    end.
Proof.
  intros Hup. unfold register_model. unfold bind at 1.
  match goal with
  | |- context [Models_create ?d w] =>
      rewrite (Models_create_run d _ _ _ _ _ _ w Hup
                 eq_refl eq_refl eq_refl eq_refl eq_refl eq_refl);
      change (dict_get d "metrics") with PNone;
      change (dict_get d "sha256") with PNone;
      change (dict_get_default d "status" (PStr "active")) with (PStr "active")
  end.
  destruct (cast_as_json (json_dumps (PList (map PInt _)))); [|reflexivity].
  destruct (cast_as_json (json_dumps (PList [_]))); [|reflexivity].
  destruct (cast_as_json "null"); [|reflexivity].
  cbn zeta. destruct (insert_into_models w _); reflexivity.
Qed.

Lemma plain_json_ints (l : list Z) :
  Forall int64 l -> plain_json (PList (map PInt l)) = true.
Proof.
  intros Hl. cbn [plain_json]. induction Hl as [|n l Hn _ IH]; [reflexivity|].
  cbn [map forallb plain_scalar]. rewrite IH, andb_true_r. unfold int64 in Hn.
  apply andb_true_intro. split; [apply Z.leb_le|apply Z.ltb_lt]; lia.
Qed.

(** Shapes of 64-bit integers are accepted as JSON and read back as Python
    wrote them. *)
Lemma register_model_plain (model_input : ModelInput) (w : world) :
  reachable w = true ->
  Forall int64 (input_shape model_input) ->
  int64 (output_classes model_input) ->
  let row :=
    models_insert_row w (auto_increment (models w))
                      (PStr (name model_input)) (PStr (version model_input))
                      (PStr (model_type model_input))
                      (py_or (PStr (model_path model_input))
                             (PStr "/models/unknown.bin"))
                      (json_dumps (PList (map PInt (input_shape model_input))))
                      (json_dumps (PList [PInt (output_classes model_input)]))
                      (PStr "active") "null" PNone in
  register_model model_input w
  = match insert_into_models w row with
    | Inserted =>
        (Ok [("model_id", PInt (auto_increment (models w)))],
         set_models w {| rows := rows (models w) ++ [row];
                         auto_increment := auto_increment (models w) + 1 |})
    | Refused identifier_used =>
        (Raise MySQLError,
         set_models w (sql_refused identifier_used (models w)))
    end.
Proof.
  intros Hup Hin Hout. cbn zeta. rewrite register_model_run by exact Hup.
  rewrite (cast_as_json_plain (PList (map PInt (input_shape model_input))))
    by now apply plain_json_ints.
  rewrite (cast_as_json_plain (PList [PInt (output_classes model_input)]))
    by (apply (plain_json_ints [output_classes model_input]); now constructor).
  rewrite (cast_as_json_plain PNone eq_refl). reflexivity.
Qed.

Lemma get_model_new_row (w : world) (row : model_row) :
  reachable w = true ->
  table_wf m_model_id (models w) ->
  m_model_id row = auto_increment (models w) ->
  let w1 := set_models w {| rows := rows (models w) ++ [row];
                            auto_increment := auto_increment (models w) + 1 |} in
  get_model (auto_increment (models w)) w1 = (Ok row, w1).
Proof.
  intros Hup Hwf Hid. cbn zeta. unfold get_model. unfold bind at 1.
  unfold Models_retrieve. rewrite bind_connection by exact Hup.
  unfold bind, get_world. cbn [models set_models rows].
  rewrite (find_app_new m_model_id (auto_increment (models w))) by auto.
  reflexivity.
Qed.

(** C7 (amended).  Registering a model with input_shape [[42]] and
    output_classes 37 asks for a row whose shape columns are the JSON texts
    of [[42]] and [[37]].  When the server executes the INSERT the answer is
    201, and reading the model by the identifier returned answers 200 with
    that row: its shape columns are the strings "[42]" and "[37]", which the
    handler passes on as they are; only a JSON reader applied to them gives
    the two lists.  When the INSERT is refused the answer is 500 and no row
    is added. *)
Theorem C7_shapes_are_returned_as_json_text (model_input : ModelInput) (w : world) :
  reachable w = true ->
  table_wf m_model_id (models w) ->
  input_shape model_input = [42] ->
  output_classes model_input = 37 ->
  let model_id := auto_increment (models w) in
  let row :=
    models_insert_row w model_id
                      (PStr (name model_input)) (PStr (version model_input))
                      (PStr (model_type model_input))
                      (py_or (PStr (model_path model_input))
                             (PStr "/models/unknown.bin"))
                      "[42]" "[37]" (PStr "active") "null" PNone in
  let w1 := set_models w {| rows := rows (models w) ++ [row];
                            auto_increment := model_id + 1 |} in
  match insert_into_models w row with
  | Inserted =>
      register_model model_input w = (Ok [("model_id", PInt model_id)], w1)
      /\ get_model model_id w1 = (Ok row, w1)
      /\ http_status 201 (fst (register_model model_input w)) = 201
      /\ http_status 200 (fst (get_model model_id w1)) = 200
      /\ json_column (m_input_shape row) = PStr "[42]"
      /\ json_column (m_output_shape row) = PStr "[37]"
      /\ json_loads (m_input_shape row) = Some (PList [PInt 42])
      /\ json_loads (m_output_shape row) = Some (PList [PInt 37])
  | Refused identifier_used =>
      register_model model_input w
      = (Raise MySQLError, set_models w (sql_refused identifier_used (models w)))
      /\ http_status 201 (fst (register_model model_input w)) = 500
  end.
Proof.
  intros Hup Hwf Hin Hout. cbn zeta.
  assert (Hreg := register_model_plain model_input w Hup).
  rewrite Hin, Hout in Hreg.
  specialize (Hreg ltac:(repeat constructor; unfold int64; lia)
                   ltac:(unfold int64; lia)).
  cbn zeta in Hreg.
  change (json_dumps (PList (map PInt [42]))) with "[42]" in Hreg.
  change (json_dumps (PList [PInt 37])) with "[37]" in Hreg.
  destruct (insert_into_models w _).
  - rewrite Hreg.
    match goal with
    | |- context [(rows (models w) ++ [?r])%list] =>
        rewrite (get_model_new_row w r Hup Hwf eq_refl)
    end.
    repeat split.
  - rewrite Hreg. now split.
Qed.

(** *** Every request keeps the tables well formed *)

Lemma snd_bind {A B} (c : M A) (k : A -> M B) (w : world) :
  (forall a w', snd (k a w') = w') ->
  snd ((x <- c ;; k x) w) = snd (c w).
Proof.
  intros Hk. unfold bind. destruct (c w) as [[a|e] w']; simpl; auto.
Qed.

Lemma snd_retrieve_gestures (user_id : option string) (limit : Z) (w : world) :
  snd (Gestures_retrieve user_id limit w) = w.
Proof.
  unfold Gestures_retrieve. destruct (reachable w) eqn:Hup.
  - rewrite bind_connection by exact Hup. unfold bind, get_world, sql_limit.
    destruct (truthy user_id); destruct (limit <? 0); reflexivity.
  - unfold bind at 1. now rewrite get_connection_down.
Qed.

Lemma snd_retrieve_predictions (session_id : option Z) (limit : Z) (w : world) :
  snd (Predictions_retrieve session_id limit w) = w.
Proof.
  unfold Predictions_retrieve. destruct (reachable w) eqn:Hup.
  - rewrite bind_connection by exact Hup. unfold bind, get_world, sql_limit.
    destruct (truthy session_id); destruct (limit <? 0); reflexivity.
  - unfold bind at 1. now rewrite get_connection_down.
Qed.

Lemma snd_retrieve_models (model_id : option Z) (w : world) :
  snd (Models_retrieve model_id w) = w.
Proof.
  unfold Models_retrieve. destruct (reachable w) eqn:Hup.
  - rewrite bind_connection by exact Hup. unfold bind, get_world.
    destruct model_id as [id|]; [|reflexivity].
    destruct (find _ _); reflexivity.
  - unfold bind at 1. now rewrite get_connection_down.
Qed.

Lemma snd_respond {A} (code : Z) (handler : M A) (w : world) :
  snd (respond code handler w) = snd (handler w).
Proof. unfold respond. now destruct (handler w). Qed.

Ltac pure_continuation :=
  intros; repeat match goal with
                 | |- context [if ?b then _ else _] => destruct b
                 | |- context [match ?l with [] => _ | _ :: _ => _ end] => destruct l
                 end; reflexivity.

Theorem serve_keeps_wf (get_one : Z -> M (option pydict)) (r : request) (w : world) :
  world_wf w -> world_wf (snd (serve get_one r w)).
Proof.
  intros Hwf. destruct r; unfold serve; rewrite snd_respond.
  - unfold list_gestures. now rewrite snd_retrieve_gestures.
  - now rewrite get_gesture_run.
  - unfold post_gestures, bind, GestureInput_validate.
    destruct (_ || _); [exact Hwf|]. cbn [ret]. unfold create_gesture.
    destruct (_ <? 21); [exact Hwf|].
    rewrite snd_bind by pure_continuation. now apply Gestures_create_wf.
  - exact Hwf.
  - unfold delete_gesture. rewrite snd_bind by pure_continuation.
    now apply Gestures_delete_wf.
  - unfold get_all_models. now rewrite snd_retrieve_models.
  - unfold get_model. rewrite snd_bind by pure_continuation.
    now rewrite snd_retrieve_models.
  - unfold register_model. rewrite snd_bind by pure_continuation.
    now apply Models_create_wf.
  - unfold delete_model. rewrite snd_bind by pure_continuation.
    now apply Models_delete_wf.
  - unfold list_predictions. now rewrite snd_retrieve_predictions.
  - now rewrite get_prediction_run.
  - unfold create_prediction. rewrite snd_bind by pure_continuation.
    now apply Predictions_create_wf.
  - exact Hwf.
  - unfold delete_prediction. rewrite snd_bind by pure_continuation.
    now apply Predictions_delete_wf.
Qed.

(** In particular the tables are well formed after any sequence of requests
    that starts from well-formed tables. *)
Corollary serve_all_keeps_wf
          (get_one : Z -> M (option pydict)) (rs : list request) (w : world) :
  world_wf w -> world_wf (serve_all get_one rs w).
Proof.
  unfold serve_all. revert w.
  induction rs as [|r rs IH]; intros w Hwf; simpl; [exact Hwf|].
  apply IH. now apply serve_keeps_wf.
Qed.

(** *** An unreachable server

    No request changes the state when the connection cannot be made. *)
Theorem serve_unreachable (get_one : Z -> M (option pydict)) (r : request) (w : world) :
  reachable w = false ->
  snd (serve get_one r w) = w.
Proof.
  intros Hdown. destruct r; unfold serve; rewrite snd_respond.
  - apply snd_retrieve_gestures.
  - now rewrite get_gesture_run.
  - unfold post_gestures, bind, GestureInput_validate.
    destruct (_ || _); [reflexivity|]. cbn [ret]. unfold create_gesture.
    destruct (_ <? 21); [reflexivity|].
    rewrite snd_bind by pure_continuation.
    unfold Gestures_create. now rewrite connection_fails.
  - reflexivity.
  - unfold delete_gesture. rewrite snd_bind by pure_continuation.
    unfold Gestures_delete. now rewrite connection_fails.
  - apply snd_retrieve_models.
  - unfold get_model. rewrite snd_bind by pure_continuation.
    apply snd_retrieve_models.
  - unfold register_model. rewrite snd_bind by pure_continuation.
    unfold Models_create. now rewrite connection_fails.
  - unfold delete_model. rewrite snd_bind by pure_continuation.
    unfold Models_delete. now rewrite connection_fails.
  - apply snd_retrieve_predictions.
  - now rewrite get_prediction_run.
  - unfold create_prediction. rewrite snd_bind by pure_continuation.
    unfold Predictions_create. now rewrite connection_fails.
  - reflexivity.
  - unfold delete_prediction. rewrite snd_bind by pure_continuation.
    unfold Predictions_delete. now rewrite connection_fails.
Qed.

End Properties.

(* ------------------------------------------------------------------------- *)
(** ** Further properties of the services and the routes *)
(* ------------------------------------------------------------------------- *)

Section MoreProperties.

Context {FM : FloatModel} {SM : ServerModel} {SL : ServerLaws SM}.

(** *** The connection life cycle *)

Lemma get_connection_live_or_disconnected_aux (s : service) (d : driver) :
  match svc_get_connection s d with
  | (Ok c, (s', d')) =>
      exists h, c = Some h /\ _connection s' = Some h /\ is_connected h d' = true
  | (Raise e, (s', d')) => _connection s' = None /\ d' = d
  end.
Proof.
  unfold svc_get_connection, connect.
  destruct (not_connected s d) eqn:Hnc.
  - unfold mysql_connect. destruct (accepts d (_db_config s)); cbn.
    + eexists. repeat split. unfold is_connected. cbn. now rewrite Z.eqb_refl.
    + now split.
  - unfold not_connected in Hnc. destruct (_connection s) as [h|] eqn:Hc;
      [|discriminate].
    exists h. apply negb_false_iff in Hnc. repeat split; assumption.
Qed.

(** [get_connection] either returns the handle now stored in [_connection],
    which is connected, or fails with the driver's error, having stored
    [None] and opened nothing. *)
Theorem get_connection_live_or_disconnected (s : service) (d : driver) :
  match svc_get_connection s d with
  | (Ok c, (s', d')) =>
      exists h, c = Some h
                /\ _connection s' = Some h
                /\ is_connected h d' = true
                /\ _db_config s' = _db_config s
  | (Raise e, (s', d')) =>
      e = MySQLError
      /\ _connection s' = None
      /\ d' = d
      /\ accepts d (_db_config s) = false
  end.
Proof.
  unfold svc_get_connection, connect.
  destruct (not_connected s d) eqn:Hnc.
  - unfold mysql_connect. destruct (accepts d (_db_config s)) eqn:Hacc; cbn.
    + eexists. repeat split. unfold is_connected. cbn. now rewrite Z.eqb_refl.
    + repeat split.
  - unfold not_connected in Hnc. destruct (_connection s) as [h|] eqn:Hc;
      [|discriminate].
    exists h. apply negb_false_iff in Hnc. repeat split; assumption.
Qed.

(** A second [get_connection] returns the same handle and opens nothing. *)
Theorem get_connection_reuses (s s1 : service) (d d1 : driver) (c : option Z) :
  svc_get_connection s d = (Ok c, (s1, d1)) ->
  svc_get_connection s1 d1 = (Ok c, (s1, d1)).
Proof.
  intros Hrun.
  pose proof (get_connection_live_or_disconnected_aux s d) as Hlive.
  rewrite Hrun in Hlive. destruct Hlive as (h & -> & Hc & Hh).
  unfold svc_get_connection, not_connected. now rewrite Hc, Hh.
Qed.

Lemma is_connected_after_close (h h' : Z) (d : driver) :
  is_connected h' (mysql_close h d)
  = if h' =? h then false else is_connected h' d.
Proof.
  unfold is_connected, mysql_close. cbn.
  induction (connected d) as [|x l IH]; cbn.
  - now destruct (h' =? h).
  - destruct (Z.eqb_spec x h) as [->|Hx]; cbn.
    + rewrite IH. destruct (Z.eqb_spec h' h); [reflexivity|]. reflexivity.
    + rewrite IH. destruct (Z.eqb_spec h' x) as [->|Hh]; cbn.
      * destruct (Z.eqb_spec x h); [contradiction|reflexivity].
      * reflexivity.
Qed.

(** [close_connection]: afterwards the service holds no connected handle, a
    second call does nothing, and no other handle is affected.  A handle
    that had already dropped is neither closed nor forgotten. *)
Theorem close_connection_idempotent (s : service) (d : driver) :
  let (s1, d1) := close_connection s d in
  close_connection s1 d1 = (s1, d1)
  /\ not_connected s1 d1 = true
  /\ (forall h, _connection s = Some h -> is_connected h d1 = false)
  /\ (forall h h', _connection s = Some h -> h' <> h ->
                   is_connected h' d1 = is_connected h' d)
  /\ (not_connected s d = true -> (s1, d1) = (s, d)).
Proof.
  unfold close_connection, not_connected.
  destruct (_connection s) as [h|] eqn:Hc.
  - destruct (is_connected h d) eqn:Hh; cbn -[mysql_close is_connected].
    + repeat split; try discriminate.
      * intros h0 [= <-]. rewrite is_connected_after_close.
        now rewrite Z.eqb_refl.
      * intros h0 h' [= <-] Hne. rewrite is_connected_after_close.
        now destruct (Z.eqb_spec h' h).
    + rewrite Hc, Hh. cbn. repeat split.
      * intros h0 [= <-]. exact Hh.
  - cbn. rewrite Hc. repeat split; discriminate.
Qed.

(** *** GET /health *)

(** The health route always answers 200 and changes nothing; it reports
    "healthy" and "connected" exactly when the connection can be made, and
    "loaded" for the model in every case. *)
Theorem health_check_never_fails (isoformat : Z -> string) (w : world) :
  health_check isoformat w
  = (Ok [("status", PStr (if reachable w then "healthy" else "degraded"));
         ("timestamp", PStr (isoformat (utcnow w)));
         ("service", PStr "Model Serving Microservice");
         ("version", PStr "1.0.0");
         ("database_status",
          PStr (if reachable w then "connected" else "unreachable"));
         ("model_status", PStr "loaded")], w)
  /\ http_status 200 (fst (health_check isoformat w)) = 200.
Proof.
  assert (Hok : try_except (get_connection ;; ret true) (ret false) w
                = (Ok (reachable w), w)).
  { unfold try_except. destruct (reachable w) eqn:Hup.
    - now rewrite bind_connection.
    - now rewrite connection_fails. }
  split.
  - unfold health_check. unfold bind at 1. rewrite Hok.
    destruct (reachable w); reflexivity.
  - unfold health_check. unfold bind at 1. rewrite Hok. reflexivity.
Qed.

(** *** Models *)

Lemma find_has_row {R} (key : R -> Z) (t : table R) (id : Z) :
  match find (fun r => key r =? id) (rows t) with
  | Some row => has_row key t id = true /\ In row (rows t) /\ key row = id
  | None => has_row key t id = false
  end.
Proof.
  unfold has_row. induction (rows t) as [|x l IH]; cbn; [reflexivity|].
  destruct (Z.eqb_spec (key x) id) as [Hx|Hx]; cbn.
  - repeat split; auto.
  - destruct (find _ l); [|exact IH].
    destruct IH as (H1 & H2 & H3). repeat split; auto.
Qed.

Lemma get_model_run (model_id : Z) (w : world) :
  reachable w = true ->
  get_model model_id w
  = match find (fun r => m_model_id r =? model_id) (rows (models w)) with
    | Some row => (Ok row, w)
    | None => (Raise (HTTPException 404 "Model not found"), w)
    end.
Proof.
  intros Hup. unfold get_model. unfold bind at 1. unfold Models_retrieve.
  rewrite bind_connection by exact Hup. unfold bind, get_world.
  destruct (find _ _); reflexivity.
Qed.

(** GET /models/{id} answers 404 exactly when no row has the identifier;
    otherwise it answers with a row of the table that has it.  The state is
    unchanged either way. *)
Theorem get_model_found_or_404 (model_id : Z) (w : world) :
  reachable w = true ->
  if has_row m_model_id (models w) model_id
  then exists row,
         get_model model_id w = (Ok row, w)
         /\ In row (rows (models w))
         /\ m_model_id row = model_id
  else get_model model_id w = (Raise (HTTPException 404 "Model not found"), w).
Proof.
  intros Hup.
  rewrite get_model_run by exact Hup.
  pose proof (find_has_row m_model_id (models w) model_id) as Hfind.
  destruct (find _ _) as [row|].
  - destruct Hfind as (-> & Hin & Hid). exists row. repeat split; assumption.
  - now rewrite Hfind.
Qed.

(** GET /models returns every row of the table, newest first, with no limit. *)
Theorem get_all_models_complete (w : world) :
  reachable w = true ->
  exists l,
    get_all_models w = (Ok l, w)
    /\ Permutation l (rows (models w))
    /\ newest_first m_created_at l.
Proof.
  intros Hup. eexists. split.
  - unfold get_all_models, Models_retrieve.
    rewrite bind_connection by exact Hup. reflexivity.
  - split; [apply order_by_desc_perm|apply order_by_desc_newest_first].
Qed.

Ltac run_getitems :=
  repeat (unfold bind at 1;
          match goal with
          | H : dict_lookup ?d ?k = Some _ |- context [getitem ?d ?k _] =>
              rewrite (getitem_present _ _ _ _ H)
          | H : dict_lookup ?d ?k = None |- context [getitem ?d ?k _] =>
              rewrite (getitem_absent _ _ _ H)
          end).

Lemma cast_null (stored : string) :
  cast_as_json "null" = Some stored -> stored = "null".
Proof.
  rewrite (cast_as_json_plain PNone eq_refl). cbn. now intros [= <-].
Qed.




(** *** Gestures *)

(** [GesturesMySQLService.create] needs [landmarks]: without it the call
    raises [KeyError] and inserts nothing.  With it the call asks for one
    row under the next identifier, stamped with the service's clock, with the
    optional fields taken from the data and "web" for an absent source: when
    the server takes the landmarks as JSON and executes the INSERT, the row
    is inserted and its identifier returned; when it does not, the call
    raises the driver's error and adds no row.  A coordinate that is not
    finite, or a user that is a list or an object, makes the call raise and
    leave the state as it was. *)
Theorem Gestures_create_row (data : pydict) (w : world) :
  reachable w = true ->
  match dict_lookup data "landmarks" with
  | None => Gestures_create data w = (Raise (KeyError "landmarks"), w)
  | Some points =>
      match cast_as_json (json_dumps points) with
      | Some landmarks_json =>
          let row :=
            gestures_insert_row (auto_increment (gestures w))
                                (dict_get data "session_id")
                                (dict_get data "user_id")
                                landmarks_json
                                (dict_get data "frame_width")
                                (dict_get data "frame_height")
                                (dict_get_default data "source" (PStr "web"))
                                (utcnow w) in
          Gestures_create data w
          = match insert_into_gestures w row with
            | Inserted =>
                (Ok (auto_increment (gestures w)),
                 set_gestures w
                   {| rows := rows (gestures w) ++ [row];
                      auto_increment := auto_increment (gestures w) + 1 |})
            | Refused identifier_used =>
                (Raise MySQLError,
                 set_gestures w (sql_refused identifier_used (gestures w)))
            end
      | None => Gestures_create data w = (Raise MySQLError, w)
      end
      /\ (all_finite points = false ->
          Gestures_create data w = (Raise MySQLError, w))
      /\ (bindable (dict_get data "user_id") = false ->
          Gestures_create data w = (Raise MySQLError, w))
  end.
Proof.
  intros Hup.
  destruct (dict_lookup data "landmarks") as [points|] eqn:Hlm.
  - rewrite (Gestures_create_run data points w Hup Hlm). split; [|split].
    + destruct (cast_as_json _); reflexivity.
    + intros Hfin. now rewrite cast_as_json_finite.
    + intros Hbind. destruct (cast_as_json _); [|reflexivity]. cbn zeta.
      rewrite insert_into_gestures_bindable
        by (cbn; rewrite Hbind; now rewrite andb_false_r).
      now rewrite gestures_not_refused.
  - unfold Gestures_create. rewrite bind_connection by exact Hup.
    run_getitems. reflexivity.
Qed.

Lemma map_no_match {A} (p : A -> bool) (f : A -> A) (l : list A) :
  existsb p l = false -> map (fun x => if p x then f x else x) l = l.
Proof.
  induction l as [|x l IH]; cbn; [reflexivity|].
  intros H. apply orb_false_iff in H. destruct H as [Hx Hl].
  now rewrite Hx, IH.
Qed.

Lemma existsb_none_and {A} (p q : A -> bool) (l : list A) :
  existsb p l = false -> existsb (fun x => p x && q x) l = false.
Proof.
  induction l as [|x l IH]; cbn; [reflexivity|].
  intros H. apply orb_false_iff in H. destruct H as [Hx Hl].
  now rewrite Hx, IH.
Qed.

Lemma existsb_all_unchanged {A} (p q : A -> bool) (l : list A) :
  (forall x, In x l -> p x = true -> q x = true) ->
  existsb (fun x => p x && negb (q x)) l = false.
Proof.
  induction l as [|x l IH]; cbn; [reflexivity|].
  intros H. rewrite IH by auto. destruct (p x) eqn:Hp; [|reflexivity].
  now rewrite (H x (or_introl eq_refl) Hp).
Qed.

Lemma Gestures_attach_inference_run
      (gesture_id model_id : Z) (predicted_label : string) (confidence : float)
      (probs : option pydict) (processing_time_ms : option Z) (w : world) :
  reachable w = true ->
  Gestures_attach_inference gesture_id model_id predicted_label confidence
                            probs processing_time_ms w
  = match cast_as_json (match probs with
                        | Some d => json_dumps (PDict d)
                        | None => "null"
                        end) with
    | Some probs_json =>
        let f := set_inference model_id predicted_label confidence probs_json
                               processing_time_ms (db_now w) in
        (Ok (existsb (fun r => (g_gesture_id r =? gesture_id)
                               && negb (gestures_unchanged r (f r)))
                     (rows (gestures w))),
         set_gestures w
           {| rows := map (fun r => if g_gesture_id r =? gesture_id then f r else r)
                          (rows (gestures w));
              auto_increment := auto_increment (gestures w) |})
    | None =>
        if has_row g_gesture_id (gestures w) gesture_id
           || evaluates_set_without_rows
        then (Raise MySQLError, w)
        else (Ok false, w)
    end.
Proof.
  intros Hup. unfold Gestures_attach_inference.
  rewrite bind_connection by exact Hup. unfold bind at 1, get_world.
  unfold sql_update_cast, has_row.
  destruct (existsb _ (rows (gestures w))) eqn:Hrow;
    [|destruct evaluates_set_without_rows]; cbn [orb].
  - unfold bind at 1. rewrite bind_cast.
    destruct (cast_as_json _); [|reflexivity].
    cbn -[json_dumps]. now rewrite length_filter_pos.
  - unfold bind at 1. rewrite bind_cast.
    destruct (cast_as_json _); [|reflexivity].
    cbn -[json_dumps]. now rewrite length_filter_pos.
  - unfold bind at 1, ret. cbn -[json_dumps].
    rewrite set_gestures_same.
    destruct (cast_as_json _); [|reflexivity]. cbn zeta.
    rewrite existsb_none_and, map_no_match by exact Hrow.
    now rewrite table_eta, set_gestures_same.
Qed.


(** *** A row and the operations that follow its creation *)

Lemma map_app_new {R} (key : R -> Z) (id : Z) (f : R -> R) (l : list R) (x : R) :
  Forall (fun r => key r < id) l ->
  key x = id ->
  map (fun r => if key r =? id then f r else r) (l ++ [x])%list = (l ++ [f x])%list.
Proof.
  intros Hl Hx. induction Hl as [|y l Hy _ IH]; cbn.
  - now rewrite Hx, Z.eqb_refl.
  - destruct (Z.eqb_spec (key y) id); [lia|]. now rewrite IH.
Qed.

Lemma filter_app_new {R} (key : R -> Z) (id : Z) (l : list R) (x : R) :
  Forall (fun r => key r < id) l ->
  key x = id ->
  filter (fun r => negb (key r =? id)) (l ++ [x])%list = l.
Proof.
  intros Hl Hx. induction Hl as [|y l Hy _ IH]; cbn.
  - now rewrite Hx, Z.eqb_refl.
  - destruct (Z.eqb_spec (key y) id); [lia|]. cbn. now rewrite IH.
Qed.

Lemma has_row_app_new {R} (key : R -> Z) (id : Z) (l : list R) (x : R) :
  key x = id -> existsb (fun r => key r =? id) (l ++ [x])%list = true.
Proof.
  intros Hx. rewrite existsb_app. cbn. rewrite Hx, Z.eqb_refl.
  now rewrite orb_true_r.
Qed.



(** *** Predictions *)

Lemma Predictions_mark_complete_run
      (prediction_id : Z) (output_text : string) (confidence : option float)
      (latency_ms : option Z) (error_message : option string) (w : world) :
  reachable w = true ->
  Predictions_mark_complete prediction_id output_text confidence latency_ms
                            error_message w
  = (Ok (existsb
           (fun r => (p_prediction_id r =? prediction_id)
                     && negb (predictions_unchanged r
                                (if truthy error_message
                                 then set_failed error_message (db_now w) r
                                 else set_succeeded output_text confidence
                                                    latency_ms (db_now w) r)))
           (rows (predictions w))),
     set_predictions w
       {| rows := map (fun r => if p_prediction_id r =? prediction_id
                                then (if truthy error_message
                                      then set_failed error_message (db_now w) r
                                      else set_succeeded output_text confidence
                                                         latency_ms (db_now w) r)
                                else r)
                      (rows (predictions w));
          auto_increment := auto_increment (predictions w) |}).
Proof.
  intros Hup. unfold Predictions_mark_complete.
  rewrite bind_connection by exact Hup. unfold bind at 1, get_world.
  destruct (truthy error_message); cbn; now rewrite length_filter_pos.
Qed.


Lemma Forall_map_matching {R} (key : R -> Z) (id : Z) (f : R -> R)
      (P : R -> Prop) (l : list R) :
  (forall r, key (f r) = key r) ->
  (forall r, P (f r)) ->
  Forall (fun r => key r = id -> P r)
         (map (fun r => if key r =? id then f r else r) l).
Proof.
  intros Hkey HP. induction l as [|x l IH]; cbn; constructor; auto.
  destruct (Z.eqb_spec (key x) id) as [Hx|Hx]; [intros _; apply HP|].
  intros H. contradiction.
Qed.

Lemma Forall_map_matching_from {R} (key : R -> Z) (id : Z) (f : R -> R)
      (P Q : R -> Prop) (l : list R) :
  (forall r, key (f r) = key r) ->
  (forall r, P r -> Q (f r)) ->
  Forall (fun r => key r = id -> P r) l ->
  Forall (fun r => key r = id -> Q r)
         (map (fun r => if key r =? id then f r else r) l).
Proof.
  intros Hkey HPQ Hl. induction Hl as [|x l Hx _ IH]; cbn; constructor; auto.
  destruct (Z.eqb_spec (key x) id) as [Hid|Hid]; [|intros H; contradiction].
  intros _. apply HPQ, Hx, Hid.
Qed.


(** What [params or {}] binds, given that the handler passes
    [payload.get("params", {})]. *)
Lemma bound_params (payload : pydict) :
  py_or (dict_get_default payload "params" (PDict [])) (PDict [])
  = if truthy (dict_get payload "params")
    then dict_get payload "params"
    else PDict [].
Proof.
  unfold dict_get_default, dict_get, py_or.
  destruct (dict_lookup payload "params") as [v|]; [|reflexivity].
  destruct (truthy v); reflexivity.
Qed.

(** POST /predictions asks for a row with the requestor, session and model
    of the body, the JSON text of its [params] (of the empty object when the
    body has no params or falsy ones, such as [0.0]) and the server's time.
    When the server takes the params as JSON and executes the INSERT the row
    is inserted; when it does not, the answer is the driver's error and no
    row is added.  Params with a float that is not finite, or a requestor,
    session or model that is a list or an object, make the request fail and
    leave the state as it was. *)
Theorem create_prediction_stored_row (payload : pydict) (w : world) :
  reachable w = true ->
  let params := dict_get payload "params" in
  let bound := if truthy params then params else PDict [] in
  match cast_as_json (json_dumps bound) with
  | Some params_json =>
      let row :=
        predictions_insert_row w (auto_increment (predictions w))
                               (dict_get payload "requestor_user_id")
                               (dict_get payload "session_id")
                               (dict_get payload "model_id")
                               (dict_get_default payload "status" (PStr "queued"))
                               params_json in
      create_prediction payload w
      = match insert_into_predictions w row with
        | Inserted =>
            (Ok [("prediction_id", PInt (auto_increment (predictions w)));
                 ("status", PStr "queued")],
             set_predictions w
               {| rows := rows (predictions w) ++ [row];
                  auto_increment := auto_increment (predictions w) + 1 |})
        | Refused identifier_used =>
            (Raise MySQLError,
             set_predictions w (sql_refused identifier_used (predictions w)))
        end
      /\ p_created_at row = db_now w
      /\ (truthy params = false -> p_params row = "{}")
  | None => create_prediction payload w = (Raise MySQLError, w)
  end
  /\ (all_finite bound = false ->
      create_prediction payload w = (Raise MySQLError, w))
  /\ (forallb bindable [dict_get payload "requestor_user_id";
                        dict_get payload "session_id";
                        dict_get payload "model_id"] = false ->
      create_prediction payload w = (Raise MySQLError, w)).
Proof.
  intros Hup. cbn zeta.
  assert (Hrun := create_prediction_run payload w Hup).
  rewrite bound_params in Hrun.
  split; [|split].
  - destruct (truthy (dict_get payload "params")) eqn:Ht.
    + destruct (cast_as_json _); cbn zeta in *; [|exact Hrun].
      split; [exact Hrun|]. split; [reflexivity|discriminate].
    + rewrite (cast_as_json_plain (PDict []) eq_refl) in *. cbn zeta in *.
      split; [exact Hrun|]. now split.
  - intros Hfin. rewrite Hrun. now rewrite cast_as_json_finite.
  - intros Hbind. rewrite Hrun.
    destruct (cast_as_json _); [|reflexivity]. cbn zeta.
    rewrite insert_into_predictions_bindable;
      [now rewrite predictions_not_refused|].
    cbn in *.
    destruct (bindable (dict_get payload "requestor_user_id"));
      destruct (bindable (dict_get payload "session_id"));
      destruct (bindable (dict_get payload "model_id"));
      cbn in *; (discriminate || reflexivity).
Qed.

(** *** Filtered listings *)

Lemma In_firstn {A} (n : nat) (l : list A) (x : A) :
  In x (firstn n l) -> In x l.
Proof.
  revert n. induction l as [|y l IH]; intros [|n]; cbn; try tauto.
  intros [H|H]; [now left|right; eauto].
Qed.

Lemma listing_sound {R} (key : R -> Z) (p : R -> bool) (n : nat) (l : list R) :
  let found := firstn n (order_by_desc key (filter p l)) in
  Forall (fun r => p r = true /\ In r l) found
  /\ newest_first key found
  /\ (List.length found <= n)%nat
  /\ ((List.length l <= n)%nat -> Permutation found (filter p l)).
Proof.
  cbn zeta. repeat split.
  - apply Forall_forall. intros r Hr. apply In_firstn in Hr.
    apply (Permutation_in _ (order_by_desc_perm key (filter p l))) in Hr.
    apply filter_In in Hr. tauto.
  - apply firstn_newest_first, order_by_desc_newest_first.
  - apply firstn_le_length.
  - intros Hlen. rewrite firstn_all2; [apply order_by_desc_perm|].
    rewrite (Permutation_length (order_by_desc_perm key (filter p l))).
    pose proof (filter_length_le p l). lia.
Qed.

(** With a non-empty [user_id], GET /gestures returns only rows whose user
    the server finds equal to it, taken from the table, newest first and at
    most [limit] of them, and all of them when the table has no more than
    [limit] rows; rows without a user are never among them.  The same holds
    for GET /predictions with a non-zero [session_id]. *)
Theorem filtered_listing_sound
        (c : ascii) (u : string) (session_id limit : Z) (w : world) :
  reachable w = true ->
  0 <= limit <= 18446744073709551615 ->
  session_id <> 0 ->
  (exists l,
      Gestures_retrieve (Some (String c u)) limit w = (Ok l, w)
      /\ Forall (fun r => sql_eq (g_user_id r) (PStr (String c u)) = true
                          /\ g_user_id r <> PNone
                          /\ In r (rows (gestures w))) l
      /\ newest_first g_received_at l
      /\ (List.length l <= Z.to_nat limit)%nat
      /\ ((List.length (rows (gestures w)) <= Z.to_nat limit)%nat ->
          Permutation l
            (filter (fun r => sql_eq (g_user_id r) (PStr (String c u)))
                    (rows (gestures w)))))
  /\ (exists l,
      Predictions_retrieve (Some session_id) limit w = (Ok l, w)
      /\ Forall (fun r => sql_eq (p_session_id r) (PInt session_id) = true
                          /\ p_session_id r <> PNone
                          /\ In r (rows (predictions w))) l
      /\ newest_first p_created_at l
      /\ (List.length l <= Z.to_nat limit)%nat
      /\ ((List.length (rows (predictions w)) <= Z.to_nat limit)%nat ->
          Permutation l
            (filter (fun r => sql_eq (p_session_id r) (PInt session_id))
                    (rows (predictions w))))).
Proof.
  intros Hup [Hlim _] Hsid. split.
  - eexists. split; [now apply Gestures_retrieve_filters|].
    destruct (listing_sound g_received_at
                (fun r => sql_eq (g_user_id r) (PStr (String c u)))
                (Z.to_nat limit) (rows (gestures w))) as (H1 & H2 & H3 & H4).
    repeat split; try assumption.
    eapply Forall_impl; [|exact H1]. cbn. intros r [Hr Hin].
    split; [exact Hr|]. split; [|exact Hin].
    intros Hnull. rewrite Hnull, sql_eq_null in Hr. discriminate.
  - eexists. split; [now apply Predictions_retrieve_filters|].
    destruct (listing_sound p_created_at
                (fun r => sql_eq (p_session_id r) (PInt session_id))
                (Z.to_nat limit) (rows (predictions w))) as (H1 & H2 & H3 & H4).
    repeat split; try assumption.
    eapply Forall_impl; [|exact H1]. cbn. intros r [Hr Hin].
    split; [exact Hr|]. split; [|exact Hin].
    intros Hnull. rewrite Hnull, sql_eq_null in Hr. discriminate.
Qed.

(** *** What a request can change, and how it can be answered *)

Ltac pure_continuation :=
  intros; repeat match goal with
                 | |- context [if ?b then _ else _] => destruct b
                 | |- context [match ?l with [] => _ | _ :: _ => _ end] => destruct l
                 end; reflexivity.

Lemma Models_create_writes (data : pydict) (w : world) :
  exists t, snd (Models_create data w) = set_models w t.
Proof.
  destruct (Models_create_cases data w) as [(row & _ & ->)|(e & used & ->)];
    eexists; reflexivity.
Qed.

Lemma Models_delete_writes (model_id : Z) (w : world) :
  exists t, snd (Models_delete model_id w) = set_models w t.
Proof.
  unfold Models_delete. destruct (reachable w) eqn:Hup.
  - rewrite bind_connection by exact Hup. eexists. reflexivity.
  - rewrite connection_fails by exact Hup. exists (models w).
    now rewrite set_models_same.
Qed.

Lemma Gestures_create_writes (data : pydict) (w : world) :
  exists t, snd (Gestures_create data w) = set_gestures w t.
Proof.
  destruct (Gestures_create_cases data w) as [(row & _ & ->)|(e & used & ->)];
    eexists; reflexivity.
Qed.

Lemma Gestures_delete_writes (gesture_id : Z) (w : world) :
  exists t, snd (Gestures_delete gesture_id w) = set_gestures w t.
Proof.
  unfold Gestures_delete. destruct (reachable w) eqn:Hup.
  - rewrite bind_connection by exact Hup. eexists. reflexivity.
  - rewrite connection_fails by exact Hup. exists (gestures w).
    now rewrite set_gestures_same.
Qed.

Lemma Predictions_create_writes (data : pydict) (w : world) :
  exists t, snd (Predictions_create data w) = set_predictions w t.
Proof.
  destruct (Predictions_create_cases data w) as [(row & _ & ->)|(used & ->)];
    eexists; reflexivity.
Qed.

Lemma Predictions_delete_writes (prediction_id : Z) (w : world) :
  exists t, snd (Predictions_delete prediction_id w) = set_predictions w t.
Proof.
  unfold Predictions_delete. destruct (reachable w) eqn:Hup.
  - rewrite bind_connection by exact Hup. eexists. reflexivity.
  - rewrite connection_fails by exact Hup. exists (predictions w).
    now rewrite set_predictions_same.
Qed.

Lemma post_gestures_writes (body : GestureInput) (w : world) :
  exists t, snd (post_gestures body w) = set_gestures w t.
Proof.
  unfold post_gestures, bind, GestureInput_validate.
  destruct (_ || _);
    [exists (gestures w); now rewrite set_gestures_same|].
  cbn [ret]. unfold create_gesture.
  destruct (_ <? 21);
    [exists (gestures w); now rewrite set_gestures_same|].
  rewrite snd_bind by pure_continuation. apply Gestures_create_writes.
Qed.

(** A request writes at most the table of its own route, and only POST and
    DELETE write at all: every GET and PUT leaves the whole state as it was.
    No request changes the clocks or the reachability of the server. *)
Theorem serve_footprint (get_one : Z -> M (option pydict)) (r : request) (w : world) :
  let w' := snd (serve get_one r w) in
  reachable w' = reachable w
  /\ utcnow w' = utcnow w
  /\ db_now w' = db_now w
  /\ match footprint_of r with
     | Writes_nothing => w' = w
     | Writes_models => gestures w' = gestures w /\ predictions w' = predictions w
     | Writes_gestures => models w' = models w /\ predictions w' = predictions w
     | Writes_predictions => models w' = models w /\ gestures w' = gestures w
     end.
Proof.
  cbn zeta. destruct r; unfold serve; rewrite snd_respond; cbn [footprint_of].
  - unfold list_gestures. rewrite snd_retrieve_gestures. repeat split.
  - rewrite get_gesture_run. repeat split.
  - destruct (post_gestures_writes body w) as (t & ->). repeat split.
  - repeat split.
  - unfold delete_gesture. rewrite snd_bind by pure_continuation.
    destruct (Gestures_delete_writes gesture_id w) as (t & ->). repeat split.
  - unfold get_all_models. rewrite snd_retrieve_models. repeat split.
  - unfold get_model. rewrite snd_bind by pure_continuation.
    rewrite snd_retrieve_models. repeat split.
  - unfold register_model. rewrite snd_bind by pure_continuation.
    destruct (Models_create_writes
                [("name", PStr (name body)); ("version", PStr (version body));
                 ("model_type", PStr (model_type body));
                 ("artifact_uri",
                  py_or (PStr (model_path body)) (PStr "/models/unknown.bin"));
                 ("input_shape", PList (map PInt (input_shape body)));
                 ("output_shape", PList [PInt (output_classes body)])] w)
      as (t & ->).
    repeat split.
  - unfold delete_model. rewrite snd_bind by pure_continuation.
    destruct (Models_delete_writes model_id w) as (t & ->). repeat split.
  - unfold list_predictions. rewrite snd_retrieve_predictions. repeat split.
  - rewrite get_prediction_run. repeat split.
  - unfold create_prediction. rewrite snd_bind by pure_continuation.
    match goal with
    | |- context [Predictions_create ?d w] =>
        destruct (Predictions_create_writes d w) as (t & ->)
    end.
    repeat split.
  - repeat split.
  - unfold delete_prediction. rewrite snd_bind by pure_continuation.
    destruct (Predictions_delete_writes prediction_id w) as (t & ->). repeat split.
Qed.

Lemma fst_respond {A} (code : Z) (handler : M A) (w : world) :
  fst (respond code handler w) = http_status code (fst (handler w)).
Proof. unfold respond. now destruct (handler w). Qed.

Lemma fst_bind_ok {A B} (c : M A) (k : A -> B) (w : world) :
  fst ((x <- c ;; ret (k x)) w)
  = match fst (c w) with Ok a => Ok (k a) | Raise e => Raise e end.
Proof. unfold bind, ret. now destruct (c w) as [[a|e] w']. Qed.

Lemma Gestures_retrieve_outcome (user_id : option string) (limit : Z) (w : world) :
  (exists l, fst (Gestures_retrieve user_id limit w) = Ok l)
  \/ fst (Gestures_retrieve user_id limit w) = Raise MySQLError.
Proof.
  unfold Gestures_retrieve. destruct (reachable w) eqn:Hup.
  - rewrite bind_connection by exact Hup. unfold bind, get_world, sql_limit.
    destruct (truthy user_id); destruct (limit <? 0); cbn; eauto.
  - rewrite connection_fails by exact Hup. now right.
Qed.

Lemma Predictions_retrieve_outcome (session_id : option Z) (limit : Z) (w : world) :
  (exists l, fst (Predictions_retrieve session_id limit w) = Ok l)
  \/ fst (Predictions_retrieve session_id limit w) = Raise MySQLError.
Proof.
  unfold Predictions_retrieve. destruct (reachable w) eqn:Hup.
  - rewrite bind_connection by exact Hup. unfold bind, get_world, sql_limit.
    destruct (truthy session_id); destruct (limit <? 0); cbn; eauto.
  - rewrite connection_fails by exact Hup. now right.
Qed.

Lemma delete_outcome (service_delete : M bool) (detail : string) (w : world) :
  (exists b, fst (service_delete w) = Ok b)
  \/ fst (service_delete w) = Raise MySQLError ->
  let answer :=
    fst ((ok <- service_delete ;;
          if negb ok then raise (HTTPException 404 detail)
          else ret [("deleted", PBool true)]) w) in
  http_status 200 answer = 200
  \/ http_status 200 answer = 404
  \/ http_status 200 answer = 500.
Proof.
  cbn zeta. unfold bind. destruct (service_delete w) as [[b|e] w']; cbn.
  - intros _. destruct b; cbn; auto.
  - intros [[b Hb]|He]; [discriminate|]. injection He as ->. cbn. auto.
Qed.

Lemma service_delete_outcome {R} (key : R -> Z) (w : world)
      (service_delete : M bool) (b : bool) (w1 : world) :
  (reachable w = true -> service_delete w = (Ok b, w1)) ->
  (reachable w = false -> service_delete w = (Raise MySQLError, w)) ->
  (exists b, fst (service_delete w) = Ok b)
  \/ fst (service_delete w) = Raise MySQLError.
Proof.
  intros Hup Hdown. destruct (reachable w).
  - left. exists b. now rewrite Hup.
  - right. now rewrite Hdown.
Qed.

Lemma create_gesture_unreachable (body : GestureInput) (w : world) :
  (21 <= List.length (landmarks body))%nat ->
  reachable w = false ->
  create_gesture body w = (Raise MySQLError, w).
Proof.
  intros Hlen Hdown. unfold create_gesture.
  destruct (Z.ltb_spec (Z.of_nat (List.length (landmarks body))) 21); [lia|].
  unfold bind at 1. unfold Gestures_create.
  now rewrite connection_fails.
Qed.

Lemma register_model_outcome (model_input : ModelInput) (w : world) :
  (exists a w1, register_model model_input w = (Ok a, w1))
  \/ (exists w1, register_model model_input w = (Raise MySQLError, w1)).
Proof.
  destruct (reachable w) eqn:Hup.
  - rewrite register_model_run by exact Hup.
    destruct (cast_as_json (json_dumps (PList (map PInt _)))); [|right; eauto].
    destruct (cast_as_json (json_dumps (PList [_]))); [|right; eauto].
    destruct (cast_as_json "null"); [|right; eauto].
    cbn zeta. destruct (insert_into_models w _); [left|right; eauto].
    do 2 eexists. reflexivity.
  - right. exists w. unfold register_model. unfold bind at 1. unfold Models_create.
    now rewrite connection_fails.
Qed.

Lemma create_prediction_outcome (payload : pydict) (w : world) :
  (exists a w1, create_prediction payload w = (Ok a, w1))
  \/ (exists w1, create_prediction payload w = (Raise MySQLError, w1)).
Proof.
  destruct (reachable w) eqn:Hup.
  - rewrite create_prediction_run by exact Hup.
    destruct (cast_as_json _); [|right; eauto].
    cbn zeta. destruct (insert_into_predictions w _); [left|right; eauto].
    do 2 eexists. reflexivity.
  - right. exists w. unfold create_prediction. unfold bind at 1. unfold Predictions_create.
    now rewrite connection_fails.
Qed.

Lemma get_all_models_outcome (w : world) :
  (exists a, fst (get_all_models w) = Ok a)
  \/ fst (get_all_models w) = Raise MySQLError.
Proof.
  unfold get_all_models, Models_retrieve. destruct (reachable w) eqn:Hup.
  - left. rewrite bind_connection by exact Hup. cbn. eauto.
  - right. now rewrite connection_fails.
Qed.

Lemma get_model_unreachable (model_id : Z) (w : world) :
  reachable w = false ->
  get_model model_id w = (Raise MySQLError, w).
Proof.
  intros Hdown. unfold get_model. unfold bind at 1. unfold Models_retrieve.
  now rewrite connection_fails.
Qed.

(** The status of every answer, route by route.  A listing answers 200 or
    500; reading one gesture or prediction, and every PUT, answers 500;
    POST /gestures answers 422 unless the body has exactly 21 points, and
    then 201 or 500; the other two POSTs answer 201 or 500; reading one
    model and every DELETE answer 200, 404 or 500.  No route answers 400. *)
Theorem serve_status (get_one : Z -> M (option pydict)) (r : request) (w : world) :
  let code := fst (serve get_one r w) in
  code <> 400
  /\ match r with
     | GET_gestures _ _ | GET_models | GET_predictions _ _ =>
         code = 200 \/ code = 500
     | GET_gesture _ | GET_prediction _ | PUT_gesture _ _ | PUT_prediction _ _ =>
         code = 500
     | POST_gestures body =>
         if (List.length (landmarks body) =? 21)%nat
         then code = 201 \/ code = 500
         else code = 422
     | POST_models _ | POST_predictions _ => code = 201 \/ code = 500
     | GET_model _ | DELETE_gesture _ | DELETE_model _ | DELETE_prediction _ =>
         code = 200 \/ code = 404 \/ code = 500
     end.
Proof.
  cbn zeta.
  assert (Hcases :
    match r with
    | GET_gestures _ _ | GET_models | GET_predictions _ _ =>
        fst (serve get_one r w) = 200 \/ fst (serve get_one r w) = 500
    | GET_gesture _ | GET_prediction _ | PUT_gesture _ _ | PUT_prediction _ _ =>
        fst (serve get_one r w) = 500
    | POST_gestures body =>
        if (List.length (landmarks body) =? 21)%nat
        then fst (serve get_one r w) = 201 \/ fst (serve get_one r w) = 500
        else fst (serve get_one r w) = 422
    | POST_models _ | POST_predictions _ =>
        fst (serve get_one r w) = 201 \/ fst (serve get_one r w) = 500
    | GET_model _ | DELETE_gesture _ | DELETE_model _ | DELETE_prediction _ =>
        fst (serve get_one r w) = 200 \/ fst (serve get_one r w) = 404
        \/ fst (serve get_one r w) = 500
    end).
  { destruct r as [u lim|gid|body|gid payload|gid| |mid|body|mid
                   |sid lim|pid|payload|pid payload|pid];
      unfold serve; rewrite fst_respond.
    - unfold list_gestures.
      destruct (Gestures_retrieve_outcome u (limit_or_default lim) w)
        as [[l ->]| ->]; cbn; auto.
    - now rewrite get_gesture_run.
    - destruct (post_gestures_cases body w)
        as [(row & _ & Hlen & _ & ->)|[(Hlen & used & ->)|(Hlen & ->)]].
      + apply Nat.eqb_eq in Hlen. rewrite Hlen. cbn. auto.
      + apply Nat.eqb_eq in Hlen. rewrite Hlen. cbn. auto.
      + apply Nat.eqb_neq in Hlen. now rewrite Hlen.
    - reflexivity.
    - apply delete_outcome.
      apply (service_delete_outcome g_gesture_id w _ _ _
               (Gestures_delete_run gid w)).
      intros Hdown. unfold Gestures_delete. now rewrite connection_fails.
    - destruct (get_all_models_outcome w) as [(a & ->)| ->]; cbn; auto.
    - destruct (reachable w) eqn:Hup.
      + pose proof (get_model_run mid w Hup) as Hrun. rewrite Hrun.
        destruct (find _ _); cbn; auto.
      + rewrite get_model_unreachable by exact Hup. cbn. auto.
    - destruct (register_model_outcome body w) as [(a & w1 & ->)|(w1 & ->)];
        cbn; auto.
    - apply delete_outcome.
      apply (service_delete_outcome m_model_id w _ _ _
               (Models_delete_run mid w)).
      intros Hdown. unfold Models_delete. now rewrite connection_fails.
    - unfold list_predictions.
      destruct (Predictions_retrieve_outcome sid (limit_or_default lim) w)
        as [[l ->]| ->]; cbn; auto.
    - now rewrite get_prediction_run.
    - destruct (create_prediction_outcome payload w)
        as [(a & w1 & ->)|(w1 & ->)]; cbn; auto.
    - reflexivity.
    - apply delete_outcome.
      apply (service_delete_outcome p_prediction_id w _ _ _
               (Predictions_delete_run pid w)).
      intros Hdown. unfold Predictions_delete. now rewrite connection_fails. }
  split; [|exact Hcases].
  destruct r; try destruct (_ =? _)%nat; lia.
Qed.

(** While the server cannot be reached, every request leaves the state as
    it was and is answered 500, except a POST /gestures whose body does not
    have exactly 21 points, which is answered 422 as usual. *)
Theorem serve_unreachable_answer
        (get_one : Z -> M (option pydict)) (r : request) (w : world) :
  reachable w = false ->
  serve get_one r w
  = (match r with
     | POST_gestures body =>
         if (List.length (landmarks body) =? 21)%nat then 500 else 422
     | _ => 500
     end, w).
Proof.
  intros Hdown.
  rewrite (surjective_pairing (serve get_one r w)).
  rewrite (serve_unreachable get_one r w Hdown). f_equal.
  destruct r as [u lim|gid|body|gid payload|gid| |mid|body|mid
                 |sid lim|pid|payload|pid payload|pid];
    unfold serve; rewrite fst_respond.
  - unfold list_gestures, Gestures_retrieve. now rewrite connection_fails.
  - now rewrite get_gesture_run.
  - unfold post_gestures, bind.
    destruct (Nat.eqb_spec (List.length (landmarks body)) 21) as [Hlen|Hlen].
    + rewrite GestureInput_validate_ok by exact Hlen.
      now rewrite create_gesture_unreachable by (lia || exact Hdown).
    + now rewrite GestureInput_validate_refuses.
  - reflexivity.
  - unfold delete_gesture. unfold bind at 1. unfold Gestures_delete.
    now rewrite connection_fails.
  - unfold get_all_models, Models_retrieve. now rewrite connection_fails.
  - now rewrite get_model_unreachable.
  - destruct (register_model_outcome body w) as [(a & w1 & Hok)|(w1 & ->)];
      [|reflexivity].
    exfalso. revert Hok. unfold register_model. unfold bind at 1.
    unfold Models_create. now rewrite connection_fails.
  - unfold delete_model. unfold bind at 1. unfold Models_delete.
    now rewrite connection_fails.
  - unfold list_predictions, Predictions_retrieve. now rewrite connection_fails.
  - now rewrite get_prediction_run.
  - destruct (create_prediction_outcome payload w)
      as [(a & w1 & Hok)|(w1 & ->)]; [|reflexivity].
    exfalso. revert Hok. unfold create_prediction. unfold bind at 1.
    unfold Predictions_create. now rewrite connection_fails.
  - reflexivity.
  - unfold delete_prediction. unfold bind at 1. unfold Predictions_delete.
    now rewrite connection_fails.
Qed.

(** *** No route rewrites a stored row *)

Lemma In_app_new {R} (key : R -> Z) (id : Z) (l : list R) (x row : R) :
  key x = id -> In row (l ++ [x]) -> In row l \/ key row = id.
Proof.
  intros Hx Hin. apply in_app_or in Hin. destruct Hin as [H|[<-|[]]]; auto.
Qed.

Lemma In_filter_weaken {R} (p : R -> bool) (l : list R) (row : R) (Q : Prop) :
  In row (filter p l) -> In row l \/ Q.
Proof. intros H. apply filter_In in H. tauto. Qed.

Lemma post_gestures_rows (body : GestureInput) (w : world) (row : gesture_row) :
  In row (rows (gestures (snd (post_gestures body w)))) ->
  In row (rows (gestures w)) \/ g_gesture_id row = auto_increment (gestures w).
Proof.
  destruct (post_gestures_cases body w)
    as [(new & Hid & _ & _ & ->)|[(_ & used & ->)|(_ & ->)]];
    [|cbn [snd gestures set_gestures]; rewrite sql_refused_rows; now left
     |now left].
  cbn. now apply In_app_new.
Qed.

Lemma register_model_rows (body : ModelInput) (w : world) (row : model_row) :
  In row (rows (models (snd (register_model body w)))) ->
  In row (rows (models w)) \/ m_model_id row = auto_increment (models w).
Proof.
  unfold register_model. rewrite snd_bind by pure_continuation.
  match goal with
  | |- context [Models_create ?d w] =>
      destruct (Models_create_cases d w) as [(new & Hid & ->)|(e & used & ->)]
  end; [|cbn [snd models set_models]; rewrite sql_refused_rows; now left].
  cbn. now apply In_app_new.
Qed.

Lemma create_prediction_rows (payload : pydict) (w : world) (row : prediction_row) :
  In row (rows (predictions (snd (create_prediction payload w)))) ->
  In row (rows (predictions w))
  \/ p_prediction_id row = auto_increment (predictions w).
Proof.
  unfold create_prediction. rewrite snd_bind by pure_continuation.
  match goal with
  | |- context [Predictions_create ?d w] =>
      destruct (Predictions_create_cases d w) as [(new & Hid & ->)|(used & ->)]
  end; [|cbn [snd predictions set_predictions]; rewrite sql_refused_rows;
         now left].
  cbn. now apply In_app_new.
Qed.

Lemma delete_gesture_rows (gesture_id : Z) (w : world) (row : gesture_row) (Q : Prop) :
  In row (rows (gestures (snd (delete_gesture gesture_id w)))) ->
  In row (rows (gestures w)) \/ Q.
Proof.
  unfold delete_gesture. rewrite snd_bind by pure_continuation.
  unfold Gestures_delete. destruct (reachable w) eqn:Hup.
  - rewrite bind_connection by exact Hup. cbn. apply In_filter_weaken.
  - rewrite connection_fails by exact Hup. now left.
Qed.

Lemma delete_model_rows (model_id : Z) (w : world) (row : model_row) (Q : Prop) :
  In row (rows (models (snd (delete_model model_id w)))) ->
  In row (rows (models w)) \/ Q.
Proof.
  unfold delete_model. rewrite snd_bind by pure_continuation.
  unfold Models_delete. destruct (reachable w) eqn:Hup.
  - rewrite bind_connection by exact Hup. cbn. apply In_filter_weaken.
  - rewrite connection_fails by exact Hup. now left.
Qed.

Lemma delete_prediction_rows (prediction_id : Z) (w : world)
      (row : prediction_row) (Q : Prop) :
  In row (rows (predictions (snd (delete_prediction prediction_id w)))) ->
  In row (rows (predictions w)) \/ Q.
Proof.
  unfold delete_prediction. rewrite snd_bind by pure_continuation.
  unfold Predictions_delete. destruct (reachable w) eqn:Hup.
  - rewrite bind_connection by exact Hup. cbn. apply In_filter_weaken.
  - rewrite connection_fails by exact Hup. now left.
Qed.

Lemma serve_state_cases (get_one : Z -> M (option pydict)) (r : request) (w : world) :
  snd (serve get_one r w)
  = match r with
    | POST_gestures body => snd (post_gestures body w)
    | DELETE_gesture gesture_id => snd (delete_gesture gesture_id w)
    | POST_models body => snd (register_model body w)
    | DELETE_model model_id => snd (delete_model model_id w)
    | POST_predictions payload => snd (create_prediction payload w)
    | DELETE_prediction prediction_id => snd (delete_prediction prediction_id w)
    | _ => w
    end.
Proof.
  destruct r; unfold serve; rewrite snd_respond;
    first [ reflexivity
          | apply snd_retrieve_gestures
          | apply snd_retrieve_models
          | apply snd_retrieve_predictions
          | unfold get_model; rewrite snd_bind by pure_continuation;
            apply snd_retrieve_models ].
Qed.

(** After any request, every row of every table either was in that table
    before the request, field for field, or is the row the request has just
    created under the next identifier.  No route updates a row in place:
    [attach_inference] and [mark_complete] are reached by none of them, so a
    stored gesture never receives an inference result and a stored
    prediction never changes its status through the HTTP surface. *)
Theorem serve_never_rewrites_a_row
        (get_one : Z -> M (option pydict)) (r : request) (w : world) :
  let w' := snd (serve get_one r w) in
  (forall row, In row (rows (models w')) ->
               In row (rows (models w))
               \/ m_model_id row = auto_increment (models w))
  /\ (forall row, In row (rows (gestures w')) ->
                  In row (rows (gestures w))
                  \/ g_gesture_id row = auto_increment (gestures w))
  /\ (forall row, In row (rows (predictions w')) ->
                  In row (rows (predictions w))
                  \/ p_prediction_id row = auto_increment (predictions w)).
Proof.
  cbn zeta. rewrite serve_state_cases.
  destruct r as [u lim|gid|body|gid payload|gid| |mid|body|mid
                 |sid lim|pid|payload|pid payload|pid];
    try (repeat split; intros row Hin; now left).
  - destruct (post_gestures_writes body w) as (t & Heq).
    repeat split; intros row Hin;
      [left|now apply (post_gestures_rows body)|left];
      rewrite Heq in Hin; exact Hin.
  - destruct (Gestures_delete_writes gid w) as (t & Heq).
    assert (Hsnd : snd (delete_gesture gid w) = set_gestures w t).
    { unfold delete_gesture. now rewrite snd_bind by pure_continuation. }
    repeat split; intros row Hin;
      [left|now apply (delete_gesture_rows gid w)|left];
      rewrite Hsnd in Hin; exact Hin.
  - repeat split; intros row Hin;
      [now apply (register_model_rows body)|left|left];
      revert Hin; unfold register_model; rewrite snd_bind by pure_continuation;
      match goal with
      | |- context [Models_create ?d w] =>
          destruct (Models_create_writes d w) as (t & ->)
      end; auto.
  - destruct (Models_delete_writes mid w) as (t & Heq).
    assert (Hsnd : snd (delete_model mid w) = set_models w t).
    { unfold delete_model. now rewrite snd_bind by pure_continuation. }
    repeat split; intros row Hin;
      [now apply (delete_model_rows mid w)|left|left];
      rewrite Hsnd in Hin; exact Hin.
  - repeat split; intros row Hin;
      [left|left|now apply (create_prediction_rows payload)];
      revert Hin; unfold create_prediction; rewrite snd_bind by pure_continuation;
      match goal with
      | |- context [Predictions_create ?d w] =>
          destruct (Predictions_create_writes d w) as (t & ->)
      end; auto.
  - destruct (Predictions_delete_writes pid w) as (t & Heq).
    assert (Hsnd : snd (delete_prediction pid w) = set_predictions w t).
    { unfold delete_prediction. now rewrite snd_bind by pure_continuation. }
    repeat split; intros row Hin;
      [left|left|now apply (delete_prediction_rows pid w)];
      rewrite Hsnd in Hin; exact Hin.
Qed.

(** *** Deleting and reading, creating and listing *)

(** After DELETE /models/{id}, whether or not it found a row, GET
    /models/{id} answers 404. *)
Theorem delete_model_then_get_model (model_id : Z) (w : world) :
  reachable w = true ->
  let w1 := snd (delete_model model_id w) in
  get_model model_id w1 = (Raise (HTTPException 404 "Model not found"), w1)
  /\ http_status 200 (fst (get_model model_id w1)) = 404.
Proof.
  intros Hup. cbn zeta.
  assert (Hsnd : snd (delete_model model_id w) = snd (Models_delete model_id w)).
  { unfold delete_model. now rewrite snd_bind by pure_continuation. }
  rewrite Hsnd, Models_delete_run by exact Hup. cbn [snd].
  set (w1 := set_models w _).
  assert (Hget : get_model model_id w1
                 = (Raise (HTTPException 404 "Model not found"), w1)).
  { rewrite get_model_run by exact Hup.
    pose proof (find_has_row m_model_id (models w1) model_id) as Hfind.
    destruct (find _ _) as [row|]; [|reflexivity].
    destruct Hfind as (Hhas & _). unfold has_row in Hhas. subst w1.
    cbn [models set_models rows] in Hhas.
    now rewrite existsb_filter_negb in Hhas. }
  rewrite Hget. now split.
Qed.

Lemma order_by_desc_newest_last {R} (key : R -> Z) (l : list R) (x : R) :
  Forall (fun r => key r < key x) l ->
  order_by_desc key (l ++ [x]) = x :: order_by_desc key l.
Proof.
  intros Hl. unfold order_by_desc. rewrite fold_right_app. cbn [fold_right insert_desc].
  induction Hl as [|y l Hy _ IH]; cbn [fold_right]; [reflexivity|].
  rewrite IH. cbn [insert_desc].
  destruct (Z.ltb_spec (key y) (key x)); [reflexivity|lia].
Qed.

(** A gesture submitted when the service's clock is later than every stored
    reception time: when the server takes its landmarks as JSON and executes
    the INSERT, the gesture heads the unfiltered listing that follows,
    whatever limit from 1 up to the largest the server takes is asked for;
    when it does not, the submission is answered with the driver's error and
    no row is added. *)
Theorem posted_gesture_is_listed_first (body : GestureInput) (limit : Z) (w : world) :
  reachable w = true ->
  List.length (landmarks body) = 21%nat ->
  Forall (fun r => g_received_at r < utcnow w) (rows (gestures w)) ->
  1 <= limit <= 18446744073709551615 ->
  match cast_as_json
          (json_dumps (PList (map (fun point => PList (map PFloat point))
                                  (landmarks body)))) with
  | Some landmarks_json =>
      let row :=
        gestures_insert_row (auto_increment (gestures w)) PNone
                            (of_opt PStr (user_id body)) landmarks_json
                            PNone PNone (PStr "api") (utcnow w) in
      match insert_into_gestures w row with
      | Inserted =>
          exists others w1,
            post_gestures body w
            = (Ok [("gesture_id", PInt (g_gesture_id row))], w1)
            /\ list_gestures None limit w1 = (Ok (row :: others), w1)
            /\ g_user_id row = of_opt PStr (user_id body)
      | Refused identifier_used =>
          post_gestures body w
          = (Raise MySQLError,
             set_gestures w (sql_refused identifier_used (gestures w)))
      end
  | None => post_gestures body w = (Raise MySQLError, w)
  end.
Proof.
  intros Hup Hlen Hclock [Hlim _].
  rewrite post_gestures_21 by exact Hlen.
  rewrite create_gesture_run by (lia || exact Hup).
  destruct (cast_as_json _) as [landmarks_json|]; [|reflexivity].
  cbn zeta. destruct (insert_into_gestures w _); [|reflexivity].
  set (row := gestures_insert_row _ _ _ _ _ _ _ _).
  set (w1 := set_gestures w _).
  exists (firstn (Z.to_nat limit - 1)
                 (order_by_desc g_received_at (rows (gestures w)))),
         w1.
  split; [reflexivity|]. split; [|reflexivity].
  unfold list_gestures, Gestures_retrieve.
  rewrite bind_connection by exact Hup. unfold bind at 1, get_world.
  cbn [truthy Truthy_option]. rewrite sql_limit_run by lia.
  subst w1. cbn [gestures set_gestures rows].
  rewrite order_by_desc_newest_last by exact Hclock.
  destruct (Z.to_nat limit) as [|n] eqn:Hn; [lia|].
  cbn [firstn Nat.sub]. now rewrite Nat.sub_0_r.
Qed.

(** *** A new service instance *)

(** A service constructed without a configuration, or with an empty one,
    connects with the process-wide configuration; constructed with a
    non-empty one it connects with that.  Its first [get_connection] opens
    the driver's next handle when the server accepts the configuration and
    otherwise fails, leaving the instance disconnected. *)
Theorem new_service_first_connection
        (db_config : option pydict) (DB_CONFIG : pydict) (d : driver) :
  let s := service_init db_config DB_CONFIG in
  _db_config s = match db_config with
                 | Some (binding :: rest) => binding :: rest
                 | _ => DB_CONFIG
                 end
  /\ svc_get_connection s d
     = if accepts d (_db_config s)
       then (Ok (Some (next_handle d)),
             (set_connection s (Some (next_handle d)),
              {| accepts := accepts d;
                 connected := next_handle d :: connected d;
                 next_handle := next_handle d + 1 |}))
       else (Raise MySQLError, (s, d)).
Proof.
  cbn zeta. split.
  - unfold service_init. cbn. destruct db_config as [[|b rest]|]; reflexivity.
  - unfold svc_get_connection, connect, not_connected, mysql_connect.
    cbn [service_init _connection].
    destruct (accepts d _); reflexivity.
Qed.

End MoreProperties.

(* ------------------------------------------------------------------------- *)
(** ** An example server *)
(* ------------------------------------------------------------------------- *)

Section JsonText.

Context {FM : FloatModel}.

Lemma pyval_nested_ind (P : pyval -> Prop) :
  P PNone ->
  (forall b, P (PBool b)) ->
  (forall n, P (PInt n)) ->
  (forall x, P (PFloat x)) ->
  (forall s, P (PStr s)) ->
  (forall l, Forall P l -> P (PList l)) ->
  (forall d, Forall (fun kv => P (snd kv)) d -> P (PDict d)) ->
  forall v, P v.
Proof.
  intros HN HB HI HF HS HL HD. fix IH 1. intros [ | b | n | x | s | l | d].
  - exact HN.
  - apply HB.
  - apply HI.
  - apply HF.
  - apply HS.
  - apply HL. induction l as [|x l IHl]; constructor; [apply IH|exact IHl].
  - apply HD. induction d as [|[k x] d IHd]; constructor; [apply IH|exact IHd].
Qed.

Lemma json_dumps_list (l : list pyval) :
  json_dumps (PList l) = "[" ++ elems_text l ++ "]".
Proof.
  cbn [json_dumps]. now do 2 f_equal.
Qed.

Lemma json_dumps_dict (d : list (string * pyval)) :
  json_dumps (PDict d) = "{" ++ members_text d ++ "}".
Proof.
  cbn [json_dumps]. now do 2 f_equal.
Qed.

Lemma all_finite_list (l : list pyval) :
  all_finite (PList l) = forallb all_finite l.
Proof.
  cbn [all_finite]. induction l as [|x r IH]; [reflexivity|].
  cbn [forallb]. now rewrite IH.
Qed.

Lemma all_finite_dict (d : list (string * pyval)) :
  all_finite (PDict d) = forallb (fun kv => all_finite (snd kv)) d.
Proof.
  cbn [all_finite]. induction d as [|[k x] r IH]; [reflexivity|].
  cbn [forallb snd]. now rewrite IH.
Qed.

Lemma mentions_app (a b : string) :
  mentions_N_or_I (a ++ b) = mentions_N_or_I a || mentions_N_or_I b.
Proof.
  induction a as [|c a IH]; [reflexivity|].
  cbn [append mentions_N_or_I]. now rewrite IH, orb_assoc.
Qed.

Lemma number_text_is_plain (s : string) :
  all_number_chars s = true -> mentions_N_or_I s = false.
Proof.
  induction s as [|c s IH]; [reflexivity|].
  cbn [all_number_chars mentions_N_or_I]. intros H.
  apply andb_prop in H. destruct H as [Hc Hs]. rewrite (IH Hs), orb_false_r.
  destruct c as [[] [] [] [] [] [] [] []]; try discriminate Hc; reflexivity.
Qed.

(** The text of a plain document has no capital N or I. *)
Lemma plain_scalar_text (v : pyval) :
  plain_scalar v = true -> mentions_N_or_I (json_dumps v) = false.
Proof.
  destruct v as [ | b | n | x | s | l | d]; try discriminate.
  - reflexivity.
  - now destruct b.
  - intros _. apply number_text_is_plain, string_of_Z_number_chars.
Qed.

Lemma plain_text (v : pyval) :
  plain_json v = true -> mentions_N_or_I (json_dumps v) = false.
Proof.
  destruct v as [ | b | n | x | s | l | d]; try discriminate;
    try apply plain_scalar_text.
  - rewrite json_dumps_list. cbn [plain_json]. intros Hl.
    cbn [append mentions_N_or_I is_N_or_I]. rewrite mentions_app.
    cbn. rewrite orb_false_r.
    induction l as [|x r IHr]; [reflexivity|].
    cbn [forallb] in Hl. apply andb_prop in Hl. destruct Hl as [Hpx Hpr].
    cbn [elems_text]. destruct r as [|y r]; [now apply plain_scalar_text|].
    rewrite !mentions_app. rewrite (plain_scalar_text x Hpx), (IHr Hpr).
    reflexivity.
  - destruct d as [|kv d]; [reflexivity|discriminate].
Qed.

End JsonText.

#[local] Existing Instance literal_floats.

(** With floats written as their literal, the text of a value that contains
    [NaN] or an [Infinity] has a capital N or I. *)
Lemma nonfinite_text (v : pyval) :
  all_finite v = false -> mentions_N_or_I (json_dumps v) = true.
Proof.
  induction v as [ | b | n | x | s | l IH | d IH] using pyval_nested_ind;
    try discriminate.
  - cbn. intros H. now apply negb_false_iff in H.
  - rewrite all_finite_list, json_dumps_list. intros Hl.
    cbn [append mentions_N_or_I]. rewrite mentions_app.
    apply orb_true_iff. right. apply orb_true_iff. left.
    induction IH as [|x r Hx _ IHr]; [discriminate|].
    cbn [forallb] in Hl. cbn [elems_text].
    destruct (all_finite x) eqn:Hfx.
    + cbn [andb] in Hl. destruct r as [|y r]; [discriminate|].
      rewrite !mentions_app, (IHr Hl). now rewrite !orb_true_r.
    + destruct r as [|y r]; [now apply Hx|].
      rewrite mentions_app, (Hx eq_refl). reflexivity.
  - rewrite all_finite_dict, json_dumps_dict. intros Hd.
    cbn [append mentions_N_or_I]. rewrite mentions_app.
    apply orb_true_iff. right. apply orb_true_iff. left.
    induction IH as [|[k x] r Hx _ IHr]; [discriminate|].
    cbn [forallb snd] in Hd, Hx. cbn [members_text].
    destruct (all_finite x) eqn:Hfx.
    + cbn [andb] in Hd. destruct r as [|y r]; [discriminate|].
      rewrite !mentions_app, (IHr Hd). now rewrite !orb_true_r.
    + destruct r as [|y r].
      * rewrite !mentions_app, (Hx eq_refl). now rewrite !orb_true_r.
      * rewrite !mentions_app, (Hx eq_refl). now rewrite !orb_true_r.
Qed.

Lemma example_cast_plain (v : pyval) :
  plain_json v = true ->
  Examples.cast_text (json_dumps v) = Some (json_dumps v).
Proof. intros H. unfold Examples.cast_text. now rewrite plain_text. Qed.

Lemma example_cast_finite (v : pyval) :
  all_finite v = false -> Examples.cast_text (json_dumps v) = None.
Proof. intros H. unfold Examples.cast_text. now rewrite nonfinite_text. Qed.

Lemma example_insert_unbound (values : list pyval) :
  forallb bindable values = false ->
  Examples.insert_bound values = Refused false.
Proof. intros H. unfold Examples.insert_bound. now rewrite H. Qed.

Lemma example_unchanged_processed_at (r r' : gesture_row) :
  Examples.same_inference r r' = true ->
  g_processed_at r = None -> g_processed_at r' = None.
Proof.
  unfold Examples.same_inference. intros H Hr.
  repeat (apply andb_prop in H; destruct H as [H ?]).
  rewrite Hr in *. now destruct (g_processed_at r').
Qed.

(** The example server keeps the laws. *)
Lemma example_server_laws : ServerLaws Examples.server.
Proof.
  constructor.
  - exact example_cast_plain.
  - exact example_cast_finite.
  - intros w r. apply example_insert_unbound.
  - intros w r. apply example_insert_unbound.
  - intros w r. apply example_insert_unbound.
  - reflexivity.
  - exact example_unchanged_processed_at.
Qed.

#[local] Existing Instance Examples.server.
#[local] Existing Instance example_server_laws.

(* ------------------------------------------------------------------------- *)
(** ** Concrete runs *)
(* ------------------------------------------------------------------------- *)

(** Evaluating what the example server answers in a hypothesis. *)
Ltac ask_server H :=
  cbv zeta in H;
  repeat match type of H with
         | context [cast_as_json ?t] =>
             let v := eval vm_compute in (cast_as_json t) in
             change (cast_as_json t) with v in H; cbv beta iota zeta in H
         | context [insert_into_models ?w ?r] =>
             let v := eval vm_compute in (insert_into_models w r) in
             change (insert_into_models w r) with v in H; cbv beta iota zeta in H
         | context [insert_into_gestures ?w ?r] =>
             let v := eval vm_compute in (insert_into_gestures w r) in
             change (insert_into_gestures w r) with v in H; cbv beta iota zeta in H
         | context [insert_into_predictions ?w ?r] =>
             let v := eval vm_compute in (insert_into_predictions w r) in
             change (insert_into_predictions w r) with v in H;
             cbv beta iota zeta in H
         end.

Lemma w_empty_wf : world_wf Examples.w_empty.
Proof. repeat split; constructor. Qed.

Lemma w_one_wf : world_wf Examples.w_one.
Proof. repeat split; repeat constructor. Qed.

(** GET /gestures/1 and GET /predictions/1 on a database that holds both
    rows, with [get_one] bound to a method that would return the row. *)
Lemma C1_failing_run :
  fst (get_gesture (fun _ => ret (Some [("gesture_id", PInt 1)])) 1 Examples.w_one)
    = Raise (AttributeError "GesturesMySQLService" "get_one")
  /\ fst (get_prediction (fun _ => ret (Some [("prediction_id", PInt 1)])) 1
                         Examples.w_one)
    = Raise (AttributeError "PredictionsMySQLService" "get_one").
Proof. split; reflexivity. Qed.

(** PUT /gestures/1 while gesture 1 exists does not answer 200. *)
Lemma C2_counterexample :
  ~ (has_row g_gesture_id (gestures Examples.w_one) 1 = true ->
     http_status 200
       (fst (update_gesture 1 [("predicted_label", PStr "A")] Examples.w_one)) = 200).
Proof. intros H. specialize (H eq_refl). discriminate H. Qed.

(** POST /gestures with 22 points is refused. *)
Lemma C3_counterexample :
  ~ ((21 <= List.length (landmarks {| landmarks := Examples.hand 22;
                                       user_id := Some "u1" |}))%nat ->
     http_status 201
       (fst (post_gestures {| landmarks := Examples.hand 22; user_id := Some "u1" |}
                           Examples.w_empty)) = 201).
Proof.
  intros H. assert (Hlen : (21 <= 22)%nat) by lia.
  specialize (H Hlen). discriminate H.
Qed.

(** POST /gestures with 21 points, one of which has a coordinate that is
    not a number: the body passes the request model and the INSERT fails. *)
Lemma post_gestures_not_a_number_run :
  let body := {| landmarks := [Examples.nan; Examples.zero] :: Examples.hand 20;
                 user_id := None |} in
  GestureInput_validate body Examples.w_one = (Ok tt, Examples.w_one)
  /\ post_gestures body Examples.w_one = (Raise MySQLError, Examples.w_one)
  /\ http_status 201 (fst (post_gestures body Examples.w_one)) = 500.
Proof. repeat split. Qed.

(** POST /gestures with 21 points on an empty, reachable database. *)
Lemma C3_witness :
  fst (post_gestures {| landmarks := Examples.hand 21; user_id := Some "u1" |}
                     Examples.w_empty)
  = Ok [("gesture_id", PInt 1)].
Proof.
  pose proof (C3_exactly_21_points_created
                {| landmarks := Examples.hand 21; user_id := Some "u1" |}
                Examples.w_empty eq_refl) as H.
  cbv zeta in H. destruct H as [H _].
  destruct (H eq_refl) as (_ & Hrun & _).
  ask_server Hrun. destruct Hrun as [Hrun _].
  rewrite Hrun. reflexivity.
Defined.


(** POST /gestures with 20 points. *)
Lemma C5_witness :
  post_gestures {| landmarks := Examples.hand 20; user_id := None |} Examples.w_one
  = (Raise RequestValidationError, Examples.w_one).
Proof.
  refine (proj1 (C5_fewer_than_21_points_rejected
                   {| landmarks := Examples.hand 20; user_id := None |}
                   Examples.w_one _)).
  simpl. lia.
Defined.

(** POST /predictions with status "failed" in the body stores "failed". *)
Lemma C6_counterexample :
  ~ (forall row,
        In row (rows (predictions
                        (snd (create_prediction [("status", PStr "failed")]
                                                Examples.w_empty)))) ->
        p_status row = PStr "queued").
Proof.
  intros H. specialize (H _ (or_introl eq_refl)). discriminate H.
Qed.

(** POST /predictions with a list as status: the value cannot be bound. *)
Lemma create_prediction_list_status_run :
  create_prediction [("status", PList [PStr "queued"])] Examples.w_one
  = (Raise MySQLError, Examples.w_one).
Proof. reflexivity. Qed.

(** POST /predictions without a status. *)
Lemma C6_witness :
  fst (create_prediction [("session_id", PInt 7)] Examples.w_empty)
  = Ok [("prediction_id", PInt 1); ("status", PStr "queued")].
Proof.
  pose proof (C6_created_prediction_status [("session_id", PInt 7)]
                Examples.w_empty eq_refl) as H.
  cbv zeta in H. destruct H as [Hrun _].
  ask_server Hrun. destruct Hrun as [Hrun _].
  rewrite Hrun. reflexivity.
Defined.

(** POST /models with the ASL model, then GET /models/1: the shape columns
    of the row returned are strings, not lists. *)
Lemma C7_counterexample :
  ~ (forall model_id w1 row,
        register_model Examples.asl_model Examples.w_empty
        = (Ok [("model_id", PInt model_id)], w1) ->
        get_model model_id w1 = (Ok row, w1) ->
        json_column (m_input_shape row) = PList [PInt 42]
        /\ json_column (m_output_shape row) = PList [PInt 37]).
Proof.
  intros H. destruct (H 1 _ _ eq_refl eq_refl) as [Hin _]. discriminate Hin.
Qed.

(** POST /models with the ASL model, then GET /models/1. *)
Lemma C7_witness :
  exists w1 row,
    register_model Examples.asl_model Examples.w_empty
    = (Ok [("model_id", PInt 1)], w1)
    /\ get_model 1 w1 = (Ok row, w1)
    /\ json_column (m_input_shape row) = PStr "[42]"
    /\ json_column (m_output_shape row) = PStr "[37]".
Proof.
  pose proof (C7_shapes_are_returned_as_json_text Examples.asl_model
                Examples.w_empty eq_refl (Forall_nil _) eq_refl eq_refl) as H.
  ask_server H.
  destruct H as (Hreg & Hget & _ & _ & Hin & Hout & _).
  do 2 eexists. split; [exact Hreg|]. split; [exact Hget|].
  split; [exact Hin|exact Hout].
Defined.

(** DELETE /models/999 while only model 1 exists. *)
Lemma C8_witness :
  delete_model 999 Examples.w_one
  = (Raise (HTTPException 404 "Model not found"), Examples.w_one).
Proof.
  exact (proj1 (proj2 (proj1 (C8_delete_not_found_is_repeatable 999 Examples.w_one
                                eq_refl) eq_refl))).
Defined.

(** POST /gestures stores source "api", not "web". *)
Lemma C9_counterexample :
  ~ (forall row,
        In row (rows (gestures
                        (snd (post_gestures {| landmarks := Examples.hand 21;
                                               user_id := None |}
                                            Examples.w_empty)))) ->
        g_source row = PStr "web").
Proof.
  intros H. specialize (H _ (or_introl eq_refl)). discriminate H.
Qed.

(** The row that POST /gestures stores. *)
Lemma C9_witness :
  exists row,
    rows (gestures (snd (post_gestures {| landmarks := Examples.hand 21;
                                          user_id := None |} Examples.w_empty)))
    = [row]
    /\ g_source row = PStr "api".
Proof.
  destruct (C9_source_of_created_gesture
              {| landmarks := Examples.hand 21; user_id := None |}
              [("landmarks", PList [])] (PList []) Examples.w_empty
              eq_refl eq_refl eq_refl eq_refl)
    as [[(row & Hrows & Hsrc)|Hrefused] _].
  - exists row. split; assumption.
  - destruct Hrefused as [used Hrefused].
    vm_compute in Hrefused. discriminate Hrefused.
Defined.


(* ------------------------------------------------------------------------- *)
(** ** Concrete runs of the further properties *)
(* ------------------------------------------------------------------------- *)

(** A first [get_connection] opens handle 1; a second one returns it again. *)
Lemma get_connection_reuses_witness :
  exists s1 d1,
    svc_get_connection Examples.fresh_service Examples.driver_up
    = (Ok (Some 1), (s1, d1))
    /\ svc_get_connection s1 d1 = (Ok (Some 1), (s1, d1)).
Proof.
  do 2 eexists. split; [reflexivity|].
  apply (get_connection_reuses Examples.fresh_service _ Examples.driver_up).
  reflexivity.
Defined.

(** GET /models/1 while model 1 exists. *)
Lemma get_model_found_or_404_witness :
  exists row,
    get_model 1 Examples.w_one = (Ok row, Examples.w_one)
    /\ In row (rows (models Examples.w_one))
    /\ m_model_id row = 1.
Proof. exact (get_model_found_or_404 1 Examples.w_one eq_refl). Defined.

(** GET /models on the one-row database. *)
Lemma get_all_models_complete_witness :
  exists l,
    get_all_models Examples.w_one = (Ok l, Examples.w_one)
    /\ Permutation l (rows (models Examples.w_one))
    /\ newest_first m_created_at l.
Proof. exact (get_all_models_complete Examples.w_one eq_refl). Defined.




(** Creating a gesture with a coordinate that is not a number. *)
Lemma Gestures_create_row_witness :
  Gestures_create [("landmarks", PList [PList [PFloat Examples.nan]])]
                  Examples.w_one
  = (Raise MySQLError, Examples.w_one).
Proof.
  exact (proj1 (proj2 (Gestures_create_row
                         [("landmarks", PList [PList [PFloat Examples.nan]])]
                         Examples.w_one eq_refl))
               eq_refl).
Defined.






(** POST /predictions with params 0.0: the empty object is stored. *)
Lemma create_prediction_stored_row_witness :
  exists row w1,
    create_prediction [("session_id", PInt 7); ("params", PFloat Examples.zero)]
                      Examples.w_one
    = (Ok [("prediction_id", PInt 2); ("status", PStr "queued")], w1)
    /\ rows (predictions w1) = [Examples.prediction_1; row]
    /\ p_params row = "{}".
Proof.
  pose proof (create_prediction_stored_row
                [("session_id", PInt 7); ("params", PFloat Examples.zero)]
                Examples.w_one eq_refl) as H.
  cbv zeta in H. destruct H as [H _].
  ask_server H. destruct H as (Hrun & _ & Hparams).
  do 2 eexists. split; [exact Hrun|]. split; [reflexivity|].
  exact (Hparams eq_refl).
Defined.

(** GET /gestures?user_id=u1&limit=10. *)
Lemma filtered_listing_sound_witness :
  exists l,
    Gestures_retrieve (Some "u1") 10 Examples.w_one = (Ok l, Examples.w_one)
    /\ Forall (fun r => sql_eq (g_user_id r) (PStr "u1") = true
                        /\ g_user_id r <> PNone
                        /\ In r (rows (gestures Examples.w_one))) l.
Proof.
  destruct (filtered_listing_sound "u" "1" 7 10 Examples.w_one eq_refl)
    as [(l & Hrun & Hall & _) _].
  - lia.
  - discriminate.
  - exists l. split; assumption.
Defined.

(** DELETE /models/1 while the server is out of reach. *)
Lemma serve_unreachable_answer_witness :
  serve Examples.get_none (DELETE_model 1) Examples.w_down = (500, Examples.w_down).
Proof.
  exact (serve_unreachable_answer Examples.get_none (DELETE_model 1)
           Examples.w_down eq_refl).
Defined.

(** DELETE /models/1, then GET /models/1. *)
Lemma delete_model_then_get_model_witness :
  http_status 200 (fst (get_model 1 (snd (delete_model 1 Examples.w_one)))) = 404.
Proof.
  exact (proj2 (delete_model_then_get_model 1 Examples.w_one eq_refl)).
Defined.

(** POST /gestures at time 1000, then GET /gestures?limit=1. *)
Lemma posted_gesture_is_listed_first_witness :
  exists row others w1,
    post_gestures {| landmarks := Examples.hand 21; user_id := Some "u2" |}
                  Examples.w_one
    = (Ok [("gesture_id", PInt (g_gesture_id row))], w1)
    /\ list_gestures None 1 w1 = (Ok (row :: others), w1)
    /\ g_user_id row = PStr "u2".
Proof.
  pose proof (posted_gesture_is_listed_first
                {| landmarks := Examples.hand 21; user_id := Some "u2" |}
                1 Examples.w_one eq_refl eq_refl) as H.
  assert (Hclock : Forall (fun r => g_received_at r < utcnow Examples.w_one)
                          (rows (gestures Examples.w_one)))
    by (repeat constructor).
  specialize (H Hclock ltac:(lia)).
  ask_server H. destruct H as (others & w1 & Hpost & Hlist & Huser).
  eexists _, others, w1. split; [exact Hpost|]. split; [exact Hlist|exact Huser].
Defined.

(** Two requests from the empty database. *)
Lemma serve_all_keeps_wf_witness :
  world_wf (serve_all Examples.get_none
                      [POST_models Examples.asl_model; DELETE_model 1]
                      Examples.w_empty).
Proof.
  apply serve_all_keeps_wf. repeat split; constructor.
Defined.

(** DELETE /gestures/1 twice. *)
Lemma Gestures_delete_repeatable_witness :
  delete_gesture 1 (snd (Gestures_delete 1 Examples.w_one))
  = (Raise (HTTPException 404 "Gesture not found"),
     snd (Gestures_delete 1 Examples.w_one)).
Proof.
  exact (proj2 (proj2 (Gestures_delete_repeatable 1 Examples.w_one eq_refl))).
Defined.

(** DELETE /predictions/1 twice. *)
Lemma Predictions_delete_repeatable_witness :
  delete_prediction 1 (snd (Predictions_delete 1 Examples.w_one))
  = (Raise (HTTPException 404 "Prediction not found"),
     snd (Predictions_delete 1 Examples.w_one)).
Proof.
  exact (proj2 (proj2 (Predictions_delete_repeatable 1 Examples.w_one eq_refl))).
Defined.
